(** * dex-liquidity: order-book store, liquidity engine and price history

    A shallow embedding of the Python backend
    ([backend/models.py], [backend/orderbook_cache.py],
    [backend/liquidity_calculator.py], [backend/orderbook_manager.py])
    together with the properties of its specification.

    Modelling conventions.
    - Python [float] values (prices, sizes, USD amounts, timestamps) are
      exact rationals [Qc]: arithmetic is the arithmetic of the source
      without rounding, and there is no NaN or infinity.  The literal
      [0.01] is the rational 1/100.
    - A [dict] is a [gmap]; every consumer of the price maps goes through
      [sorted], so insertion order is not observable.
    - A raised exception is a value: [Raise e].  Every [/] of the source
      whose divisor is not a literal goes through [py_div], which raises
      [ZeroDivisionError] on a zero divisor and records the operands.
    - The [async] methods of the manager never suspend while they hold the
      per-key lock, so each one is a single state transition.
      [asyncio.create_task] appends to the list of scheduled tasks when
      it is handed a coroutine and raises [TypeError] otherwise. *)

From Stdlib Require Import QArith Qcanon Lqa.
From stdpp Require Import base numbers gmap list strings sorting pretty.

Local Open Scope Qc_scope.

(** Decimal literals: [n # d] as a canonical rational. *)
Definition dec (n : Z) (d : positive) : Qc := Q2Qc (n # d).

(** ** models.py: OrderBookLevel *)

Module OrderBookLevel.
Record t : Type := make { price : Qc; size : Qc }.
End OrderBookLevel.

(** ** The Python runtime: exceptions and division *)

Inductive exn : Type :=
  | ZeroDivisionError
  | ValidationError
  | TypeError.

Inductive result (A : Type) : Type :=
  | Ok (a : A)
  | Raise (e : exn).
Arguments Ok {A} a.
Arguments Raise {A} e.

(** The place in the source where a division is written. *)
Inductive DivSite : Type :=
  | tokens_at_level (level : OrderBookLevel.t)  (* remaining_usd / level.price *)
  | avg_price_site                              (* total / total_tokens *)
  | slippage_bps_site                           (* slippage / current_price *)
  | spread_bps_site.                            (* self.spread / self.mid_price *)

Record DivEvent : Type := { site : DivSite; num : Qc; den : Qc }.

(** A computation that may raise and that records the divisions it
    evaluates, in order. *)
Definition traced (A : Type) : Type := list DivEvent * result A.

Definition events {A} (c : traced A) : list DivEvent := c.1.
Definition outcome {A} (c : traced A) : result A := c.2.

Global Instance traced_ret : MRet traced := λ A a, ([], Ok a).
Global Instance traced_bind : MBind traced := λ A B f c,
  match c.2 with
  | Ok a => let r := f a in (c.1 ++ r.1, r.2)
  | Raise e => (c.1, Raise e)
  end.

Definition py_div (s : DivSite) (x y : Qc) : traced Qc :=
  ([ {| site := s; num := x; den := y |} ],
   if bool_decide (y = 0) then Raise ZeroDivisionError else Ok (x / y)).

(** Truth value of an [Optional[float]]: [None] and [0.0] are false. *)
Definition truthy (o : option Qc) : bool :=
  match o with
  | Some x => bool_decide (x ≠ 0)
  | None => false
  end.

(** Truth value of a list: non-empty. *)
Definition nonempty {A} (l : list A) : bool :=
  match l with [] => false | _ :: _ => true end.

(** [l[:n]] *)
Definition slice_to {A} (l : list A) (n : Z) : list A :=
  if bool_decide (0 ≤ n)%Z then take (Z.to_nat n) l
  else take (length l - Z.to_nat (- n)) l.

(** [int(x)]: truncation towards zero. *)
Definition int (x : Qc) : Z := Z.quot (Qnum (this x)) (Zpos (Qden (this x))).

(** ** models.py: snapshots, metrics, price points *)

(** [Literal["hyperliquid", "lighter"]] *)
Definition exchange_literal (e : string) : bool :=
  bool_decide (e = "hyperliquid" ∨ e = "lighter").

Module OrderBookSnapshot.
Record t : Type := {
  exchange : string;
  market : string;
  bids : list OrderBookLevel.t;
  asks : list OrderBookLevel.t;
  timestamp : Qc;
}.

(** The pydantic constructor: the [exchange] field is validated. *)
Definition make (exchange market : string)
    (bids asks : list OrderBookLevel.t) (timestamp : Qc) : result t :=
  if exchange_literal exchange
  then Ok {| exchange := exchange; market := market; bids := bids;
             asks := asks; timestamp := timestamp |}
  else Raise ValidationError.

Definition mid_price (self : t) : option Qc :=
  match bids self, asks self with
  | b :: _, a :: _ =>
      Some ((OrderBookLevel.price b + OrderBookLevel.price a) / dec 2 1)
  | _, _ => None
  end.

Definition spread (self : t) : option Qc :=
  match bids self, asks self with
  | b :: _, a :: _ => Some (OrderBookLevel.price a - OrderBookLevel.price b)
  | _, _ => None
  end.

Definition spread_bps (self : t) : traced (option Qc) :=
  if truthy (mid_price self) && truthy (spread self) then
    match spread self, mid_price self with
    | Some s, Some m =>
        r ← py_div spread_bps_site s m; mret (Some (r * dec 10000 1))
    | _, _ => mret None
    end
  else mret None.
End OrderBookSnapshot.

Module LiquidityMetric.
Record t : Type := {
  size_usd : Qc;
  total_cost : Qc;
  avg_price : Qc;
  slippage_bps : Qc;
  levels_used : nat;
  feasible : bool;
}.
End LiquidityMetric.

Module LiquidityMetrics.
(** One entry of [metrics]: the dict [{"buy": ..., "sell": ...}]. *)
Record pair : Type := { buy : LiquidityMetric.t; sell : LiquidityMetric.t }.

Record t : Type := {
  exchange : string;
  market : string;
  timestamp : Qc;
  metrics : gmap string pair;
}.

Definition make (exchange market : string) (timestamp : Qc)
    (metrics : gmap string pair) : result t :=
  if exchange_literal exchange
  then Ok {| exchange := exchange; market := market;
             timestamp := timestamp; metrics := metrics |}
  else Raise ValidationError.
End LiquidityMetrics.

Module PricePoint.
Record t : Type := { timestamp : Qc; price : Qc }.
End PricePoint.

Module PriceHistory.
Record t : Type := {
  exchange : string;
  market : string;
  data_points : list PricePoint.t;
  timeframe_seconds : Z;
}.

Definition make (exchange market : string)
    (data_points : list PricePoint.t) (timeframe_seconds : Z) : result t :=
  if exchange_literal exchange
  then Ok {| exchange := exchange; market := market;
             data_points := data_points;
             timeframe_seconds := timeframe_seconds |}
  else Raise ValidationError.
End PriceHistory.

(** ** orderbook_cache.py *)

(** The dict returned by [OrderbookCache.get_stats]. *)
Module CacheStats.
Record t : Type := {
  exchange : string;
  market : string;
  bid_levels : nat;
  ask_levels : nat;
  best_bid : option Qc;
  best_ask : option Qc;
  mid_price : option Qc;
  spread : option Qc;
  initialized : bool;
  last_update : Qc;
}.
End CacheStats.

Module OrderbookCache.
Record t : Type := {
  exchange : string;
  market : string;
  _bids : gmap Qc Qc;
  _asks : gmap Qc Qc;
  _last_update_timestamp : Qc;
  _initialized : bool;
}.

(** [__init__] *)
Definition new (exchange market : string) : t :=
  {| exchange := exchange; market := market; _bids := ∅; _asks := ∅;
     _last_update_timestamp := 0; _initialized := false |}.

(** [for level in levels: side[level.price] = level.size] *)
Definition store_levels (side : gmap Qc Qc)
    (levels : list OrderBookLevel.t) : gmap Qc Qc :=
  foldl (λ d level,
           <[OrderBookLevel.price level := OrderBookLevel.size level]> d)
        side levels.

Definition initialize (self : t) (bids asks : list OrderBookLevel.t)
    (timestamp : Qc) : t :=
  {| exchange := exchange self; market := market self;
     _bids := store_levels ∅ bids;
     _asks := store_levels ∅ asks;
     _last_update_timestamp := timestamp;
     _initialized := true |}.

(** One iteration of the update loops. *)
Definition apply_level (side : gmap Qc Qc) (level : OrderBookLevel.t)
    : gmap Qc Qc :=
  if bool_decide (OrderBookLevel.size level ≤ 0)
  then delete (OrderBookLevel.price level) side
  else <[OrderBookLevel.price level := OrderBookLevel.size level]> side.

Definition apply_levels (side : gmap Qc Qc)
    (levels : list OrderBookLevel.t) : gmap Qc Qc :=
  foldl apply_level side levels.

Definition update (self : t) (bids asks : list OrderBookLevel.t)
    (timestamp : Qc) : t :=
  if negb (_initialized self) then initialize self bids asks timestamp
  else
    {| exchange := exchange self; market := market self;
       _bids := apply_levels (_bids self) bids;
       _asks := apply_levels (_asks self) asks;
       _last_update_timestamp := timestamp;
       _initialized := _initialized self |}.

Definition to_level (item : Qc * Qc) : OrderBookLevel.t :=
  OrderBookLevel.make item.1 item.2.

(** The sort key [lambda x: x[0]] and the two orders on it. *)
Definition key_le (x y : Qc * Qc) : Prop := x.1 ≤ y.1.
Definition key_ge (x y : Qc * Qc) : Prop := y.1 ≤ x.1.

Global Instance key_le_dec : RelDecision key_le :=
  λ x y, decide (x.1 ≤ y.1).
Global Instance key_ge_dec : RelDecision key_ge :=
  λ x y, decide (y.1 ≤ x.1).

(** [sorted(d.items(), key=lambda x: x[0])] *)
Definition sorted_ascending (d : gmap Qc Qc) : list (Qc * Qc) :=
  merge_sort key_le (map_to_list d).

(** [sorted(d.items(), key=lambda x: x[0], reverse=True)] *)
Definition sorted_descending (d : gmap Qc Qc) : list (Qc * Qc) :=
  merge_sort key_ge (map_to_list d).

(** [if limit: xs = xs[:limit]] *)
Definition apply_limit {A} (limit : option Z) (xs : list A) : list A :=
  match limit with
  | Some n => if bool_decide (n ≠ 0%Z) then slice_to xs n else xs
  | None => xs
  end.

Definition get_sorted_levels (self : t) (limit : option Z)
    : list OrderBookLevel.t * list OrderBookLevel.t :=
  let sorted_bids := apply_limit limit (sorted_descending (_bids self)) in
  let sorted_asks := apply_limit limit (sorted_ascending (_asks self)) in
  (to_level <$> sorted_bids, to_level <$> sorted_asks).

Definition is_initialized (self : t) : bool := _initialized self.

Definition has_valid_book (self : t) : bool :=
  _initialized self
  && bool_decide (0 < size (_bids self))%nat
  && bool_decide (0 < size (_asks self))%nat.

(** [xs[0].price if xs else None] *)
Definition first_price (xs : list OrderBookLevel.t) : option Qc :=
  match xs with
  | x :: _ => Some (OrderBookLevel.price x)
  | [] => None
  end.

Definition get_stats (self : t) : CacheStats.t :=
  let '(bids, asks) := get_sorted_levels self (Some 1%Z) in
  let best_bid := first_price bids in
  let best_ask := first_price asks in
  let quoted := truthy best_bid && truthy best_ask in
  {| CacheStats.exchange := exchange self;
     CacheStats.market := market self;
     CacheStats.bid_levels := size (_bids self);
     CacheStats.ask_levels := size (_asks self);
     CacheStats.best_bid := best_bid;
     CacheStats.best_ask := best_ask;
     CacheStats.mid_price :=
       match best_bid, best_ask with
       | Some b, Some a => if quoted then Some ((b + a) / dec 2 1) else None
       | _, _ => None
       end;
     CacheStats.spread :=
       match best_bid, best_ask with
       | Some b, Some a => if quoted then Some (a - b) else None
       | _, _ => None
       end;
     CacheStats.initialized := _initialized self;
     CacheStats.last_update := _last_update_timestamp self |}.
End OrderbookCache.

(** ** config.py *)

Definition LIQUIDITY_SIZES : list Qc :=
  [dec 1000 1; dec 5000 1; dec 10000 1; dec 50000 1;
   dec 100000 1; dec 200000 1; dec 500000 1; dec 1000000 1].

Definition PRICE_HISTORY_SECONDS : Z := 3600.

(** ** liquidity_calculator.py *)

Definition lift {A} (r : result A) : traced A := ([], r).

Module LiquidityCalculator.
(** The local variables of a walk.  [total] is [total_cost] in
    [calculate_buy_cost] and [total_proceeds] in [calculate_sell_cost]. *)
Record walk_state : Type := {
  remaining_usd : Qc;
  total : Qc;
  total_tokens : Qc;
  levels_used : nat;
}.

Definition walk_start (size_usd : Qc) : walk_state :=
  {| remaining_usd := size_usd; total := 0; total_tokens := 0;
     levels_used := 0 |}.

(** The [for level in ...] loop, which is the same statement for
    statement in both functions.  Leaving the recursion is [break]. *)
Fixpoint walk (levels : list OrderBookLevel.t) (st : walk_state)
    : traced walk_state :=
  match levels with
  | [] => mret st
  | level :: rest =>
      if bool_decide (remaining_usd st ≤ 0) then mret st
      else
        let level_liquidity_usd :=
          OrderBookLevel.price level * OrderBookLevel.size level in
        if bool_decide (remaining_usd st ≤ level_liquidity_usd) then
          tokens ← py_div (tokens_at_level level) (remaining_usd st)
                          (OrderBookLevel.price level);
          mret {| remaining_usd := 0;
                  total := total st + remaining_usd st;
                  total_tokens := total_tokens st + tokens;
                  levels_used := S (levels_used st) |}
        else
          walk rest
            {| remaining_usd := remaining_usd st - level_liquidity_usd;
               total := total st + level_liquidity_usd;
               total_tokens := total_tokens st + OrderBookLevel.size level;
               levels_used := S (levels_used st) |}
  end.

(** The metric returned for an empty side. *)
Definition no_liquidity (size_usd : Qc) : LiquidityMetric.t :=
  {| LiquidityMetric.size_usd := size_usd;
     LiquidityMetric.total_cost := 0;
     LiquidityMetric.avg_price := 0;
     LiquidityMetric.slippage_bps := 0;
     LiquidityMetric.levels_used := 0;
     LiquidityMetric.feasible := false |}.

(** Everything after the loop; [slippage_of avg_price] is the
    difference taken when [current_price > 0]. *)
Definition finish (size_usd current_price : Qc) (slippage_of : Qc → Qc)
    (st : walk_state) : traced LiquidityMetric.t :=
  let feasible := bool_decide (remaining_usd st ≤ dec 1 100) in
  '(avg_price, slippage_bps) ←
    (if bool_decide (0 < total_tokens st) then
       avg_price ← py_div avg_price_site (total st) (total_tokens st);
       let slippage :=
         if bool_decide (0 < current_price) then slippage_of avg_price
         else 0 in
       slippage_bps ←
         (if bool_decide (0 < current_price) then
            r ← py_div slippage_bps_site slippage current_price;
            mret (r * dec 10000 1)
          else mret 0);
       mret (avg_price, slippage_bps)
     else mret (0, 0));
  mret {| LiquidityMetric.size_usd := size_usd;
          LiquidityMetric.total_cost := total st;
          LiquidityMetric.avg_price := avg_price;
          LiquidityMetric.slippage_bps := slippage_bps;
          LiquidityMetric.levels_used := levels_used st;
          LiquidityMetric.feasible := feasible |}.

Definition calculate_buy_cost (asks : list OrderBookLevel.t)
    (size_usd current_price : Qc) (orderbook : OrderBookSnapshot.t)
    : traced LiquidityMetric.t :=
  if negb (nonempty asks) then mret (no_liquidity size_usd)
  else
    st ← walk asks (walk_start size_usd);
    finish size_usd current_price
           (λ avg_price, avg_price - current_price) st.

Definition calculate_sell_cost (bids : list OrderBookLevel.t)
    (size_usd current_price : Qc) (orderbook : OrderBookSnapshot.t)
    : traced LiquidityMetric.t :=
  if negb (nonempty bids) then mret (no_liquidity size_usd)
  else
    st ← walk bids (walk_start size_usd);
    finish size_usd current_price
           (λ avg_price, current_price - avg_price) st.

(** The key [str(int(size))]. *)
Definition size_key (size : Qc) : string := pretty (int size).

(** [for size in sizes: ...] of [calculate_all_metrics]. *)
Fixpoint ladder (orderbook : OrderBookSnapshot.t) (current_price : Qc)
    (sizes : list Qc) (metrics : gmap string LiquidityMetrics.pair)
    : traced (gmap string LiquidityMetrics.pair) :=
  match sizes with
  | [] => mret metrics
  | size :: rest =>
      buy_metric ← calculate_buy_cost (OrderBookSnapshot.asks orderbook)
                      size current_price orderbook;
      sell_metric ← calculate_sell_cost (OrderBookSnapshot.bids orderbook)
                      size current_price orderbook;
      ladder orderbook current_price rest
        (<[size_key size :=
             {| LiquidityMetrics.buy := buy_metric;
                LiquidityMetrics.sell := sell_metric |}]> metrics)
  end.

Definition calculate_all_metrics (orderbook : OrderBookSnapshot.t)
    (sizes : option (list Qc)) : traced LiquidityMetrics.t :=
  let sizes := default LIQUIDITY_SIZES sizes in
  match OrderBookSnapshot.mid_price orderbook with
  | None =>
      lift (LiquidityMetrics.make (OrderBookSnapshot.exchange orderbook)
              (OrderBookSnapshot.market orderbook)
              (OrderBookSnapshot.timestamp orderbook) ∅)
  | Some current_price =>
      metrics ← ladder orderbook current_price sizes ∅;
      lift (LiquidityMetrics.make (OrderBookSnapshot.exchange orderbook)
              (OrderBookSnapshot.market orderbook)
              (OrderBookSnapshot.timestamp orderbook) metrics)
  end.
End LiquidityCalculator.

(** ** orderbook_manager.py *)

Module OrderBookManager.
(** The storage key [(exchange, market)]. *)
Abbreviation Key := (string * string)%type.

(** What [set_price_update_callback] can be given, apart from [None]:
    a coroutine function (an [async def]), whose call returns a coroutine
    without running anything, or any other object, whose call raises or
    returns something that is not a coroutine.  Either is known by a
    number; what the body of the second does when called is outside the
    manager and not part of the model. *)
Inductive Callback : Type :=
  | coroutine_function (name : nat)
  | other_object (name : nat).

(** A task handed to the event loop by [asyncio.create_task]: the call
    [callback(exchange, market, price, timestamp)]. *)
Record Task : Type := {
  callback : Callback;
  task_exchange : string;
  task_market : string;
  task_price : Qc;
  task_timestamp : Qc;
}.

Record t : Type := {
  _caches : gmap Key OrderbookCache.t;
  _orderbooks : gmap Key OrderBookSnapshot.t;
  _liquidity_metrics : gmap Key LiquidityMetrics.t;
  _price_history : gmap Key (list PricePoint.t);
  _price_history_seconds : Z;
  _locks : gset Key;
  _price_update_callback : option Callback;
  (** Not a field of the class: the tasks scheduled on the event loop,
      oldest first. *)
  scheduled : list Task;
}.

(** [__init__] *)
Definition new (price_history_seconds : Z) : t :=
  {| _caches := ∅; _orderbooks := ∅; _liquidity_metrics := ∅;
     _price_history := ∅; _price_history_seconds := price_history_seconds;
     _locks := ∅; _price_update_callback := None; scheduled := [] |}.

Definition _get_key (exchange market : string) : Key := (exchange, market).

Definition set_price_update_callback (self : t) (cb : option Callback)
    : t :=
  {| _caches := _caches self; _orderbooks := _orderbooks self;
     _liquidity_metrics := _liquidity_metrics self;
     _price_history := _price_history self;
     _price_history_seconds := _price_history_seconds self;
     _locks := _locks self; _price_update_callback := cb;
     scheduled := scheduled self |}.

Definition _get_lock (self : t) (exchange market : string) : t :=
  {| _caches := _caches self; _orderbooks := _orderbooks self;
     _liquidity_metrics := _liquidity_metrics self;
     _price_history := _price_history self;
     _price_history_seconds := _price_history_seconds self;
     _locks := {[ _get_key exchange market ]} ∪ _locks self;
     _price_update_callback := _price_update_callback self;
     scheduled := scheduled self |}.

Definition set_caches (self : t) (caches : gmap Key OrderbookCache.t) : t :=
  {| _caches := caches; _orderbooks := _orderbooks self;
     _liquidity_metrics := _liquidity_metrics self;
     _price_history := _price_history self;
     _price_history_seconds := _price_history_seconds self;
     _locks := _locks self;
     _price_update_callback := _price_update_callback self;
     scheduled := scheduled self |}.

Definition set_orderbooks (self : t)
    (orderbooks : gmap Key OrderBookSnapshot.t) : t :=
  {| _caches := _caches self; _orderbooks := orderbooks;
     _liquidity_metrics := _liquidity_metrics self;
     _price_history := _price_history self;
     _price_history_seconds := _price_history_seconds self;
     _locks := _locks self;
     _price_update_callback := _price_update_callback self;
     scheduled := scheduled self |}.

Definition set_liquidity_metrics (self : t)
    (metrics : gmap Key LiquidityMetrics.t) : t :=
  {| _caches := _caches self; _orderbooks := _orderbooks self;
     _liquidity_metrics := metrics;
     _price_history := _price_history self;
     _price_history_seconds := _price_history_seconds self;
     _locks := _locks self;
     _price_update_callback := _price_update_callback self;
     scheduled := scheduled self |}.

Definition set_price_history (self : t)
    (history : gmap Key (list PricePoint.t)) : t :=
  {| _caches := _caches self; _orderbooks := _orderbooks self;
     _liquidity_metrics := _liquidity_metrics self;
     _price_history := history;
     _price_history_seconds := _price_history_seconds self;
     _locks := _locks self;
     _price_update_callback := _price_update_callback self;
     scheduled := scheduled self |}.

(** [asyncio.create_task(callback(...))]: the coroutine of a coroutine
    function is scheduled; anything else raises before a task exists. *)
Definition create_task (self : t) (task : Task) : t * result () :=
  match callback task with
  | coroutine_function _ =>
      ({| _caches := _caches self; _orderbooks := _orderbooks self;
          _liquidity_metrics := _liquidity_metrics self;
          _price_history := _price_history self;
          _price_history_seconds := _price_history_seconds self;
          _locks := _locks self;
          _price_update_callback := _price_update_callback self;
          scheduled := scheduled self ++ [task] |}, Ok ())
  | other_object _ => (self, Raise TypeError)
  end.

(** Returns the manager too: a missing cache is created and stored. *)
Definition _get_or_create_cache (self : t) (exchange market : string)
    : t * OrderbookCache.t :=
  let key := _get_key exchange market in
  match _caches self !! key with
  | Some cache => (self, cache)
  | None =>
      let cache := OrderbookCache.new exchange market in
      (set_caches self (<[key := cache]> (_caches self)), cache)
  end.

(** The cache is a shared object: a method call on it changes the entry
    of [_caches]. *)
Definition write_cache (self : t) (exchange market : string)
    (cache : OrderbookCache.t) : t :=
  set_caches self (<[_get_key exchange market := cache]> (_caches self)).

(** [while history and history[0].timestamp < cutoff_time: popleft()] *)
Fixpoint prune (cutoff_time : Qc) (history : list PricePoint.t)
    : list PricePoint.t :=
  match history with
  | [] => []
  | p :: rest =>
      if bool_decide (PricePoint.timestamp p < cutoff_time)
      then prune cutoff_time rest
      else history
  end.

Definition _update_price_history (self : t) (exchange market : string)
    (price timestamp : Qc) : t :=
  let key := _get_key exchange market in
  let history := default [] (_price_history self !! key) in
  let history :=
    history ++ [ {| PricePoint.timestamp := timestamp;
                    PricePoint.price := price |} ] in
  let cutoff_time := timestamp - Qc_of_Z (_price_history_seconds self) in
  set_price_history self
    (<[key := prune cutoff_time history]> (_price_history self)).

(** The manager after the call, and the exception that left it, if any. *)
Definition _update_from_cache (self : t) (exchange market : string)
    (timestamp : Qc) : t * result () :=
  let key := _get_key exchange market in
  match _caches self !! key with
  | None => (self, Ok ())
  | Some cache =>
      if negb (OrderbookCache.has_valid_book cache) then (self, Ok ())
      else
        let '(bids, asks) := OrderbookCache.get_sorted_levels cache None in
        match OrderBookSnapshot.make exchange market bids asks timestamp with
        | Raise e => (self, Raise e)
        | Ok snapshot =>
            let self :=
              set_orderbooks self (<[key := snapshot]> (_orderbooks self)) in
            let '(self, notified) :=
              match OrderBookSnapshot.mid_price snapshot with
              | Some mid_price =>
                  let self :=
                    _update_price_history self exchange market
                                          mid_price timestamp in
                  match _price_update_callback self with
                  | Some cb =>
                      create_task self
                        {| callback := cb; task_exchange := exchange;
                           task_market := market; task_price := mid_price;
                           task_timestamp := timestamp |}
                  | None => (self, Ok ())
                  end
              | None => (self, Ok ())
              end in
            match notified with
            | Raise e => (self, Raise e)
            | Ok _ =>
                match outcome (LiquidityCalculator.calculate_all_metrics
                                 snapshot None) with
                | Raise e => (self, Raise e)
                | Ok metrics =>
                    (set_liquidity_metrics self
                       (<[key := metrics]> (_liquidity_metrics self)), Ok ())
                end
            end
        end
  end.

(** [except Exception: return False] *)
Definition caught (r : t * result ()) : t * bool :=
  match r.2 with
  | Ok _ => (r.1, true)
  | Raise _ => (r.1, false)
  end.

(** [now] is the reading of [datetime.now().timestamp()]. *)
Definition initialize_orderbook (self : t) (exchange market : string)
    (bids asks : list OrderBookLevel.t) (timestamp : option Qc) (now : Qc)
    : t * bool :=
  let timestamp := default now timestamp in
  let self := _get_lock self exchange market in
  let '(self, cache) := _get_or_create_cache self exchange market in
  let cache := OrderbookCache.initialize cache bids asks timestamp in
  let self := write_cache self exchange market cache in
  caught (_update_from_cache self exchange market timestamp).

Definition update_orderbook (self : t) (exchange market : string)
    (bids asks : list OrderBookLevel.t) (timestamp : option Qc)
    (is_snapshot : bool) (now : Qc) : t * bool :=
  let timestamp := default now timestamp in
  let self := _get_lock self exchange market in
  let '(self, cache) := _get_or_create_cache self exchange market in
  let cache :=
    if is_snapshot || negb (OrderbookCache.is_initialized cache)
    then OrderbookCache.initialize cache bids asks timestamp
    else OrderbookCache.update cache bids asks timestamp in
  let self := write_cache self exchange market cache in
  caught (_update_from_cache self exchange market timestamp).

Definition get_orderbook (self : t) (exchange market : string)
    : option OrderBookSnapshot.t :=
  _orderbooks (_get_lock self exchange market) !! _get_key exchange market.

Definition get_liquidity_metrics (self : t) (exchange market : string)
    : option LiquidityMetrics.t :=
  _liquidity_metrics (_get_lock self exchange market)
    !! _get_key exchange market.

(** [if duration_seconds is not None] filters on the newest timestamp;
    [duration_seconds or self._price_history_seconds] is the window
    reported. *)
Definition get_price_history (self : t) (exchange market : string)
    (duration_seconds : option Z) : result (option PriceHistory.t) :=
  let key := _get_key exchange market in
  match _price_history (_get_lock self exchange market) !! key with
  | None => Ok None
  | Some history =>
      match last history with
      | None => Ok None
      | Some latest =>
          let data_points :=
            match duration_seconds with
            | Some d =>
                let latest_timestamp := PricePoint.timestamp latest in
                let cutoff_time := latest_timestamp - Qc_of_Z d in
                filter (λ p, cutoff_time ≤ PricePoint.timestamp p) history
            | None => history
            end in
          let timeframe_seconds :=
            match duration_seconds with
            | Some d =>
                if bool_decide (d ≠ 0%Z) then d
                else _price_history_seconds self
            | None => _price_history_seconds self
            end in
          match PriceHistory.make exchange market data_points
                  timeframe_seconds with
          | Ok h => Ok (Some h)
          | Raise e => Raise e
          end
      end
  end.

(** The dict returned by [get_stats]. *)
Record Stats : Type := {
  tracked_markets : nat;
  total_price_points : nat;
  price_history_seconds : Z;
}.

Definition get_stats (self : t) : Stats :=
  {| tracked_markets := size (_orderbooks self);
     total_price_points :=
       map_fold (λ _ (h : list PricePoint.t) acc, (length h + acc)%nat) 0%nat
                (_price_history self);
     price_history_seconds := _price_history_seconds self |}.

(** [clear]: the caches and the callback are not among what is cleared. *)
Definition clear (self : t) : t :=
  {| _caches := _caches self; _orderbooks := ∅; _liquidity_metrics := ∅;
     _price_history := ∅;
     _price_history_seconds := _price_history_seconds self;
     _locks := ∅;
     _price_update_callback := _price_update_callback self;
     scheduled := scheduled self |}.
End OrderBookManager.


(** * Vocabulary of the properties *)

(** A level with an integer price and an integer size. *)
Definition lv (p s : Z) : OrderBookLevel.t :=
  OrderBookLevel.make (dec p 1) (dec s 1).

(** The books of scenarios S1, S2 and S3 of the specification. *)
Definition s1_cache : OrderbookCache.t :=
  OrderbookCache.initialize (OrderbookCache.new "lighter" "market_0")
    [lv 100 1; lv 99 2] [lv 101 1; lv 102 3] 1.

Definition s2_cache : OrderbookCache.t :=
  OrderbookCache.update s1_cache [lv 99 0] [] 1.

Definition s3_cache : OrderbookCache.t :=
  OrderbookCache.update s2_cache [lv 100 5; lv 98 4] [] 1.

(** Prices and sizes of a list of levels, as fractions. *)
Definition level_pairs (ls : list OrderBookLevel.t) : list (Q * Q) :=
  (λ l, (this (OrderBookLevel.price l), this (OrderBookLevel.size l))) <$> ls.

(** The snapshot of scenario S1, which scenarios S4 to S6 walk. *)
Definition s4_book : OrderBookSnapshot.t :=
  {| OrderBookSnapshot.exchange := "lighter";
     OrderBookSnapshot.market := "market_0";
     OrderBookSnapshot.bids := [lv 100 1; lv 99 2];
     OrderBookSnapshot.asks := [lv 101 1; lv 102 3];
     OrderBookSnapshot.timestamp := 1 |}.

(** Cost, average price, levels used and feasibility of a metric. *)
Definition metric_view (c : traced LiquidityMetric.t)
    : option (Q * Q * nat * bool) :=
  match outcome c with
  | Ok m => Some (this (LiquidityMetric.total_cost m),
                  this (LiquidityMetric.avg_price m),
                  LiquidityMetric.levels_used m,
                  LiquidityMetric.feasible m)
  | Raise _ => None
  end.

(** The last level of [levels] quoted at price [p]. *)
Fixpoint last_level (p : Qc) (levels : list OrderBookLevel.t)
    : option OrderBookLevel.t :=
  match levels with
  | [] => None
  | level :: rest =>
      match last_level p rest with
      | Some l => Some l
      | None =>
          if bool_decide (OrderBookLevel.price level = p) then Some level
          else None
      end
  end.

(** The cache an operation on [(ex, mk)] works on. *)
Definition cache_of (m : OrderBookManager.t) (ex mk : string)
    : OrderbookCache.t :=
  default (OrderbookCache.new ex mk)
          (OrderBookManager._caches m !! OrderBookManager._get_key ex mk).

(** The bid and ask maps of the book [(ex, mk)], and whether it is
    initialized. *)
Definition bids_of (m : OrderBookManager.t) (ex mk : string) : gmap Qc Qc :=
  OrderbookCache._bids (cache_of m ex mk).
Definition asks_of (m : OrderBookManager.t) (ex mk : string) : gmap Qc Qc :=
  OrderbookCache._asks (cache_of m ex mk).
Definition book_initialized (m : OrderBookManager.t) (ex mk : string) : bool :=
  OrderbookCache._initialized (cache_of m ex mk).

(** Full replacement: the map holds, for every price quoted in [levels],
    the size of its last quote, and nothing else. *)
Definition replaced_by (levels : list OrderBookLevel.t) (new : gmap Qc Qc)
    : Prop :=
  ∀ p, new !! p = OrderBookLevel.size <$> last_level p levels.

(** A diff: a price that is not quoted keeps its entry; a quoted price is
    removed when the size of its (last) quote is [≤ 0] and holds that size
    otherwise. *)
Definition diff_applied (old : gmap Qc Qc) (levels : list OrderBookLevel.t)
    (new : gmap Qc Qc) : Prop :=
  ∀ p, match last_level p levels with
       | None => new !! p = old !! p
       | Some l =>
           if bool_decide (OrderBookLevel.size l ≤ 0) then new !! p = None
           else new !! p = Some (OrderBookLevel.size l)
       end.

(** The operations on one book, and a book after a sequence of them. *)
Inductive BookOp : Type :=
  | op_initialize (bids asks : list OrderBookLevel.t) (timestamp : Qc)
  | op_update (bids asks : list OrderBookLevel.t) (timestamp : Qc).

Definition book_step (c : OrderbookCache.t) (op : BookOp) : OrderbookCache.t :=
  match op with
  | op_initialize bids asks ts => OrderbookCache.initialize c bids asks ts
  | op_update bids asks ts => OrderbookCache.update c bids asks ts
  end.

Definition book_after (ex mk : string) (ops : list BookOp) : OrderbookCache.t :=
  foldl book_step (OrderbookCache.new ex mk) ops.

(** Invariant B1 of the specification: every stored size is positive. *)
Definition sizes_positive (d : gmap Qc Qc) : Prop :=
  ∀ p s, d !! p = Some s → 0 < s.

Definition B1 (c : OrderbookCache.t) : Prop :=
  sizes_positive (OrderbookCache._bids c)
  ∧ sizes_positive (OrderbookCache._asks c).

(** An operation whose snapshot, if it is one, has positive sizes only. *)
Definition snapshot_sizes_positive (op : BookOp) : Prop :=
  match op with
  | op_initialize bids asks _ =>
      Forall (λ l, 0 < OrderBookLevel.size l) bids
      ∧ Forall (λ l, 0 < OrderBookLevel.size l) asks
  | op_update _ _ _ => True
  end.

(** Strict monotonicity from first to last. *)
Definition strictly_decreasing (l : list Qc) : Prop :=
  ∀ i j x y, (i < j)%nat → l !! i = Some x → l !! j = Some y → y < x.

Definition strictly_increasing (l : list Qc) : Prop :=
  ∀ i j x y, (i < j)%nat → l !! i = Some x → l !! j = Some y → x < y.

(** One call of [_update_price_history]. *)
Record Append : Type := {
  append_exchange : string;
  append_market : string;
  append_price : Qc;
  append_timestamp : Qc;
}.

Definition append_key (a : Append) : string * string :=
  OrderBookManager._get_key (append_exchange a) (append_market a).

Definition history_step (m : OrderBookManager.t) (a : Append)
    : OrderBookManager.t :=
  OrderBookManager._update_price_history m (append_exchange a)
    (append_market a) (append_price a) (append_timestamp a).

(** The deque of a key; a missing key has no entries. *)
Definition history_of (m : OrderBookManager.t) (key : string * string)
    : list PricePoint.t :=
  default [] (OrderBookManager._price_history m !! key).

(** The oldest and the newest entry of a history: an entry with the
    smallest, and one with the largest, timestamp among those retained. *)
Definition oldest_entry (h : list PricePoint.t) (p : PricePoint.t) : Prop :=
  p ∈ h ∧ ∀ q, q ∈ h → PricePoint.timestamp p ≤ PricePoint.timestamp q.

Definition newest_entry (h : list PricePoint.t) (p : PricePoint.t) : Prop :=
  p ∈ h ∧ ∀ q, q ∈ h → PricePoint.timestamp q ≤ PricePoint.timestamp p.

(** The oldest retained entry is within the window of the newest: their
    timestamps are at most [window] seconds apart. *)
Definition within_window (window : Z) (h : list PricePoint.t) : Prop :=
  ∀ oldest newest,
    oldest_entry h oldest → newest_entry h newest →
    PricePoint.timestamp newest - PricePoint.timestamp oldest
    ≤ Qc_of_Z window.

(** C9 as it is stated: after any sequence of appends, the history of a
    key has at most one entry per append made for that key, and its
    oldest entry is within the window of its newest. *)
Definition price_history_claim : Prop :=
  ∀ (window : Z) (appends : list Append) (key : string * string),
    let m := foldl history_step (OrderBookManager.new window) appends in
    (length (history_of m key)
     ≤ length (filter (λ a, append_key a = key) appends))%nat
    ∧ within_window window (history_of m key).

(** The deque after one append: the point goes to the back, then the
    front is pruned against the timestamp of that point. *)
Definition append_and_prune (window : Z) (h : list PricePoint.t)
    (p : PricePoint.t) : list PricePoint.t :=
  OrderBookManager.prune (PricePoint.timestamp p - Qc_of_Z window) (h ++ [p]).

Definition timestamp_le (p q : PricePoint.t) : Prop :=
  PricePoint.timestamp p ≤ PricePoint.timestamp q.

(** The point an append puts at the back of the deque. *)
Definition append_point (a : Append) : PricePoint.t :=
  {| PricePoint.timestamp := append_timestamp a;
     PricePoint.price := append_price a |}.

(** The timestamps of the appends made for a key never go back: each is
    at least every timestamp appended for that key before it. *)
Definition timestamps_never_decrease (key : string * string)
    (appends : list Append) : Prop :=
  StronglySorted timestamp_le
    (append_point <$> filter (λ a, append_key a = key) appends).

(** An append for Lighter's market 0 with an integer timestamp, at the
    mid of scenario S1. *)
Definition append_at (ts : Z) : Append :=
  {| append_exchange := "lighter"; append_market := "market_0";
     append_price := dec 201 2; append_timestamp := dec ts 1 |}.

(** The condition under which the source evaluates a division, by site:
    at a level, the dividend [remaining_usd] is positive and at most the
    notional of the level, whose price is the divisor; for the average
    price the divisor [total_tokens] is positive; for the slippage the
    divisor is [current_price] and is positive. *)
Definition division_guarded (current_price : Qc) (e : DivEvent) : Prop :=
  match site e with
  | tokens_at_level level =>
      den e = OrderBookLevel.price level
      ∧ 0 < num e
      ∧ num e ≤ OrderBookLevel.price level * OrderBookLevel.size level
  | avg_price_site => 0 < den e
  | slippage_bps_site => den e = current_price ∧ 0 < current_price
  | spread_bps_site => den e ≠ 0
  end.

(** What a walk from [st] to [st'] keeps: the notional consumed is the
    notional no longer remaining, and a positive remainder never goes
    below zero. *)
Definition walk_post (st st' : LiquidityCalculator.walk_state) : Prop :=
  LiquidityCalculator.total st' + LiquidityCalculator.remaining_usd st'
  = LiquidityCalculator.total st + LiquidityCalculator.remaining_usd st
  ∧ (0 < LiquidityCalculator.remaining_usd st →
     0 ≤ LiquidityCalculator.remaining_usd st').

(** Levels with strictly positive prices and sizes. *)
Definition positive_levels (levels : list OrderBookLevel.t) : Prop :=
  Forall (λ l, 0 < OrderBookLevel.price l ∧ 0 < OrderBookLevel.size l) levels.

(** C6 as it is stated: for every list of positive ask levels and every
    positive size, with the unconsumed remainder [size_usd - total_cost],
    the remainder is not negative, [feasible] holds exactly when it is at
    most 0.01, and then [total_cost] is within 0.01 of [size_usd]. *)
Definition buy_feasibility_claim : Prop :=
  ∀ (asks : list OrderBookLevel.t) (size_usd current_price : Qc)
    (orderbook : OrderBookSnapshot.t),
    positive_levels asks → 0 < size_usd →
    ∃ m,
      outcome (LiquidityCalculator.calculate_buy_cost asks size_usd
                 current_price orderbook) = Ok m
      ∧ 0 ≤ size_usd - LiquidityMetric.total_cost m
      ∧ (LiquidityMetric.feasible m = true
         ↔ size_usd - LiquidityMetric.total_cost m ≤ dec 1 100)
      ∧ (LiquidityMetric.feasible m = true →
         - dec 1 100 ≤ LiquidityMetric.total_cost m - size_usd
         ∧ LiquidityMetric.total_cost m - size_usd ≤ dec 1 100).

(** C7 as it is stated: with an empty ask side, the output of the full
    ladder holds, for every ladder size, a buy metric that is the
    no-liquidity metric; likewise for an empty bid side and the sell
    metric. *)
Definition empty_side_metric_claim : Prop :=
  ∀ (ob : OrderBookSnapshot.t) (size : Qc),
    size ∈ LIQUIDITY_SIZES →
    (OrderBookSnapshot.asks ob = [] →
     ∃ lm entry,
       outcome (LiquidityCalculator.calculate_all_metrics ob None) = Ok lm
       ∧ LiquidityMetrics.metrics lm !! LiquidityCalculator.size_key size
         = Some entry
       ∧ LiquidityMetrics.buy entry = LiquidityCalculator.no_liquidity size)
    ∧ (OrderBookSnapshot.bids ob = [] →
       ∃ lm entry,
         outcome (LiquidityCalculator.calculate_all_metrics ob None) = Ok lm
         ∧ LiquidityMetrics.metrics lm !! LiquidityCalculator.size_key size
           = Some entry
         ∧ LiquidityMetrics.sell entry = LiquidityCalculator.no_liquidity size).

(** A snapshot with one bid and no ask. *)
Definition bids_only_book : OrderBookSnapshot.t :=
  {| OrderBookSnapshot.exchange := "lighter";
     OrderBookSnapshot.market := "market_0";
     OrderBookSnapshot.bids := [lv 100 1];
     OrderBookSnapshot.asks := [];
     OrderBookSnapshot.timestamp := 1 |}.

(** A snapshot whose best bid and best ask are both at 100. *)
Definition locked_book : OrderBookSnapshot.t :=
  {| OrderBookSnapshot.exchange := "lighter";
     OrderBookSnapshot.market := "market_0";
     OrderBookSnapshot.bids := [lv 100 1];
     OrderBookSnapshot.asks := [lv 100 2];
     OrderBookSnapshot.timestamp := 1 |}.

(** The snapshot that [_update_from_cache] builds from a cache. *)
Definition snapshot_of (c : OrderbookCache.t) (ex mk : string) (ts : Qc)
    : OrderBookSnapshot.t :=
  {| OrderBookSnapshot.exchange := ex;
     OrderBookSnapshot.market := mk;
     OrderBookSnapshot.bids := (OrderbookCache.get_sorted_levels c None).1;
     OrderBookSnapshot.asks := (OrderbookCache.get_sorted_levels c None).2;
     OrderBookSnapshot.timestamp := ts |}.

(** The tick scheduled for a snapshot. *)
Definition tick (cb : OrderBookManager.Callback) (ex mk : string)
    (mid ts : Qc)
    : OrderBookManager.Task :=
  {| OrderBookManager.callback := cb;
     OrderBookManager.task_exchange := ex;
     OrderBookManager.task_market := mk;
     OrderBookManager.task_price := mid;
     OrderBookManager.task_timestamp := ts |}.

(** The registered callback is one that [asyncio.create_task] can
    schedule: there is none, or it is a coroutine function. *)
Definition callback_accepted (m : OrderBookManager.t) : bool :=
  match OrderBookManager._price_update_callback m with
  | Some (OrderBookManager.other_object _) => false
  | _ => true
  end.

(** The two writing operations of the manager, as calls. *)
Inductive Call : Type :=
  | call_initialize_orderbook (ex mk : string)
      (bids asks : list OrderBookLevel.t) (timestamp : option Qc) (now : Qc)
  | call_update_orderbook (ex mk : string)
      (bids asks : list OrderBookLevel.t) (timestamp : option Qc)
      (is_snapshot : bool) (now : Qc).

Definition run_call (m : OrderBookManager.t) (c : Call)
    : OrderBookManager.t * bool :=
  match c with
  | call_initialize_orderbook ex mk bids asks ts now =>
      OrderBookManager.initialize_orderbook m ex mk bids asks ts now
  | call_update_orderbook ex mk bids asks ts is_snapshot now =>
      OrderBookManager.update_orderbook m ex mk bids asks ts is_snapshot now
  end.

Definition call_exchange (c : Call) : string :=
  match c with
  | call_initialize_orderbook ex _ _ _ _ _ => ex
  | call_update_orderbook ex _ _ _ _ _ _ => ex
  end.

Definition call_market (c : Call) : string :=
  match c with
  | call_initialize_orderbook _ mk _ _ _ _ => mk
  | call_update_orderbook _ mk _ _ _ _ _ => mk
  end.

Definition call_key (c : Call) : string * string :=
  OrderBookManager._get_key (call_exchange c) (call_market c).

Definition call_timestamp (c : Call) : Qc :=
  match c with
  | call_initialize_orderbook _ _ _ _ ts now => default now ts
  | call_update_orderbook _ _ _ _ ts _ now => default now ts
  end.

(** The book of the call after it. *)
Definition book_after_call (m : OrderBookManager.t) (c : Call)
    : OrderbookCache.t :=
  cache_of (run_call m c).1 (call_exchange c) (call_market c).

(** The mid of the snapshot published for a key. *)
Definition published_mid (m : OrderBookManager.t) (key : string * string)
    : option Qc :=
  OrderBookManager._orderbooks m !! key ≫= OrderBookSnapshot.mid_price.

(** C3 as it is stated: a successful call that leaves both sides quoted
    schedules exactly one callback when the new mid differs from the mid
    published before, and none when the two are equal. *)
Definition tick_on_change_claim : Prop :=
  ∀ (m : OrderBookManager.t) (c : Call) (cb : OrderBookManager.Callback),
    OrderBookManager._price_update_callback m = Some cb →
    (run_call m c).2 = true →
    OrderbookCache.has_valid_book (book_after_call m c) = true →
    ∃ mid,
      published_mid (run_call m c).1 (call_key c) = Some mid
      ∧ (published_mid m (call_key c) ≠ Some mid →
         OrderBookManager.scheduled (run_call m c).1
         = OrderBookManager.scheduled m
           ++ [tick cb (call_exchange c) (call_market c) mid
                    (call_timestamp c)])
      ∧ (published_mid m (call_key c) = Some mid →
         OrderBookManager.scheduled (run_call m c).1
         = OrderBookManager.scheduled m).

(** Scenario S1 as a full-snapshot update. *)
Definition s1_call : Call :=
  call_update_orderbook "lighter" "market_0"
    [lv 100 1; lv 99 2] [lv 101 1; lv 102 3] (Some 1) true 1.

(** Scenario S1 as a full-snapshot update stamped [ts]. *)
Definition s1_call_at (ts : Z) : Call :=
  call_update_orderbook "lighter" "market_0"
    [lv 100 1; lv 99 2] [lv 101 1; lv 102 3] (Some (dec ts 1)) true
    (dec ts 1).

(** A callback as documented: an async function. *)
Definition s1_callback : OrderBookManager.Callback :=
  OrderBookManager.coroutine_function 7.


(** A manager with a registered callback that has published scenario S1. *)
Definition s1_manager : OrderBookManager.t :=
  (run_call (OrderBookManager.set_price_update_callback
               (OrderBookManager.new PRICE_HISTORY_SECONDS) (Some s1_callback))
            s1_call).1.

(** The snapshot and the metrics stored for a key are the ones derived
    from the price maps of that key as they are now. *)
Definition derived_from_maps (m : OrderBookManager.t) (ex mk : string)
    : Prop :=
  ∃ snapshot lm,
    OrderBookManager._orderbooks m !! OrderBookManager._get_key ex mk
      = Some snapshot
    ∧ OrderBookManager._liquidity_metrics m !! OrderBookManager._get_key ex mk
      = Some lm
    ∧ OrderBookSnapshot.bids snapshot
      = (OrderbookCache.get_sorted_levels (cache_of m ex mk) None).1
    ∧ OrderBookSnapshot.asks snapshot
      = (OrderbookCache.get_sorted_levels (cache_of m ex mk) None).2
    ∧ outcome (LiquidityCalculator.calculate_all_metrics snapshot None)
      = Ok lm.

(** C4 as it is stated: after every successful call, whatever the
    resulting book, the stored snapshot and metrics are derived from the
    maps just written. *)
Definition recomputed_on_every_update_claim : Prop :=
  ∀ (m : OrderBookManager.t) (c : Call),
    (run_call m c).2 = true →
    derived_from_maps (run_call m c).1 (call_exchange c) (call_market c).

(** A snapshot that takes every ask away. *)
Definition no_asks_call : Call :=
  call_update_orderbook "lighter" "market_0"
    [lv 100 1; lv 99 2] [] (Some (dec 2 1)) true (dec 2 1).

(** The append a call makes when it publishes the mid [mid]. *)
Definition append_of (c : Call) (mid : Qc) : Append :=
  {| append_exchange := call_exchange c;
     append_market := call_market c;
     append_price := mid;
     append_timestamp := call_timestamp c |}.

(** The manager after a sequence of calls, from its creation. *)
Definition manager_after (window : Z) (calls : list Call)
    : OrderBookManager.t :=
  foldl (λ m c, (run_call m c).1) (OrderBookManager.new window) calls.

(** The timestamp an operation on a book carries. *)
Definition op_timestamp (op : BookOp) : Qc :=
  match op with
  | op_initialize _ _ ts => ts
  | op_update _ _ ts => ts
  end.

(** The bid and ask maps of two caches are the same. *)
Definition same_maps (c c' : OrderbookCache.t) : Prop :=
  OrderbookCache._bids c = OrderbookCache._bids c'
  ∧ OrderbookCache._asks c = OrderbookCache._asks c'.

(** The notional on a side: the sum of price times size over its levels. *)
Fixpoint depth (levels : list OrderBookLevel.t) : Qc :=
  match levels with
  | [] => 0
  | level :: rest =>
      OrderBookLevel.price level * OrderBookLevel.size level + depth rest
  end.

(** Levels with positive prices, between [lo] and [hi], and sizes that
    are not negative. *)
Definition priced_within (lo hi : Qc) (levels : list OrderBookLevel.t) : Prop :=
  Forall (λ l, lo ≤ OrderBookLevel.price l ∧ OrderBookLevel.price l ≤ hi
               ∧ 0 ≤ OrderBookLevel.size l) levels.

(** The tokens walked cost between [lo] and [hi] each. *)
Definition tokens_priced_within (lo hi : Qc)
    (st : LiquidityCalculator.walk_state) : Prop :=
  0 ≤ LiquidityCalculator.total_tokens st
  ∧ lo * LiquidityCalculator.total_tokens st ≤ LiquidityCalculator.total st
  ∧ LiquidityCalculator.total st ≤ hi * LiquidityCalculator.total_tokens st.

(** Either walk: the buy over the asks or the sell over the bids. *)
Definition calculate_cost (buy : bool) (levels : list OrderBookLevel.t)
    (size_usd current_price : Qc) (orderbook : OrderBookSnapshot.t)
    : traced LiquidityMetric.t :=
  if buy
  then LiquidityCalculator.calculate_buy_cost levels size_usd current_price
         orderbook
  else LiquidityCalculator.calculate_sell_cost levels size_usd current_price
         orderbook.

(** The difference a walk takes for its slippage. *)
Definition slippage_of (buy : bool) (current_price avg_price : Qc) : Qc :=
  if buy then avg_price - current_price else current_price - avg_price.

(** What a user of the manager can do to it. *)
Inductive Action : Type :=
  | act_call (c : Call)
  | act_set_callback (cb : option OrderBookManager.Callback)
  | act_clear.

Definition act (m : OrderBookManager.t) (a : Action) : OrderBookManager.t :=
  match a with
  | act_call c => (run_call m c).1
  | act_set_callback cb => OrderBookManager.set_price_update_callback m cb
  | act_clear => OrderBookManager.clear m
  end.

(** The manager after a sequence of actions, from its creation. *)
Definition manager_run (window : Z) (actions : list Action)
    : OrderBookManager.t :=
  foldl act (OrderBookManager.new window) actions.

(** An action that keeps to the documented type of the callback, an
    async function: it registers nothing else. *)
Definition registers_coroutine (a : Action) : Prop :=
  match a with
  | act_set_callback (Some (OrderBookManager.other_object _)) => False
  | _ => True
  end.

(** The key and timestamp of a call, for the actions that are calls. *)
Definition call_stamp (a : Action) : option (string * string * Qc) :=
  match a with
  | act_call c => Some (call_exchange c, call_market c, call_timestamp c)
  | _ => None
  end.

Definition task_stamp (t : OrderBookManager.Task) : string * string * Qc :=
  (OrderBookManager.task_exchange t, OrderBookManager.task_market t,
   OrderBookManager.task_timestamp t).

(** The snapshot and the metrics stored for every key belong together:
    one is stored exactly when the other is, and the metrics are the full
    ladder computed from that snapshot. *)
Definition consistent_pairs (m : OrderBookManager.t) : Prop :=
  ∀ key,
    match OrderBookManager._orderbooks m !! key,
          OrderBookManager._liquidity_metrics m !! key with
    | Some snapshot, Some lm =>
        outcome (LiquidityCalculator.calculate_all_metrics snapshot None)
          = Ok lm
        ∧ LiquidityMetrics.timestamp lm = OrderBookSnapshot.timestamp snapshot
    | None, None => True
    | _, _ => False
    end.

(** A snapshot as the manager publishes it under [key]. *)
Definition well_formed_snapshot (key : string * string)
    (snapshot : OrderBookSnapshot.t) : Prop :=
  (OrderBookSnapshot.exchange snapshot, OrderBookSnapshot.market snapshot)
    = key
  ∧ exchange_literal (OrderBookSnapshot.exchange snapshot) = true
  ∧ OrderBookSnapshot.bids snapshot ≠ []
  ∧ OrderBookSnapshot.asks snapshot ≠ []
  ∧ is_Some (OrderBookSnapshot.mid_price snapshot)
  ∧ is_Some (OrderBookSnapshot.spread snapshot).

(** The points a history query with window [d] keeps, given the newest
    point. *)
Definition in_query_window (d : option Z) (latest p : PricePoint.t) : Prop :=
  match d with
  | Some d =>
      PricePoint.timestamp latest - Qc_of_Z d ≤ PricePoint.timestamp p
  | None => True
  end.

(** Whether an action is a call. *)
Definition is_call (a : Action) : bool :=
  match a with
  | act_call _ => true
  | _ => false
  end.

(** * Properties *)

(** ** The scenarios of the specification *)

Example s1_sorted :
  level_pairs (OrderbookCache.get_sorted_levels s1_cache None).1
    = [(100 # 1, 1 # 1); (99 # 1, 2 # 1)]%Q
  ∧ level_pairs (OrderbookCache.get_sorted_levels s1_cache None).2
    = [(101 # 1, 1 # 1); (102 # 1, 3 # 1)]%Q.
Proof. split; vm_compute; reflexivity. Qed.

Example s2_sorted :
  level_pairs (OrderbookCache.get_sorted_levels s2_cache None).1
    = [(100 # 1, 1 # 1)]%Q.
Proof. vm_compute; reflexivity. Qed.

Example s3_sorted :
  level_pairs (OrderbookCache.get_sorted_levels s3_cache None).1
    = [(100 # 1, 5 # 1); (98 # 1, 4 # 1)]%Q.
Proof. vm_compute; reflexivity. Qed.

Example s4_buy_small :
  metric_view (LiquidityCalculator.calculate_buy_cost
                 (OrderBookSnapshot.asks s4_book) (dec 50 1) (dec 201 2) s4_book)
  = Some (50 # 1, 101 # 1, 1%nat, true)%Q.
Proof. vm_compute; reflexivity. Qed.

Example s5_buy_two_levels :
  metric_view (LiquidityCalculator.calculate_buy_cost
                 (OrderBookSnapshot.asks s4_book) (dec 200 1) (dec 201 2) s4_book)
  = Some (200 # 1, 6800 # 67, 2%nat, true)%Q.
Proof. vm_compute; reflexivity. Qed.

Example s6_infeasible :
  metric_view (LiquidityCalculator.calculate_buy_cost
                 [lv 101 1] (dec 500 1) (dec 201 2) s4_book)
  = Some (101 # 1, 101 # 1, 1%nat, false)%Q.
Proof. vm_compute; reflexivity. Qed.

(** ** Rational arithmetic on [Qc] *)

Lemma dec_this n d : (this (dec n d) == n # d)%Q.
Proof. unfold dec. simpl. apply Qred_correct. Qed.

Lemma this_plus x y : (this (x + y) == this x + this y)%Q.
Proof. apply Qred_correct. Qed.

Lemma this_minus x y : (this (x - y) == this x - this y)%Q.
Proof.
  unfold Qcminus, Qcplus, Qcopp. simpl. rewrite !Qred_correct. reflexivity.
Qed.

Lemma this_mult x y : (this (x * y) == this x * this y)%Q.
Proof. apply Qred_correct. Qed.

Lemma this_opp x : (this (- x) == - this x)%Q.
Proof. apply Qred_correct. Qed.

Lemma this_Q2Qc q : (this (Q2Qc q) == q)%Q.
Proof. apply Qred_correct. Qed.

Lemma Qc_eq_this x y : x = y ↔ (this x == this y)%Q.
Proof. split; [by intros -> | apply Qc_is_canon]. Qed.

(** Linear arithmetic on [Qc]: move every comparison to [Q] and call
    [lra] there. *)
Ltac qc_push :=
  repeat first
    [ rewrite this_plus | rewrite this_minus | rewrite this_mult
    | rewrite this_opp | rewrite this_Q2Qc ].

Ltac qc_push_in H :=
  repeat first
    [ rewrite this_plus in H | rewrite this_minus in H
    | rewrite this_mult in H | rewrite this_opp in H
    | rewrite this_Q2Qc in H ].

Ltac qc_hyp :=
  repeat match goal with
  | H : @eq Qc _ _ |- _ => apply Qc_eq_this in H; qc_push_in H
  | H : ¬ @eq Qc _ _ |- _ => rewrite Qc_eq_this in H; qc_push_in H
  | H : Qcle _ _ |- _ => unfold Qcle in H; qc_push_in H
  | H : Qclt _ _ |- _ => unfold Qclt in H; qc_push_in H
  | H : ¬ Qcle _ _ |- _ =>
      apply Qcnot_le_lt in H; unfold Qclt in H; qc_push_in H
  | H : ¬ Qclt _ _ |- _ =>
      apply Qcnot_lt_le in H; unfold Qcle in H; qc_push_in H
  end.

Ltac qc_goal :=
  match goal with
  | |- @eq Qc _ _ => apply Qc_is_canon
  | |- Qcle _ _ => unfold Qcle
  | |- Qclt _ _ => unfold Qclt
  | |- ¬ Qcle _ _ => apply Qclt_not_le; unfold Qclt
  | |- ¬ Qclt _ _ => apply Qcle_not_lt; unfold Qcle
  | |- False => idtac
  end; qc_push.

Ltac qc_lra := unfold dec in *; qc_hyp; qc_goal; lra.

(** Unfold the plumbing of [traced]. *)
Ltac traced_simpl :=
  unfold mbind, traced_bind, mret, traced_ret, lift, events, outcome;
  cbn [fst snd app].

Lemma Qc_of_Z_nonneg (n : Z) : (0 ≤ n)%Z → 0 ≤ Qc_of_Z n.
Proof. intros Hn. unfold Qcle, Qle. simpl. lia. Qed.

Lemma Qc_le_lt_ne (x y : Qc) : x ≤ y → x ≠ y → x < y.
Proof.
  intros Hle Hne. destruct (Qclt_le_dec x y) as [Hlt | Hge]; [done |].
  destruct Hne. by apply Qcle_antisym.
Qed.

(** ** The price maps *)

Lemma last_level_price p levels l :
  last_level p levels = Some l → OrderBookLevel.price l = p.
Proof.
  induction levels as [| level rest IH]; simpl; [done |].
  destruct (last_level p rest) as [l' |]; [intros [= <-]; by apply IH |].
  case_bool_decide; [by intros [= <-] | done].
Qed.

Lemma last_level_elem_of p levels l :
  last_level p levels = Some l → l ∈ levels.
Proof.
  induction levels as [| level rest IH]; simpl; [done |].
  destruct (last_level p rest) as [l' |].
  - intros [= <-]. right. by apply IH.
  - case_bool_decide; [intros [= <-]; left | done].
Qed.

Lemma last_level_None p levels :
  last_level p levels = None ↔ p ∉ OrderBookLevel.price <$> levels.
Proof.
  induction levels as [| level rest IH]; simpl.
  - split; [intros _; apply not_elem_of_nil | done].
  - rewrite not_elem_of_cons. destruct (last_level p rest) as [l' |].
    + split; [done | intros [_ Hn]]. by apply IH in Hn.
    + case_bool_decide; split; try done.
      * intros [Hn _]. by destruct Hn.
      * intros _. split; [congruence | by apply IH].
Qed.

Lemma store_levels_lookup levels side p :
  OrderbookCache.store_levels side levels !! p
  = match last_level p levels with
    | Some l => Some (OrderBookLevel.size l)
    | None => side !! p
    end.
Proof.
  revert side. induction levels as [| level rest IH]; intros side; [done |].
  unfold OrderbookCache.store_levels in *. simpl. rewrite IH.
  destruct (last_level p rest) as [l' |]; [done |].
  case_bool_decide as Hp.
  - subst p. by rewrite lookup_insert_eq.
  - by rewrite lookup_insert_ne.
Qed.

Lemma apply_levels_lookup levels side p :
  OrderbookCache.apply_levels side levels !! p
  = match last_level p levels with
    | Some l =>
        if bool_decide (OrderBookLevel.size l ≤ 0) then None
        else Some (OrderBookLevel.size l)
    | None => side !! p
    end.
Proof.
  revert side. induction levels as [| level rest IH]; intros side; [done |].
  unfold OrderbookCache.apply_levels in *. simpl. rewrite IH.
  destruct (last_level p rest) as [l' |]; [done |].
  unfold OrderbookCache.apply_level.
  destruct (decide (OrderBookLevel.price level = p)) as [<- | Hp].
  - rewrite (bool_decide_eq_true_2 (_ = _)) by done.
    case_bool_decide; [by rewrite lookup_delete_eq | by rewrite lookup_insert_eq].
  - rewrite (bool_decide_eq_false_2 (_ = p)) by done.
    case_bool_decide; [by rewrite lookup_delete_ne | by rewrite lookup_insert_ne].
Qed.

(** ** The manager: what an operation does to the caches *)

(** Scheduling a task leaves every field of the class as it is. *)
Lemma create_task_fields m task :
  let m' := (OrderBookManager.create_task m task).1 in
  OrderBookManager._caches m' = OrderBookManager._caches m
  ∧ OrderBookManager._orderbooks m' = OrderBookManager._orderbooks m
  ∧ OrderBookManager._liquidity_metrics m'
    = OrderBookManager._liquidity_metrics m
  ∧ OrderBookManager._price_history m' = OrderBookManager._price_history m
  ∧ OrderBookManager._price_history_seconds m'
    = OrderBookManager._price_history_seconds m
  ∧ OrderBookManager._price_update_callback m'
    = OrderBookManager._price_update_callback m.
Proof.
  unfold OrderBookManager.create_task.
  by destruct (OrderBookManager.callback task).
Qed.

Lemma update_from_cache_caches m ex mk ts :
  OrderBookManager._caches (OrderBookManager._update_from_cache m ex mk ts).1
  = OrderBookManager._caches m.
Proof.
  unfold OrderBookManager._update_from_cache.
  repeat case_match; simplify_eq; simpl; try done.
  all: try match goal with
           | H : OrderBookManager.create_task ?m0 ?task = _ |- _ =>
               destruct (create_task_fields m0 task) as (Hcaches & _);
               rewrite H in Hcaches; simpl in Hcaches; rewrite Hcaches
           end.
  all: unfold OrderBookManager._update_price_history; simpl; done.
Qed.

Lemma caught_state r : (OrderBookManager.caught r).1 = r.1.
Proof. unfold OrderBookManager.caught. by destruct (r.2). Qed.

Lemma get_or_create_cache_spec m ex mk :
  (OrderBookManager._get_or_create_cache m ex mk).2 = cache_of m ex mk.
Proof.
  unfold OrderBookManager._get_or_create_cache, cache_of.
  by destruct (_ !! _).
Qed.

Lemma initialize_orderbook_cache m ex mk bids asks ts now :
  OrderBookManager._caches
    (OrderBookManager.initialize_orderbook m ex mk bids asks ts now).1
  !! OrderBookManager._get_key ex mk
  = Some (OrderbookCache.initialize (cache_of m ex mk) bids asks
                                    (default now ts)).
Proof.
  unfold OrderBookManager.initialize_orderbook.
  pose proof (get_or_create_cache_spec (OrderBookManager._get_lock m ex mk)
                ex mk) as Hc.
  destruct (OrderBookManager._get_or_create_cache _ ex mk) as [m1 c].
  simpl in Hc. subst c.
  rewrite caught_state, update_from_cache_caches. simpl.
  by rewrite lookup_insert_eq.
Qed.

Lemma update_orderbook_cache m ex mk bids asks ts is_snapshot now :
  OrderBookManager._caches
    (OrderBookManager.update_orderbook m ex mk bids asks ts is_snapshot now).1
  !! OrderBookManager._get_key ex mk
  = Some (if is_snapshot
             || negb (OrderbookCache.is_initialized (cache_of m ex mk))
          then OrderbookCache.initialize (cache_of m ex mk) bids asks
                                         (default now ts)
          else OrderbookCache.update (cache_of m ex mk) bids asks
                                     (default now ts)).
Proof.
  unfold OrderBookManager.update_orderbook.
  pose proof (get_or_create_cache_spec (OrderBookManager._get_lock m ex mk)
                ex mk) as Hc.
  destruct (OrderBookManager._get_or_create_cache _ ex mk) as [m1 c].
  simpl in Hc. subst c.
  rewrite caught_state, update_from_cache_caches. simpl.
  by rewrite lookup_insert_eq.
Qed.

(** The other books are not touched. *)
Lemma update_orderbook_other m ex mk bids asks ts is_snapshot now key :
  key ≠ OrderBookManager._get_key ex mk →
  OrderBookManager._caches
    (OrderBookManager.update_orderbook m ex mk bids asks ts is_snapshot now).1
  !! key
  = OrderBookManager._caches m !! key.
Proof.
  intros Hne. unfold OrderBookManager.update_orderbook.
  unfold OrderBookManager._get_or_create_cache. simpl.
  destruct (OrderBookManager._caches m !! OrderBookManager._get_key ex mk)
    as [c |] eqn:Hc; simpl;
    rewrite caught_state, update_from_cache_caches; simpl;
    rewrite !lookup_insert_ne; done.
Qed.

Lemma store_levels_replaced levels :
  replaced_by levels (OrderbookCache.store_levels ∅ levels).
Proof.
  intros p. rewrite store_levels_lookup.
  by destruct (last_level p levels).
Qed.

Lemma apply_levels_diff old levels :
  diff_applied old levels (OrderbookCache.apply_levels old levels).
Proof.
  intros p. rewrite apply_levels_lookup.
  destruct (last_level p levels); [by case_bool_decide | done].
Qed.

(** The same at the level of one cache: [update] on a cache that is not
    initialized is [initialize]; on an initialized one it is a diff. *)
Lemma cache_update_snapshot_or_diff c bids asks ts :
  if OrderbookCache._initialized c
  then diff_applied (OrderbookCache._bids c) bids
         (OrderbookCache._bids (OrderbookCache.update c bids asks ts))
       ∧ diff_applied (OrderbookCache._asks c) asks
           (OrderbookCache._asks (OrderbookCache.update c bids asks ts))
  else OrderbookCache.update c bids asks ts
       = OrderbookCache.initialize c bids asks ts.
Proof.
  unfold OrderbookCache.update.
  destruct (OrderbookCache._initialized c); simpl; [| done].
  split; apply apply_levels_diff.
Qed.

(** C1.  [update_orderbook] on a snapshot, or on a book that is not
    initialized, leaves the bid and ask maps that [initialize_orderbook]
    leaves on the same inputs, a full replacement; otherwise it applies a
    diff to each side: a level of size [≤ 0] removes its price, a level of
    size [> 0] sets the size at its price, and a price that is not
    mentioned keeps its size. *)
Theorem update_orderbook_snapshot_or_diff
    (m : OrderBookManager.t) (ex mk : string)
    (bids asks : list OrderBookLevel.t) (ts : option Qc)
    (is_snapshot : bool) (now : Qc) :
  let m' :=
    (OrderBookManager.update_orderbook m ex mk bids asks ts is_snapshot now).1 in
  let mi :=
    (OrderBookManager.initialize_orderbook m ex mk bids asks ts now).1 in
  if is_snapshot || negb (book_initialized m ex mk)
  then bids_of m' ex mk = bids_of mi ex mk
       ∧ asks_of m' ex mk = asks_of mi ex mk
       ∧ replaced_by bids (bids_of m' ex mk)
       ∧ replaced_by asks (asks_of m' ex mk)
  else diff_applied (bids_of m ex mk) bids (bids_of m' ex mk)
       ∧ diff_applied (asks_of m ex mk) asks (asks_of m' ex mk).
Proof.
  intros m' mi. unfold bids_of, asks_of, book_initialized.
  unfold cache_of at 2 3 4 5 6 7 8 9 10 11.
  subst m' mi. rewrite update_orderbook_cache, initialize_orderbook_cache.
  unfold OrderbookCache.is_initialized. simpl.
  destruct (is_snapshot || negb _) eqn:Hcase; simpl.
  - repeat split; auto using store_levels_replaced.
  - apply orb_false_iff in Hcase as [_ Hinit].
    apply negb_false_iff in Hinit.
    unfold OrderbookCache.update. rewrite Hinit. simpl.
    split; apply apply_levels_diff.
Qed.

(** ** Invariant B1: stored sizes *)

Lemma apply_levels_positive side levels :
  sizes_positive side →
  sizes_positive (OrderbookCache.apply_levels side levels).
Proof.
  intros Hside p s. rewrite apply_levels_lookup.
  destruct (last_level p levels) as [l |]; [| by apply Hside].
  case_bool_decide as Hs; [done |].
  intros [= <-]. by apply Qclt_nge.
Qed.

Lemma store_levels_positive levels :
  Forall (λ l, 0 < OrderBookLevel.size l) levels →
  sizes_positive (OrderbookCache.store_levels ∅ levels).
Proof.
  intros Hall p s. rewrite store_levels_lookup.
  destruct (last_level p levels) as [l |] eqn:Hl; [| done].
  intros [= <-]. rewrite Forall_forall in Hall.
  by apply Hall, (last_level_elem_of p).
Qed.

(** The diff path keeps B1, whatever the sizes in the diff. *)
Lemma update_keeps_B1 c bids asks ts :
  OrderbookCache._initialized c = true →
  B1 c → B1 (OrderbookCache.update c bids asks ts).
Proof.
  intros Hinit [Hb Ha]. unfold OrderbookCache.update. rewrite Hinit. simpl.
  split; simpl; by apply apply_levels_positive.
Qed.

(** The snapshot path establishes B1 when the snapshot has no level of
    size [≤ 0]. *)
Lemma initialize_B1 c bids asks ts :
  Forall (λ l, 0 < OrderBookLevel.size l) bids →
  Forall (λ l, 0 < OrderBookLevel.size l) asks →
  B1 (OrderbookCache.initialize c bids asks ts).
Proof. intros Hb Ha. split; simpl; by apply store_levels_positive. Qed.

(** B1 holds along every sequence of operations on an initialized book
    whose snapshots carry positive sizes only; the diffs are arbitrary. *)
Lemma B1_kept_with_positive_snapshots c ops :
  OrderbookCache._initialized c = true →
  B1 c →
  Forall snapshot_sizes_positive ops →
  OrderbookCache._initialized (foldl book_step c ops) = true
  ∧ B1 (foldl book_step c ops).
Proof.
  intros Hinit HB1 Hops. revert c Hinit HB1.
  induction Hops as [| op ops Hop _ IH]; intros c Hinit HB1; [done |].
  simpl. destruct op as [bids asks ts | bids asks ts]; simpl.
  - destruct Hop as [Hb Ha]. apply IH; [done | by apply initialize_B1].
  - apply IH; [| by apply update_keeps_B1].
    unfold OrderbookCache.update. by rewrite Hinit.
Qed.

(** C2 at its failing inputs.  [initialize] stores every level of its
    input as it is: after a snapshot that carries the bid level (99, 0),
    the bid map holds price 99 with size 0, and B1 is broken.  The same
    happens to a diff with that level applied to a book that is not
    initialized, which [update] hands over to [initialize]. *)
Theorem initialize_stores_zero_size :
  let m :=
    (OrderBookManager.initialize_orderbook
       (OrderBookManager.new PRICE_HISTORY_SECONDS) "lighter" "market_0"
       [lv 100 1; lv 99 0] [lv 101 1] None 1).1 in
  let m' :=
    (OrderBookManager.update_orderbook
       (OrderBookManager.new PRICE_HISTORY_SECONDS) "lighter" "market_0"
       [lv 100 1; lv 99 0] [lv 101 1] None false 1).1 in
  bids_of m "lighter" "market_0" !! dec 99 1 = Some (dec 0 1)
  ∧ ¬ B1 (cache_of m "lighter" "market_0")
  ∧ bids_of m' "lighter" "market_0" !! dec 99 1 = Some (dec 0 1)
  ∧ ¬ B1 (cache_of m' "lighter" "market_0").
Proof.
  assert (¬ 0 < dec 0 1) as Hzero by (by vm_compute).
  assert (∀ c, OrderbookCache._bids c !! dec 99 1 = Some (dec 0 1) → ¬ B1 c)
    as Hbroken.
  { intros c Hlook [Hb _]. by apply Hzero, (Hb (dec 99 1)). }
  cbv zeta. unfold bids_of.
  split; [by vm_compute |]. split; [apply Hbroken; by vm_compute |].
  split; [by vm_compute |]. apply Hbroken. by vm_compute.
Qed.

(** ** Sorted levels *)

Global Instance key_le_trans : Transitive OrderbookCache.key_le.
Proof. intros x y z. unfold OrderbookCache.key_le. apply Qcle_trans. Qed.
Global Instance key_le_total : Total OrderbookCache.key_le.
Proof. intros x y. unfold OrderbookCache.key_le. apply total, _. Qed.
Global Instance key_ge_trans : Transitive OrderbookCache.key_ge.
Proof.
  intros x y z Hxy Hyz. unfold OrderbookCache.key_ge in *.
  by apply Qcle_trans with (y.1).
Qed.
Global Instance key_ge_total : Total OrderbookCache.key_ge.
Proof. intros x y. unfold OrderbookCache.key_ge. apply total, _. Qed.

Section strongly_sorted.
Context {A B : Type} (R R' : relation A) (f : A → B).
Hypothesis strengthen : ∀ x y, R x y → f x ≠ f y → R' x y.

Lemma StronglySorted_strengthen l :
  StronglySorted R l → NoDup (f <$> l) → StronglySorted R' l.
Proof.
  induction 1 as [| x l Hl IH Hx]; intros Hnd; [constructor |].
  rewrite fmap_cons in Hnd. apply NoDup_cons in Hnd as [Hnotin Hnd].
  constructor; [by apply IH |].
  rewrite Forall_forall in Hx |- *. intros y Hy.
  apply strengthen; [by apply Hx |].
  intros Heq. apply Hnotin. rewrite Heq. by apply list_elem_of_fmap_2.
Qed.
End strongly_sorted.

Lemma StronglySorted_lookup_lt {A} (R : relation A) l i j x y :
  StronglySorted R l → (i < j)%nat →
  l !! i = Some x → l !! j = Some y → R x y.
Proof.
  intros Hl. revert i j. induction Hl as [| z l Hl IH Hz]; intros i j Hij Hi Hj.
  - by rewrite lookup_nil in Hi.
  - destruct j as [| j]; [lia |]. simpl in Hj. destruct i as [| i].
    + simpl in Hi. injection Hi as ->. rewrite Forall_forall in Hz.
      apply Hz. by eapply list_elem_of_lookup_2.
    + simpl in Hi. apply (IH i j); [lia | done | done].
Qed.

Lemma sorted_descending_strict d :
  StronglySorted (λ x y : Qc * Qc, y.1 < x.1)
                 (OrderbookCache.sorted_descending d).
Proof.
  unfold OrderbookCache.sorted_descending.
  apply (StronglySorted_strengthen OrderbookCache.key_ge _ fst).
  - intros x y Hge Hne. apply Qc_le_lt_ne; [done | congruence].
  - apply StronglySorted_merge_sort; apply _.
  - rewrite merge_sort_Permutation. apply NoDup_fst_map_to_list.
Qed.

Lemma sorted_ascending_strict d :
  StronglySorted (λ x y : Qc * Qc, x.1 < y.1)
                 (OrderbookCache.sorted_ascending d).
Proof.
  unfold OrderbookCache.sorted_ascending.
  apply (StronglySorted_strengthen OrderbookCache.key_le _ fst).
  - intros x y Hle Hne. by apply Qc_le_lt_ne.
  - apply StronglySorted_merge_sort; apply _.
  - rewrite merge_sort_Permutation. apply NoDup_fst_map_to_list.
Qed.

(** A limit keeps a prefix. *)
Lemma apply_limit_take {A} limit (xs : list A) :
  ∃ k, OrderbookCache.apply_limit limit xs = take k xs.
Proof.
  unfold OrderbookCache.apply_limit, slice_to.
  destruct limit as [n |]; [| exists (length xs); by rewrite firstn_all].
  repeat case_bool_decide; eauto.
  exists (length xs). by rewrite firstn_all.
Qed.

Lemma level_prices_lookup (items : list (Qc * Qc)) k i x :
  (OrderBookLevel.price <$> (OrderbookCache.to_level <$> take k items)) !! i
    = Some x →
  ∃ item, items !! i = Some item ∧ item.1 = x.
Proof.
  rewrite !list_lookup_fmap. intros Hi.
  destruct (take k items !! i) as [item |] eqn:Hitem; [| done].
  simpl in Hi. injection Hi as <-.
  apply lookup_take_Some in Hitem as [Hitem _]. eauto.
Qed.

Lemma sorted_bids_strict c limit :
  strictly_decreasing
    (OrderBookLevel.price <$> (OrderbookCache.get_sorted_levels c limit).1).
Proof.
  unfold OrderbookCache.get_sorted_levels. simpl.
  destruct (apply_limit_take limit
              (OrderbookCache.sorted_descending (OrderbookCache._bids c)))
    as [k ->].
  intros i j x y Hij Hi Hj.
  apply level_prices_lookup in Hi as (a & Ha & <-).
  apply level_prices_lookup in Hj as (b & Hb & <-).
  exact (StronglySorted_lookup_lt _ _ i j a b
           (sorted_descending_strict _) Hij Ha Hb).
Qed.

Lemma sorted_asks_strict c limit :
  strictly_increasing
    (OrderBookLevel.price <$> (OrderbookCache.get_sorted_levels c limit).2).
Proof.
  unfold OrderbookCache.get_sorted_levels. simpl.
  destruct (apply_limit_take limit
              (OrderbookCache.sorted_ascending (OrderbookCache._asks c)))
    as [k ->].
  intros i j x y Hij Hi Hj.
  apply level_prices_lookup in Hi as (a & Ha & <-).
  apply level_prices_lookup in Hj as (b & Hb & <-).
  exact (StronglySorted_lookup_lt _ _ i j a b
           (sorted_ascending_strict _) Hij Ha Hb).
Qed.

(** C8.  After any sequence of [initialize] and [update] on a book, the
    sorted levels have bid prices strictly decreasing and ask prices
    strictly increasing from first to last, so no price occurs twice on a
    side. *)
Theorem sorted_levels_strictly_monotone
    (ex mk : string) (ops : list BookOp) (limit : option Z) :
  let book := book_after ex mk ops in
  strictly_decreasing
    (OrderBookLevel.price <$> (OrderbookCache.get_sorted_levels book limit).1)
  ∧ strictly_increasing
    (OrderBookLevel.price <$> (OrderbookCache.get_sorted_levels book limit).2).
Proof.
  intros book. subst book. generalize (book_after ex mk ops). intros book.
  split.
  - apply sorted_bids_strict.
  - apply sorted_asks_strict.
Qed.

(** The sorted levels are the stored entries: nothing is lost or made up
    by sorting. *)
Lemma sorted_descending_elem_of d p s :
  (p, s) ∈ OrderbookCache.sorted_descending d ↔ d !! p = Some s.
Proof.
  unfold OrderbookCache.sorted_descending.
  rewrite merge_sort_Permutation. apply elem_of_map_to_list.
Qed.

Lemma sorted_ascending_elem_of d p s :
  (p, s) ∈ OrderbookCache.sorted_ascending d ↔ d !! p = Some s.
Proof.
  unfold OrderbookCache.sorted_ascending.
  rewrite merge_sort_Permutation. apply elem_of_map_to_list.
Qed.

(** ** Price history *)

Lemma prune_suffix cutoff h : ∃ k, OrderBookManager.prune cutoff h = drop k h.
Proof.
  induction h as [| p rest [k IH]]; [by exists 0%nat |].
  simpl. case_bool_decide.
  - exists (S k). by rewrite IH.
  - by exists 0%nat.
Qed.

Lemma prune_length cutoff h :
  (length (OrderBookManager.prune cutoff h) ≤ length h)%nat.
Proof.
  destruct (prune_suffix cutoff h) as [k ->]. rewrite length_drop. lia.
Qed.

Lemma prune_head cutoff h p :
  head (OrderBookManager.prune cutoff h) = Some p →
  cutoff ≤ PricePoint.timestamp p.
Proof.
  induction h as [| q rest IH]; simpl; [done |].
  case_bool_decide as Hq; [done |].
  simpl. intros [= <-]. by apply Qcle_ngt.
Qed.

Lemma prune_last cutoff h p q :
  last (OrderBookManager.prune cutoff (h ++ [p])) = Some q → q = p.
Proof.
  destruct (prune_suffix cutoff (h ++ [p])) as [k ->].
  destruct (decide (k ≤ length h)%nat) as [Hk | Hk].
  - rewrite drop_app_le by done. rewrite last_snoc. by intros [= <-].
  - rewrite drop_ge by (rewrite length_app; simpl; lia). done.
Qed.

Lemma history_step_seconds m a :
  OrderBookManager._price_history_seconds (history_step m a)
  = OrderBookManager._price_history_seconds m.
Proof. done. Qed.

Lemma history_step_same m a :
  history_of (history_step m a) (append_key a)
  = OrderBookManager.prune
      (append_timestamp a
       - Qc_of_Z (OrderBookManager._price_history_seconds m))
      (history_of m (append_key a)
       ++ [ {| PricePoint.timestamp := append_timestamp a;
               PricePoint.price := append_price a |} ]).
Proof.
  unfold history_of, history_step, OrderBookManager._update_price_history,
    append_key. simpl. by rewrite lookup_insert_eq.
Qed.

Lemma history_step_other m a key :
  key ≠ append_key a →
  history_of (history_step m a) key = history_of m key.
Proof.
  intros Hne.
  unfold history_of, history_step, OrderBookManager._update_price_history.
  simpl. by rewrite lookup_insert_ne.
Qed.

Lemma history_run_seconds window appends :
  OrderBookManager._price_history_seconds
    (foldl history_step (OrderBookManager.new window) appends) = window.
Proof.
  induction appends as [| a appends IH] using rev_ind; [done |].
  by rewrite foldl_app.
Qed.

(** Each append adds at most one entry to the history of its key and
    none to any other. *)
Lemma history_length_bounded
    (window : Z) (appends : list Append) (key : string * string) :
  (length (history_of (foldl history_step (OrderBookManager.new window)
                         appends) key)
   ≤ length (filter (λ a, append_key a = key) appends))%nat.
Proof.
  induction appends as [| a appends IHlen] using rev_ind; [done |].
  rewrite foldl_app. simpl. rewrite filter_app, length_app.
  destruct (decide (append_key a = key)) as [<- | Hne].
  - rewrite history_step_same.
    etrans; [apply prune_length |].
    rewrite length_app. simpl.
    rewrite filter_cons_True by done. simpl. lia.
  - rewrite history_step_other by done. lia.
Qed.

(** With a window that is not negative the entry just appended is kept
    at the back of the deque. *)
Lemma history_step_keeps_newest m a :
  (0 ≤ OrderBookManager._price_history_seconds m)%Z →
  last (history_of (history_step m a) (append_key a))
  = Some {| PricePoint.timestamp := append_timestamp a;
            PricePoint.price := append_price a |}.
Proof.
  intros Hw. rewrite history_step_same.
  set (p := {| PricePoint.timestamp := append_timestamp a;
               PricePoint.price := append_price a |}).
  set (cutoff := append_timestamp a - _).
  assert (¬ PricePoint.timestamp p < cutoff) as Hkeep.
  { subst cutoff p. simpl.
    pose proof (Qc_of_Z_nonneg _ Hw) as Hnn.
    generalize dependent (Qc_of_Z (OrderBookManager._price_history_seconds m)).
    intros w Hnn. qc_lra. }
  induction (history_of m (append_key a)) as [| q rest IH]; simpl.
  - by rewrite bool_decide_eq_false_2.
  - case_bool_decide; [done |]. by rewrite last_cons, last_snoc.
Qed.

Lemma history_step_append_and_prune m a :
  history_of (history_step m a) (append_key a)
  = append_and_prune (OrderBookManager._price_history_seconds m)
      (history_of m (append_key a))
      {| PricePoint.timestamp := append_timestamp a;
         PricePoint.price := append_price a |}.
Proof. apply history_step_same. Qed.

(** The deque is always a suffix of the points appended so far. *)
Lemma deque_suffix window pts :
  ∃ k, foldl (append_and_prune window) [] pts = drop k pts.
Proof.
  induction pts as [| p pts [k IH]] using rev_ind; [by exists 0%nat |].
  rewrite foldl_app. simpl. rewrite IH. unfold append_and_prune.
  destruct (prune_suffix (PricePoint.timestamp p - Qc_of_Z window)
              (drop k pts ++ [p])) as [j ->].
  destruct (decide (k ≤ length pts)%nat) as [Hk | Hk].
  - exists (k + j)%nat. by rewrite <- drop_app_le, drop_drop.
  - exists (length pts + j)%nat.
    rewrite (drop_ge pts k) by lia. simpl.
    by rewrite <- drop_drop, drop_app_length.
Qed.

(** When the timestamps appended to a key never go back, every retained
    entry is no older than the back of the deque minus the window. *)
Lemma deque_all_within_window window pts p newest :
  StronglySorted timestamp_le pts →
  p ∈ foldl (append_and_prune window) [] pts →
  last (foldl (append_and_prune window) [] pts) = Some newest →
  PricePoint.timestamp newest - Qc_of_Z window ≤ PricePoint.timestamp p.
Proof.
  intros Hsorted Hin Hlast.
  assert (StronglySorted timestamp_le
            (foldl (append_and_prune window) [] pts)) as Hdeque.
  { destruct (deque_suffix window pts) as [k ->].
    rewrite <- (take_drop k pts) in Hsorted.
    by apply StronglySorted_app_1_r in Hsorted. }
  destruct pts as [| q pts _] using rev_ind; [by apply elem_of_nil in Hin |].
  rewrite foldl_app in Hin, Hlast, Hdeque. simpl in Hin, Hlast, Hdeque.
  unfold append_and_prune in Hin, Hlast, Hdeque.
  apply prune_last in Hlast as ->.
  destruct (OrderBookManager.prune _ _) as [| x l] eqn:Hpruned;
    [by apply elem_of_nil in Hin |].
  assert (PricePoint.timestamp q - Qc_of_Z window ≤ PricePoint.timestamp x)
    as Hfront.
  { apply (prune_head _ (foldl (append_and_prune window) [] pts ++ [q])).
    unfold append_and_prune. by rewrite Hpruned. }
  apply elem_of_cons in Hin as [-> | Hin]; [done |].
  apply StronglySorted_inv in Hdeque as [_ Hall].
  rewrite Forall_forall in Hall. specialize (Hall p Hin).
  unfold timestamp_le in Hall. by etrans.
Qed.

(** The history of a key is the deque built from the points appended for
    that key alone. *)
Lemma history_as_deque window appends key :
  history_of (foldl history_step (OrderBookManager.new window) appends) key
  = foldl (append_and_prune window) []
      (append_point <$> filter (λ a, append_key a = key) appends).
Proof.
  induction appends as [| a appends IH] using rev_ind; [done |].
  rewrite foldl_app, filter_app, fmap_app, foldl_app. simpl.
  destruct (decide (append_key a = key)) as [<- | Hne].
  - rewrite history_step_same, history_run_seconds, IH.
    by rewrite filter_cons_True.
  - rewrite history_step_other by done.
    by rewrite filter_cons_False.
Qed.

Lemma sorted_le_last h p newest :
  StronglySorted timestamp_le h → p ∈ h → last h = Some newest →
  PricePoint.timestamp p ≤ PricePoint.timestamp newest.
Proof.
  intros Hsorted Hin Hlast.
  apply last_Some in Hlast as [front ->].
  apply StronglySorted_app in Hsorted as (Hle & _ & _).
  apply elem_of_app in Hin as [Hin | Hin].
  - apply (Hle p newest Hin). by apply list_elem_of_singleton.
  - apply list_elem_of_singleton in Hin as ->. apply Qcle_refl.
Qed.

(** C9 at its failing input.  With a window of 12 seconds, appends
    stamped 10, 5 and 20 for one key leave all three entries: the front
    entry, stamped 10, is within the window of the last append and stops
    the pruning, so the entry stamped 5 behind it stays although it is 15
    seconds older than the newest.  The claim fails there. *)
Theorem price_history_keeps_entry_older_than_window :
  let m :=
    foldl history_step (OrderBookManager.new 12)
      [append_at 10; append_at 5; append_at 20] in
  history_of m ("lighter", "market_0")
  = [append_point (append_at 10); append_point (append_at 5);
     append_point (append_at 20)]
  ∧ oldest_entry (history_of m ("lighter", "market_0"))
      (append_point (append_at 5))
  ∧ newest_entry (history_of m ("lighter", "market_0"))
      (append_point (append_at 20))
  ∧ ¬ within_window 12 (history_of m ("lighter", "market_0"))
  ∧ ¬ price_history_claim.
Proof.
  intros m.
  assert (history_of m ("lighter", "market_0")
          = [append_point (append_at 10); append_point (append_at 5);
             append_point (append_at 20)]) as Hhistory.
  { vm_compute. reflexivity. }
  assert (oldest_entry (history_of m ("lighter", "market_0"))
            (append_point (append_at 5))
          ∧ newest_entry (history_of m ("lighter", "market_0"))
              (append_point (append_at 20))) as [Hold Hnew].
  { rewrite Hhistory.
    split; (split; [set_solver |]); intros q Hq;
      repeat (apply elem_of_cons in Hq as [-> | Hq]);
      try (by apply elem_of_nil in Hq); by vm_compute. }
  assert (¬ within_window 12 (history_of m ("lighter", "market_0")))
    as Hfar.
  { intros Hwithin. specialize (Hwithin _ _ Hold Hnew).
    revert Hwithin. by vm_compute. }
  split; [exact Hhistory |]. split; [exact Hold |]. split; [exact Hnew |].
  split; [exact Hfar |].
  intros Hclaim. apply Hfar.
  exact (proj2 (Hclaim 12%Z [append_at 10; append_at 5; append_at 20]
                  ("lighter", "market_0"))).
Qed.

(** The same through the manager: three snapshot updates of one Lighter
    market stamped 10, 5 and 20 leave that history. *)
Lemma out_of_order_updates_keep_old_entry :
  history_of
    (manager_after 12 [s1_call_at 10; s1_call_at 5; s1_call_at 20])
    ("lighter", "market_0")
  = [append_point (append_at 10); append_point (append_at 5);
     append_point (append_at 20)].
Proof. vm_compute. reflexivity. Qed.

(** X23.  After any sequence of appends in which the timestamps appended
    for a key never decrease, the history of that key has at most one
    entry per append made for it, and its oldest entry is within
    [price_history_seconds] of its newest. *)
Theorem price_history_bounded
    (window : Z) (appends : list Append) (key : string * string) :
  timestamps_never_decrease key appends →
  let m := foldl history_step (OrderBookManager.new window) appends in
  (length (history_of m key)
   ≤ length (filter (λ a, append_key a = key) appends))%nat
  ∧ within_window window (history_of m key).
Proof.
  intros Hsorted m. subst m. split; [apply history_length_bounded |].
  unfold timestamps_never_decrease in Hsorted.
  rewrite history_as_deque.
  set (pts := append_point <$> filter (λ a, append_key a = key) appends) in *.
  intros oldest newest [Hold _] [Hnew _].
  assert (StronglySorted timestamp_le
            (foldl (append_and_prune window) [] pts)) as Hdeque.
  { destruct (deque_suffix window pts) as [k ->].
    rewrite <- (take_drop k pts) in Hsorted.
    by apply StronglySorted_app_1_r in Hsorted. }
  destruct (last (foldl (append_and_prune window) [] pts)) as [back |]
    eqn:Hlast.
  - pose proof (deque_all_within_window window pts oldest back
                  Hsorted Hold Hlast) as Hfloor.
    pose proof (sorted_le_last _ newest back Hdeque Hnew Hlast) as Hceil.
    generalize dependent (Qc_of_Z window). intros w Hfloor. qc_lra.
  - apply last_None in Hlast. rewrite Hlast in Hold.
    by apply elem_of_nil in Hold.
Qed.

(** X23 with a window of 12 seconds on appends stamped 5, 10 and 20:
    the entry stamped 5 is pruned. *)
Lemma price_history_bounded_witness :
  timestamps_never_decrease ("lighter", "market_0")
    [append_at 5; append_at 10; append_at 20]
  ∧ within_window 12
      (history_of
         (foldl history_step (OrderBookManager.new 12)
            [append_at 5; append_at 10; append_at 20])
         ("lighter", "market_0")).
Proof.
  assert (timestamps_never_decrease ("lighter", "market_0")
            [append_at 5; append_at 10; append_at 20]) as Hsorted.
  { unfold timestamps_never_decrease.
    repeat first [apply SSorted_nil | apply SSorted_cons
                 | apply Forall_nil_2 | apply Forall_cons_2];
      by vm_compute. }
  split; [exact Hsorted |].
  exact (proj2 (price_history_bounded 12 _ ("lighter", "market_0") Hsorted)).
Defined.

(** ** The liquidity walks *)

Lemma bind_ok {A B} (c : traced A) (f : A → traced B) a :
  outcome c = Ok a →
  c ≫= f = (events c ++ events (f a), outcome (f a)).
Proof.
  unfold mbind, traced_bind, outcome, events. by intros ->.
Qed.

Lemma py_div_ok s x y :
  y ≠ 0 →
  py_div s x y = ([ {| site := s; num := x; den := y |} ], Ok (x / y)).
Proof. intros Hy. unfold py_div. by rewrite bool_decide_eq_false_2. Qed.

Lemma division_guarded_nonzero current_price e :
  division_guarded current_price e → den e ≠ 0.
Proof.
  unfold division_guarded. destruct (site e) as [level | | |].
  - intros (Hden & Hpos & Hle) Hz. rewrite Hden in Hz.
    rewrite Hz, Qcmult_0_l in Hle. qc_lra.
  - intros Hpos Hz. rewrite Hz in Hpos. qc_lra.
  - intros [Hden Hpos] Hz. rewrite Hden in Hz. rewrite Hz in Hpos. qc_lra.
  - done.
Qed.

Lemma walk_post_refl st : walk_post st st.
Proof. split; [done | apply Qclt_le_weak]. Qed.

Lemma walk_ok current_price levels st :
  ∃ st',
    outcome (LiquidityCalculator.walk levels st) = Ok st'
    ∧ Forall (division_guarded current_price)
             (events (LiquidityCalculator.walk levels st))
    ∧ walk_post st st'.
Proof.
  revert st. induction levels as [| level rest IH]; intros st;
    cbn [LiquidityCalculator.walk].
  { exists st. split; [done |]. split; [constructor | apply walk_post_refl]. }
  case_bool_decide as Hrem.
  { exists st. split; [done |]. split; [constructor | apply walk_post_refl]. }
  case_bool_decide as Hliq.
  - assert (division_guarded current_price
              {| site := tokens_at_level level;
                 num := LiquidityCalculator.remaining_usd st;
                 den := OrderBookLevel.price level |}) as Hg.
    { repeat split; [| done]. by apply Qclt_nge. }
    pose proof (division_guarded_nonzero _ _ Hg) as Hnz. simpl in Hnz.
    rewrite py_div_ok by done. traced_simpl.
    eexists. split; [reflexivity |].
    split; [constructor; [exact Hg | constructor] |].
    split; simpl; [| intros _]; qc_lra.
  - destruct (IH {|
        LiquidityCalculator.remaining_usd :=
          LiquidityCalculator.remaining_usd st
          - OrderBookLevel.price level * OrderBookLevel.size level;
        LiquidityCalculator.total :=
          LiquidityCalculator.total st
          + OrderBookLevel.price level * OrderBookLevel.size level;
        LiquidityCalculator.total_tokens :=
          LiquidityCalculator.total_tokens st + OrderBookLevel.size level;
        LiquidityCalculator.levels_used :=
          S (LiquidityCalculator.levels_used st) |})
      as (st' & Hout & Hev & Hsum & Hpos).
    exists st'. split; [done |]. split; [done |]. simpl in *.
    split.
    + rewrite Hsum.
      generalize (OrderBookLevel.price level * OrderBookLevel.size level).
      intros q. qc_lra.
    + intros _. apply Hpos.
      revert Hliq.
      generalize (OrderBookLevel.price level * OrderBookLevel.size level).
      intros q Hliq. qc_lra.
Qed.

Lemma finish_ok size_usd current_price slippage_of st :
  ∃ m,
    outcome (LiquidityCalculator.finish size_usd current_price slippage_of st)
      = Ok m
    ∧ Forall (division_guarded current_price)
        (events (LiquidityCalculator.finish size_usd current_price
                   slippage_of st))
    ∧ LiquidityMetric.size_usd m = size_usd
    ∧ LiquidityMetric.total_cost m = LiquidityCalculator.total st
    ∧ LiquidityMetric.levels_used m = LiquidityCalculator.levels_used st
    ∧ LiquidityMetric.feasible m
      = bool_decide (LiquidityCalculator.remaining_usd st ≤ dec 1 100).
Proof.
  unfold LiquidityCalculator.finish, py_div.
  destruct (decide (0 < LiquidityCalculator.total_tokens st)) as [Htok | Htok].
  - assert (LiquidityCalculator.total_tokens st ≠ 0) as Hnz.
    { intros Hz. rewrite Hz in Htok. qc_lra. }
    rewrite (bool_decide_eq_true_2 _ Htok), (bool_decide_eq_false_2 _ Hnz).
    traced_simpl.
    destruct (decide (0 < current_price)) as [Hcp | Hcp].
    + assert (current_price ≠ 0) as Hcz.
      { intros Hz. rewrite Hz in Hcp. qc_lra. }
      rewrite !(bool_decide_eq_true_2 _ Hcp), (bool_decide_eq_false_2 _ Hcz).
      traced_simpl.
      eexists. split; [reflexivity |]. split; [| done].
      constructor; [exact Htok |]. constructor; [by split | constructor].
    + rewrite !(bool_decide_eq_false_2 _ Hcp). traced_simpl.
      eexists. split; [reflexivity |]. split; [| done].
      constructor; [exact Htok | constructor].
  - rewrite (bool_decide_eq_false_2 _ Htok). traced_simpl.
    eexists. split; [reflexivity |]. split; [| done]. constructor.
Qed.

(** A walk followed by the metric computation: it returns, every division
    it evaluates is guarded, and the metric reports the final state of the
    walk. *)
Lemma walk_finish_ok size_usd current_price slippage_of levels :
  ∃ st m,
    outcome (LiquidityCalculator.walk levels
               (LiquidityCalculator.walk_start size_usd)) = Ok st
    ∧ outcome (LiquidityCalculator.walk levels
                 (LiquidityCalculator.walk_start size_usd)
               ≫= LiquidityCalculator.finish size_usd current_price
                    slippage_of) = Ok m
    ∧ Forall (division_guarded current_price)
        (events (LiquidityCalculator.walk levels
                   (LiquidityCalculator.walk_start size_usd)
                 ≫= LiquidityCalculator.finish size_usd current_price
                      slippage_of))
    ∧ walk_post (LiquidityCalculator.walk_start size_usd) st
    ∧ LiquidityMetric.total_cost m = LiquidityCalculator.total st
    ∧ LiquidityMetric.feasible m
      = bool_decide (LiquidityCalculator.remaining_usd st ≤ dec 1 100).
Proof.
  destruct (walk_ok current_price levels
              (LiquidityCalculator.walk_start size_usd))
    as (st & Hout & Hev & Hpost).
  destruct (finish_ok size_usd current_price slippage_of st)
    as (m & Hfin & Hfev & _ & Htotal & _ & Hfeas).
  exists st, m. rewrite (bind_ok _ _ _ Hout).
  split; [done |]. split; [done |].
  split; [by apply Forall_app |]. done.
Qed.

Lemma calculate_buy_cost_cons level asks size_usd current_price orderbook :
  LiquidityCalculator.calculate_buy_cost (level :: asks) size_usd
    current_price orderbook
  = LiquidityCalculator.walk (level :: asks)
      (LiquidityCalculator.walk_start size_usd)
    ≫= LiquidityCalculator.finish size_usd current_price
         (λ avg_price, avg_price - current_price).
Proof. done. Qed.

Lemma calculate_sell_cost_cons level bids size_usd current_price orderbook :
  LiquidityCalculator.calculate_sell_cost (level :: bids) size_usd
    current_price orderbook
  = LiquidityCalculator.walk (level :: bids)
      (LiquidityCalculator.walk_start size_usd)
    ≫= LiquidityCalculator.finish size_usd current_price
         (λ avg_price, current_price - avg_price).
Proof. done. Qed.

Lemma calculate_buy_cost_ok asks size_usd current_price orderbook :
  (∃ m, outcome (LiquidityCalculator.calculate_buy_cost asks size_usd
                   current_price orderbook) = Ok m)
  ∧ Forall (division_guarded current_price)
      (events (LiquidityCalculator.calculate_buy_cost asks size_usd
                 current_price orderbook)).
Proof.
  destruct asks as [| level asks].
  - split; [by eexists | constructor].
  - rewrite calculate_buy_cost_cons.
    destruct (walk_finish_ok size_usd current_price
                (λ avg_price, avg_price - current_price) (level :: asks))
      as (st & m & _ & Hout & Hev & _).
    split; [by exists m | done].
Qed.

Lemma calculate_sell_cost_ok bids size_usd current_price orderbook :
  (∃ m, outcome (LiquidityCalculator.calculate_sell_cost bids size_usd
                   current_price orderbook) = Ok m)
  ∧ Forall (division_guarded current_price)
      (events (LiquidityCalculator.calculate_sell_cost bids size_usd
                 current_price orderbook)).
Proof.
  destruct bids as [| level bids].
  - split; [by eexists | constructor].
  - rewrite calculate_sell_cost_cons.
    destruct (walk_finish_ok size_usd current_price
                (λ avg_price, current_price - avg_price) (level :: bids))
      as (st & m & _ & Hout & Hev & _).
    split; [by exists m | done].
Qed.

(** C10.  In both walks every division is evaluated under its guard: the
    division of the remaining amount by the price of a level only when
    the remaining amount is positive and at most price times size of that
    level, the slippage division only when the mid price is positive.  So
    no divisor is zero and neither function raises, for every list of
    levels, every size and every mid price. *)
Theorem walks_never_divide_by_zero
    (levels : list OrderBookLevel.t) (size_usd current_price : Qc)
    (orderbook : OrderBookSnapshot.t) :
  let buy :=
    LiquidityCalculator.calculate_buy_cost levels size_usd current_price
      orderbook in
  let sell :=
    LiquidityCalculator.calculate_sell_cost levels size_usd current_price
      orderbook in
  Forall (division_guarded current_price) (events buy)
  ∧ Forall (division_guarded current_price) (events sell)
  ∧ Forall (λ e, den e ≠ 0) (events buy ++ events sell)
  ∧ (∃ m, outcome buy = Ok m)
  ∧ (∃ m, outcome sell = Ok m).
Proof.
  intros buy sell.
  destruct (calculate_buy_cost_ok levels size_usd current_price orderbook)
    as [Hbuy Hbev].
  destruct (calculate_sell_cost_ok levels size_usd current_price orderbook)
    as [Hsell Hsev].
  split; [done |]. split; [done |]. split; [| done].
  apply Forall_app. split.
  - eapply Forall_impl; [exact Hbev |]. apply division_guarded_nonzero.
  - eapply Forall_impl; [exact Hsev |]. apply division_guarded_nonzero.
Qed.

(** A level of price 0 is walked over without a division. *)
Example zero_price_level_not_divided :
  site <$> events (LiquidityCalculator.calculate_buy_cost [lv 0 5; lv 101 0]
                     (dec 50 1) (dec 201 2) s4_book)
    = [avg_price_site; slippage_bps_site]
  ∧ metric_view (LiquidityCalculator.calculate_buy_cost [lv 0 5; lv 101 0]
                   (dec 50 1) (dec 201 2) s4_book)
    = Some (0 # 1, 0 # 1, 2%nat, false)%Q.
Proof. split; vm_compute; reflexivity. Qed.

(** ** Feasibility of a buy *)

(** C6 fails as stated.  With no asks at all the function returns before
    the walk: for a size of 0.005 the remainder is 0.005, which is at most
    0.01, and [feasible] is false. *)
Lemma buy_feasibility_fails_without_asks : ¬ buy_feasibility_claim.
Proof.
  intros Hclaim.
  destruct (Hclaim [] (dec 1 200) (dec 201 2) s4_book) as (m & Hm & _ & Hiff & _).
  - constructor.
  - by vm_compute.
  - injection Hm as <-. simpl in Hiff.
    assert (false = true) as Habs; [| discriminate].
    apply Hiff. by vm_compute.
Qed.

(** C6, amended: for every list of positive ask levels that is not empty
    and every positive size, the walk ends with a remainder
    [remaining_usd = size_usd - total_cost] that is not negative,
    [feasible] holds exactly when that remainder is at most 0.01, and then
    [total_cost] is within 0.01 of [size_usd]. *)
Theorem buy_feasible_iff_remainder_small
    (asks : list OrderBookLevel.t) (size_usd current_price : Qc)
    (orderbook : OrderBookSnapshot.t) :
  asks ≠ [] → positive_levels asks → 0 < size_usd →
  ∃ m st,
    outcome (LiquidityCalculator.calculate_buy_cost asks size_usd
               current_price orderbook) = Ok m
    ∧ outcome (LiquidityCalculator.walk asks
                 (LiquidityCalculator.walk_start size_usd)) = Ok st
    ∧ LiquidityCalculator.remaining_usd st
      = size_usd - LiquidityMetric.total_cost m
    ∧ 0 ≤ LiquidityCalculator.remaining_usd st
    ∧ (LiquidityMetric.feasible m = true
       ↔ LiquidityCalculator.remaining_usd st ≤ dec 1 100)
    ∧ (LiquidityMetric.feasible m = true →
       - dec 1 100 ≤ LiquidityMetric.total_cost m - size_usd
       ∧ LiquidityMetric.total_cost m - size_usd ≤ dec 1 100).
Proof.
  intros Hne _ Hsize. destruct asks as [| level asks]; [done |].
  rewrite calculate_buy_cost_cons.
  destruct (walk_finish_ok size_usd current_price
              (λ avg_price, avg_price - current_price) (level :: asks))
    as (st & m & Hwalk & Hout & _ & [Hsum Hpos] & Htotal & Hfeas).
  exists m, st. simpl in Hsum, Hpos. specialize (Hpos Hsize).
  rewrite Htotal, Hfeas, bool_decide_eq_true.
  split; [done |]. split; [done |].
  assert (LiquidityCalculator.remaining_usd st
          = size_usd - LiquidityCalculator.total st) as Hrem by qc_lra.
  split; [done |]. split; [done |]. split; [done |].
  intros Hle. split; qc_lra.
Qed.

(** The amended C6 on scenario S5: two ask levels, a size of 200. *)
Lemma buy_feasible_iff_remainder_small_witness :
  [lv 101 1; lv 102 3] ≠ []
  ∧ positive_levels [lv 101 1; lv 102 3]
  ∧ 0 < dec 200 1
  ∧ ∃ m st,
      outcome (LiquidityCalculator.calculate_buy_cost [lv 101 1; lv 102 3]
                 (dec 200 1) (dec 201 2) s4_book) = Ok m
      ∧ outcome (LiquidityCalculator.walk [lv 101 1; lv 102 3]
                   (LiquidityCalculator.walk_start (dec 200 1))) = Ok st
      ∧ LiquidityCalculator.remaining_usd st
        = dec 200 1 - LiquidityMetric.total_cost m
      ∧ 0 ≤ LiquidityCalculator.remaining_usd st
      ∧ (LiquidityMetric.feasible m = true
         ↔ LiquidityCalculator.remaining_usd st ≤ dec 1 100)
      ∧ (LiquidityMetric.feasible m = true →
         - dec 1 100 ≤ LiquidityMetric.total_cost m - dec 200 1
         ∧ LiquidityMetric.total_cost m - dec 200 1 ≤ dec 1 100).
Proof.
  assert ([lv 101 1; lv 102 3] ≠ []) as Hne by discriminate.
  assert (positive_levels [lv 101 1; lv 102 3]) as Hpos.
  { repeat constructor. }
  assert (0 < dec 200 1) as Hsize by reflexivity.
  split; [exact Hne |]. split; [exact Hpos |]. split; [exact Hsize |].
  exact (buy_feasible_iff_remainder_small [lv 101 1; lv 102 3] (dec 200 1)
           (dec 201 2) s4_book Hne Hpos Hsize).
Defined.

(** ** Metrics of an empty side *)

Lemma mid_price_None ob :
  OrderBookSnapshot.mid_price ob = None
  ↔ OrderBookSnapshot.bids ob = [] ∨ OrderBookSnapshot.asks ob = [].
Proof.
  unfold OrderBookSnapshot.mid_price.
  destruct (OrderBookSnapshot.bids ob), (OrderBookSnapshot.asks ob);
    split; intros H; try done; try (by left); try (by right);
    destruct H; done.
Qed.

(** The ladder loop returns, and its result has an entry for every size
    walked (and keeps the entries it started with). *)
Lemma ladder_ok ob current_price sizes metrics :
  ∃ metrics',
    outcome (LiquidityCalculator.ladder ob current_price sizes metrics)
      = Ok metrics'
    ∧ (∀ k, is_Some (metrics !! k) → is_Some (metrics' !! k))
    ∧ (∀ size, size ∈ sizes →
         is_Some (metrics' !! LiquidityCalculator.size_key size)).
Proof.
  revert metrics. induction sizes as [| size rest IH]; intros metrics.
  - exists metrics. split; [done |]. split; [done |].
    intros size Hin. by apply elem_of_nil in Hin.
  - cbn [LiquidityCalculator.ladder].
    destruct (calculate_buy_cost_ok (OrderBookSnapshot.asks ob) size
                current_price ob) as [[b Hb] _].
    destruct (calculate_sell_cost_ok (OrderBookSnapshot.bids ob) size
                current_price ob) as [[s Hs] _].
    rewrite (bind_ok _ _ _ Hb). cbn [outcome snd].
    rewrite (bind_ok _ _ _ Hs). cbn [outcome snd].
    destruct (IH (<[LiquidityCalculator.size_key size :=
                      {| LiquidityMetrics.buy := b;
                         LiquidityMetrics.sell := s |}]> metrics))
      as (metrics' & Hout & Hkeep & Hall).
    exists metrics'. split; [exact Hout |]. split.
    + intros k Hk. apply Hkeep.
      destruct (decide (k = LiquidityCalculator.size_key size)) as [-> | Hne].
      * rewrite lookup_insert_eq. by eexists.
      * by rewrite lookup_insert_ne.
    + intros size' Hin. apply elem_of_cons in Hin as [-> | Hin].
      * apply Hkeep. rewrite lookup_insert_eq. by eexists.
      * by apply Hall.
Qed.

(** With both sides quoted, the full ladder has an entry for each of its
    sizes. *)
Lemma calculate_all_metrics_entries ob sizes :
  OrderBookSnapshot.bids ob ≠ [] → OrderBookSnapshot.asks ob ≠ [] →
  exchange_literal (OrderBookSnapshot.exchange ob) = true →
  ∃ lm,
    outcome (LiquidityCalculator.calculate_all_metrics ob sizes) = Ok lm
    ∧ ∀ size, size ∈ default LIQUIDITY_SIZES sizes →
        is_Some (LiquidityMetrics.metrics lm
                 !! LiquidityCalculator.size_key size).
Proof.
  intros Hb Ha Hex. unfold LiquidityCalculator.calculate_all_metrics.
  destruct (OrderBookSnapshot.mid_price ob) as [cp |] eqn:Hmid.
  - destruct (ladder_ok ob cp (default LIQUIDITY_SIZES sizes) ∅)
      as (metrics & Hout & _ & Hall).
    rewrite (bind_ok _ _ _ Hout).
    unfold LiquidityMetrics.make. rewrite Hex.
    eexists. split; [reflexivity |]. exact Hall.
  - apply mid_price_None in Hmid as [? | ?]; done.
Qed.

(** C7 fails as stated.  A book without asks has no mid price, and the
    full ladder then returns no entry at all. *)
Lemma empty_side_metric_absent_from_ladder : ¬ empty_side_metric_claim.
Proof.
  intros Hclaim.
  destruct (Hclaim bids_only_book (dec 1000 1)) as [Hasks _].
  { by left. }
  destruct Hasks as (lm & entry & Hout & Hentry & _); [done |].
  injection Hout as <-. simpl in Hentry.
  by rewrite lookup_empty in Hentry.
Qed.

(** C7, amended: for every snapshot and size, the metric computed for an
    empty side is exactly the no-liquidity metric; and when a side of the
    snapshot is empty (its mid is null) the full-ladder computation
    returns an empty metrics map, with no entry for any size. *)
Theorem empty_side_metric
    (ob : OrderBookSnapshot.t) (size_usd current_price : Qc)
    (sizes : option (list Qc)) :
  OrderBookSnapshot.bids ob = [] ∨ OrderBookSnapshot.asks ob = [] →
  LiquidityCalculator.calculate_buy_cost [] size_usd current_price ob
    = mret (LiquidityCalculator.no_liquidity size_usd)
  ∧ LiquidityCalculator.calculate_sell_cost [] size_usd current_price ob
    = mret (LiquidityCalculator.no_liquidity size_usd)
  ∧ LiquidityCalculator.no_liquidity size_usd
    = {| LiquidityMetric.size_usd := size_usd;
         LiquidityMetric.total_cost := 0;
         LiquidityMetric.avg_price := 0;
         LiquidityMetric.slippage_bps := 0;
         LiquidityMetric.levels_used := 0;
         LiquidityMetric.feasible := false |}
  ∧ OrderBookSnapshot.mid_price ob = None
  ∧ LiquidityCalculator.calculate_all_metrics ob sizes
    = lift (LiquidityMetrics.make (OrderBookSnapshot.exchange ob)
              (OrderBookSnapshot.market ob)
              (OrderBookSnapshot.timestamp ob) ∅).
Proof.
  intros Hempty. apply mid_price_None in Hempty.
  unfold LiquidityCalculator.calculate_all_metrics. rewrite Hempty.
  repeat split.
Qed.

(** The amended C7 on a book that has bids only. *)
Lemma empty_side_metric_witness :
  (OrderBookSnapshot.bids bids_only_book = []
   ∨ OrderBookSnapshot.asks bids_only_book = [])
  ∧ LiquidityCalculator.calculate_buy_cost [] (dec 1000 1) 0 bids_only_book
    = mret (LiquidityCalculator.no_liquidity (dec 1000 1))
  ∧ LiquidityCalculator.calculate_all_metrics bids_only_book None
    = lift (LiquidityMetrics.make "lighter" "market_0" 1 ∅).
Proof.
  assert (OrderBookSnapshot.bids bids_only_book = []
          ∨ OrderBookSnapshot.asks bids_only_book = []) as Hempty.
  { right. reflexivity. }
  split; [exact Hempty |].
  pose proof (empty_side_metric bids_only_book (dec 1000 1) 0 None Hempty)
    as (Hbuy & _ & _ & _ & Hall).
  split; [exact Hbuy | exact Hall].
Defined.

(** ** Derived values of a snapshot *)

Lemma mid_price_spec ob b bids a asks :
  OrderBookSnapshot.bids ob = b :: bids →
  OrderBookSnapshot.asks ob = a :: asks →
  OrderBookSnapshot.mid_price ob
    = Some ((OrderBookLevel.price b + OrderBookLevel.price a) / dec 2 1)
  ∧ OrderBookSnapshot.spread ob
    = Some (OrderBookLevel.price a - OrderBookLevel.price b).
Proof.
  intros Hb Ha. unfold OrderBookSnapshot.mid_price, OrderBookSnapshot.spread.
  by rewrite Hb, Ha.
Qed.

Lemma spread_None ob :
  OrderBookSnapshot.spread ob = None
  ↔ OrderBookSnapshot.bids ob = [] ∨ OrderBookSnapshot.asks ob = [].
Proof.
  unfold OrderBookSnapshot.spread.
  destruct (OrderBookSnapshot.bids ob), (OrderBookSnapshot.asks ob);
    split; intros H; try done; try (by left); try (by right);
    destruct H; done.
Qed.

(** [spread_bps] never raises; it is the quotient in basis points when
    mid and spread are both different from zero. *)
Lemma spread_bps_spec ob m s :
  OrderBookSnapshot.mid_price ob = Some m →
  OrderBookSnapshot.spread ob = Some s →
  m ≠ 0 → s ≠ 0 →
  outcome (OrderBookSnapshot.spread_bps ob) = Ok (Some (s / m * dec 10000 1)).
Proof.
  intros Hm Hs Hm0 Hs0. unfold OrderBookSnapshot.spread_bps.
  rewrite Hm, Hs. unfold truthy.
  rewrite (bool_decide_eq_true_2 _ Hm0), (bool_decide_eq_true_2 _ Hs0).
  cbn [andb]. by rewrite py_div_ok.
Qed.

Lemma spread_bps_empty_side ob :
  OrderBookSnapshot.bids ob = [] ∨ OrderBookSnapshot.asks ob = [] →
  OrderBookSnapshot.mid_price ob = None
  ∧ OrderBookSnapshot.spread ob = None
  ∧ outcome (OrderBookSnapshot.spread_bps ob) = Ok None.
Proof.
  intros Hempty. pose proof Hempty as Hmid. apply mid_price_None in Hmid.
  apply spread_None in Hempty.
  unfold OrderBookSnapshot.spread_bps. by rewrite Hmid, Hempty.
Qed.

(** C5 at its failing input.  Best bid and best ask both at 100: mid is
    100 and spread is 0, both non-null, but [spread_bps] is null, because
    the test [if self.mid_price and self.spread] takes a spread of 0 for a
    missing one. *)
Theorem spread_bps_null_at_zero_spread :
  OrderBookSnapshot.mid_price locked_book = Some (dec 100 1)
  ∧ OrderBookSnapshot.spread locked_book = Some (dec 0 1)
  ∧ OrderBookSnapshot.spread_bps locked_book = mret None.
Proof.
  split; [| split].
  - unfold OrderBookSnapshot.mid_price. cbn [locked_book
      OrderBookSnapshot.bids OrderBookSnapshot.asks].
    apply (f_equal Some), Qc_is_canon. reflexivity.
  - unfold OrderBookSnapshot.spread. cbn [locked_book
      OrderBookSnapshot.bids OrderBookSnapshot.asks].
    apply (f_equal Some), Qc_is_canon. reflexivity.
  - reflexivity.
Qed.

(** Scenario S1: mid 100.5, spread 1, spread in basis points 20000/201. *)
Example s1_derived :
  (this <$> OrderBookSnapshot.mid_price s4_book) = Some (201 # 2)%Q
  ∧ (this <$> OrderBookSnapshot.spread s4_book) = Some (1 # 1)%Q
  ∧ match outcome (OrderBookSnapshot.spread_bps s4_book) with
    | Ok (Some x) => this x = (20000 # 201)%Q
    | _ => False
    end.
Proof. repeat split; vm_compute; reflexivity. Qed.

(** ** Derivation on write *)

Lemma sorted_descending_length d :
  length (OrderbookCache.sorted_descending d) = size d.
Proof.
  unfold OrderbookCache.sorted_descending.
  by rewrite merge_sort_Permutation, length_map_to_list.
Qed.

Lemma sorted_ascending_length d :
  length (OrderbookCache.sorted_ascending d) = size d.
Proof.
  unfold OrderbookCache.sorted_ascending.
  by rewrite merge_sort_Permutation, length_map_to_list.
Qed.

Lemma valid_book_sides c ex mk ts :
  OrderbookCache.has_valid_book c = true →
  OrderBookSnapshot.bids (snapshot_of c ex mk ts) ≠ []
  ∧ OrderBookSnapshot.asks (snapshot_of c ex mk ts) ≠ [].
Proof.
  unfold OrderbookCache.has_valid_book.
  rewrite !andb_true_iff, !bool_decide_eq_true. intros [[_ Hb] Ha].
  unfold snapshot_of, OrderbookCache.get_sorted_levels. simpl. split.
  - intros Hnil. apply (f_equal length) in Hnil.
    rewrite length_fmap, sorted_descending_length in Hnil. simpl in Hnil. lia.
  - intros Hnil. apply (f_equal length) in Hnil.
    rewrite length_fmap, sorted_ascending_length in Hnil. simpl in Hnil. lia.
Qed.

Lemma valid_book_mid c ex mk ts :
  OrderbookCache.has_valid_book c = true →
  ∃ mid, OrderBookSnapshot.mid_price (snapshot_of c ex mk ts) = Some mid.
Proof.
  intros Hvalid. destruct (valid_book_sides c ex mk ts Hvalid) as [Hb Ha].
  destruct (OrderBookSnapshot.mid_price (snapshot_of c ex mk ts)) eqn:Hmid;
    [by eexists |].
  apply mid_price_None in Hmid as [? | ?]; done.
Qed.

(** A cache that is missing, or has an empty side: nothing is derived. *)
Lemma update_from_cache_invalid m ex mk ts :
  (∀ c, OrderBookManager._caches m !! OrderBookManager._get_key ex mk = Some c →
        OrderbookCache.has_valid_book c = false) →
  OrderBookManager._update_from_cache m ex mk ts = (m, Ok ()).
Proof.
  intros Hinvalid. unfold OrderBookManager._update_from_cache.
  destruct (_ !! _) as [c |]; [| done].
  by rewrite (Hinvalid c eq_refl).
Qed.

(** An exchange outside the literal type: the snapshot is refused. *)
Lemma update_from_cache_refused m ex mk ts c :
  OrderBookManager._caches m !! OrderBookManager._get_key ex mk = Some c →
  OrderbookCache.has_valid_book c = true →
  exchange_literal ex = false →
  OrderBookManager._update_from_cache m ex mk ts = (m, Raise ValidationError).
Proof.
  intros Hc Hvalid Hex. unfold OrderBookManager._update_from_cache.
  rewrite Hc, Hvalid. simpl.
  destruct (OrderbookCache.get_sorted_levels c None) as [bids asks].
  unfold OrderBookSnapshot.make. by rewrite Hex.
Qed.

(** A valid book on a known exchange, with no callback or a coroutine
    function: snapshot, history, tick and metrics are all written. *)
Lemma update_from_cache_valid m ex mk ts c :
  OrderBookManager._caches m !! OrderBookManager._get_key ex mk = Some c →
  OrderbookCache.has_valid_book c = true →
  exchange_literal ex = true →
  callback_accepted m = true →
  ∃ mid lm,
    OrderBookSnapshot.mid_price (snapshot_of c ex mk ts) = Some mid
    ∧ outcome (LiquidityCalculator.calculate_all_metrics
                 (snapshot_of c ex mk ts) None) = Ok lm
    ∧ (OrderBookManager._update_from_cache m ex mk ts).2 = Ok ()
    ∧ OrderBookManager._orderbooks
        (OrderBookManager._update_from_cache m ex mk ts).1
      = <[OrderBookManager._get_key ex mk := snapshot_of c ex mk ts]>
          (OrderBookManager._orderbooks m)
    ∧ OrderBookManager._liquidity_metrics
        (OrderBookManager._update_from_cache m ex mk ts).1
      = <[OrderBookManager._get_key ex mk := lm]>
          (OrderBookManager._liquidity_metrics m)
    ∧ OrderBookManager._price_history
        (OrderBookManager._update_from_cache m ex mk ts).1
      = OrderBookManager._price_history
          (OrderBookManager._update_price_history m ex mk mid ts)
    ∧ OrderBookManager.scheduled
        (OrderBookManager._update_from_cache m ex mk ts).1
      = OrderBookManager.scheduled m
        ++ match OrderBookManager._price_update_callback m with
           | Some cb => [tick cb ex mk mid ts]
           | None => []
           end.
Proof.
  intros Hc Hvalid Hex Hcallback.
  destruct (valid_book_mid c ex mk ts Hvalid) as [mid Hmid].
  destruct (valid_book_sides c ex mk ts Hvalid) as [Hb Ha].
  destruct (calculate_all_metrics_entries (snapshot_of c ex mk ts) None
              Hb Ha Hex) as (lm & Hlm & _).
  exists mid, lm. split; [done |]. split; [done |].
  unfold OrderBookManager._update_from_cache.
  rewrite Hc, Hvalid. cbn [negb].
  unfold snapshot_of in *.
  destruct (OrderbookCache.get_sorted_levels c None) as [bids asks].
  cbn [fst snd] in *.
  unfold OrderBookSnapshot.make. rewrite Hex, Hmid.
  unfold callback_accepted in Hcallback.
  destruct (OrderBookManager._price_update_callback m) as [[f | f] |] eqn:Hcb;
    [| discriminate Hcallback |];
    cbn [OrderBookManager._update_price_history
           OrderBookManager.set_price_history
           OrderBookManager.set_orderbooks
           OrderBookManager._price_update_callback];
    rewrite Hcb; unfold OrderBookManager.create_task;
    cbn [OrderBookManager.callback]; rewrite Hlm; cbn;
    rewrite ?app_nil_r; done.
Qed.

(** A valid book on a known exchange, with a callback that is not a
    coroutine function: the snapshot and the history point are written,
    then [asyncio.create_task] raises, before the metrics are computed
    and with no task scheduled. *)
Lemma update_from_cache_not_scheduled m ex mk ts c f :
  OrderBookManager._caches m !! OrderBookManager._get_key ex mk = Some c →
  OrderbookCache.has_valid_book c = true →
  exchange_literal ex = true →
  OrderBookManager._price_update_callback m
    = Some (OrderBookManager.other_object f) →
  ∃ mid,
    OrderBookSnapshot.mid_price (snapshot_of c ex mk ts) = Some mid
    ∧ (OrderBookManager._update_from_cache m ex mk ts).2 = Raise TypeError
    ∧ OrderBookManager._orderbooks
        (OrderBookManager._update_from_cache m ex mk ts).1
      = <[OrderBookManager._get_key ex mk := snapshot_of c ex mk ts]>
          (OrderBookManager._orderbooks m)
    ∧ OrderBookManager._liquidity_metrics
        (OrderBookManager._update_from_cache m ex mk ts).1
      = OrderBookManager._liquidity_metrics m
    ∧ OrderBookManager._price_history
        (OrderBookManager._update_from_cache m ex mk ts).1
      = OrderBookManager._price_history
          (OrderBookManager._update_price_history m ex mk mid ts)
    ∧ OrderBookManager.scheduled
        (OrderBookManager._update_from_cache m ex mk ts).1
      = OrderBookManager.scheduled m.
Proof.
  intros Hc Hvalid Hex Hcb.
  destruct (valid_book_mid c ex mk ts Hvalid) as [mid Hmid].
  exists mid. split; [done |].
  unfold OrderBookManager._update_from_cache.
  rewrite Hc, Hvalid. cbn [negb].
  unfold snapshot_of in *.
  destruct (OrderbookCache.get_sorted_levels c None) as [bids asks].
  cbn [fst snd] in *.
  unfold OrderBookSnapshot.make. rewrite Hex, Hmid.
  cbn [OrderBookManager._update_price_history
         OrderBookManager.set_price_history
         OrderBookManager.set_orderbooks
         OrderBookManager._price_update_callback].
  rewrite Hcb. unfold OrderBookManager.create_task.
  cbn [OrderBookManager.callback]. cbn. done.
Qed.

(** A call mutates the cache of its key and then derives from it; up to
    that point only [_caches] and [_locks] have changed. *)
Lemma run_call_unfold m c :
  ∃ m1,
    run_call m c
    = OrderBookManager.caught
        (OrderBookManager._update_from_cache m1 (call_exchange c)
           (call_market c) (call_timestamp c))
    ∧ OrderBookManager._caches m1 !! call_key c = Some (book_after_call m c)
    ∧ OrderBookManager._orderbooks m1 = OrderBookManager._orderbooks m
    ∧ OrderBookManager._liquidity_metrics m1
      = OrderBookManager._liquidity_metrics m
    ∧ OrderBookManager._price_history m1 = OrderBookManager._price_history m
    ∧ OrderBookManager._price_history_seconds m1
      = OrderBookManager._price_history_seconds m
    ∧ OrderBookManager._price_update_callback m1
      = OrderBookManager._price_update_callback m
    ∧ OrderBookManager.scheduled m1 = OrderBookManager.scheduled m.
Proof.
  unfold book_after_call, cache_of, call_key.
  destruct c as [ex mk bids asks ts now | ex mk bids asks ts is_snapshot now];
    cbn [run_call call_exchange call_market call_timestamp].
  - rewrite initialize_orderbook_cache. cbn [default].
    unfold OrderBookManager.initialize_orderbook,
      OrderBookManager._get_or_create_cache.
    cbn [OrderBookManager._get_lock OrderBookManager._caches].
    destruct (OrderBookManager._caches m !! OrderBookManager._get_key ex mk)
      as [c0 |] eqn:Hc0;
      (eexists; split; [reflexivity |]);
      cbn; rewrite lookup_insert_eq; unfold cache_of; rewrite Hc0; done.
  - rewrite update_orderbook_cache. cbn [default].
    unfold OrderBookManager.update_orderbook,
      OrderBookManager._get_or_create_cache.
    cbn [OrderBookManager._get_lock OrderBookManager._caches].
    destruct (OrderBookManager._caches m !! OrderBookManager._get_key ex mk)
      as [c0 |] eqn:Hc0;
      (eexists; split; [reflexivity |]);
      cbn; rewrite lookup_insert_eq; unfold cache_of; rewrite Hc0; done.
Qed.

(** A call that leaves a side empty succeeds and derives nothing: the
    stored snapshot, metrics, history and scheduled ticks stay as they
    were. *)
Lemma run_call_invalid m c :
  OrderbookCache.has_valid_book (book_after_call m c) = false →
  (run_call m c).2 = true
  ∧ OrderBookManager._orderbooks (run_call m c).1
    = OrderBookManager._orderbooks m
  ∧ OrderBookManager._liquidity_metrics (run_call m c).1
    = OrderBookManager._liquidity_metrics m
  ∧ OrderBookManager._price_history (run_call m c).1
    = OrderBookManager._price_history m
  ∧ OrderBookManager.scheduled (run_call m c).1
    = OrderBookManager.scheduled m.
Proof.
  intros Hinvalid.
  destruct (run_call_unfold m c)
    as (m1 & -> & Hc & Hob & Hlm & Hph & _ & _ & Hsched).
  rewrite update_from_cache_invalid.
  - cbn. by rewrite Hob, Hlm, Hph, Hsched.
  - intros c0 Hc0. unfold call_key in Hc. rewrite Hc in Hc0.
    by injection Hc0 as <-.
Qed.

Lemma callback_accepted_ext m m' :
  OrderBookManager._price_update_callback m'
    = OrderBookManager._price_update_callback m →
  callback_accepted m' = callback_accepted m.
Proof. unfold callback_accepted. by intros ->. Qed.

Lemma callback_not_accepted m :
  callback_accepted m = false →
  ∃ f, OrderBookManager._price_update_callback m
       = Some (OrderBookManager.other_object f).
Proof.
  unfold callback_accepted.
  destruct (OrderBookManager._price_update_callback m) as [[f | f] |];
    [done | by exists f | done].
Qed.

(** A call that leaves both sides quoted succeeds exactly when the
    exchange is one of the two literals and the callback, if there is
    one, is a coroutine function. *)
Lemma run_call_success m c :
  OrderbookCache.has_valid_book (book_after_call m c) = true →
  (run_call m c).2
  = exchange_literal (call_exchange c) && callback_accepted m.
Proof.
  intros Hvalid.
  destruct (run_call_unfold m c)
    as (m1 & -> & Hc & _ & _ & _ & _ & Hcb & _).
  destruct (exchange_literal (call_exchange c)) eqn:Hex.
  - rewrite <- (callback_accepted_ext _ _ Hcb).
    destruct (callback_accepted m1) eqn:Haccepted.
    + destruct (update_from_cache_valid m1 _ _ (call_timestamp c) _
                  Hc Hvalid Hex Haccepted) as (mid & lm & _ & _ & Hok & _).
      unfold OrderBookManager.caught. by rewrite Hok.
    + destruct (callback_not_accepted m1 Haccepted) as [f Hf].
      destruct (update_from_cache_not_scheduled m1 _ _ (call_timestamp c)
                  _ f Hc Hvalid Hex Hf) as (mid & _ & Hraise & _).
      unfold OrderBookManager.caught. by rewrite Hraise.
  - by rewrite (update_from_cache_refused m1 _ _ (call_timestamp c) _
                  Hc Hvalid Hex).
Qed.

(** A successful call that leaves both sides quoted stores the snapshot
    of the book and its metrics, and schedules one tick if a callback is
    registered. *)
Lemma run_call_valid m c :
  (run_call m c).2 = true →
  OrderbookCache.has_valid_book (book_after_call m c) = true →
  let snapshot :=
    snapshot_of (book_after_call m c) (call_exchange c) (call_market c)
                (call_timestamp c) in
  ∃ mid lm,
    OrderBookSnapshot.mid_price snapshot = Some mid
    ∧ outcome (LiquidityCalculator.calculate_all_metrics snapshot None)
      = Ok lm
    ∧ OrderBookManager._orderbooks (run_call m c).1
      = <[call_key c := snapshot]> (OrderBookManager._orderbooks m)
    ∧ OrderBookManager._liquidity_metrics (run_call m c).1
      = <[call_key c := lm]> (OrderBookManager._liquidity_metrics m)
    ∧ OrderBookManager.scheduled (run_call m c).1
      = OrderBookManager.scheduled m
        ++ match OrderBookManager._price_update_callback m with
           | Some cb =>
               [tick cb (call_exchange c) (call_market c) mid
                     (call_timestamp c)]
           | None => []
           end.
Proof.
  intros Hsuccess Hvalid snapshot.
  rewrite (run_call_success m c Hvalid) in Hsuccess.
  apply andb_true_iff in Hsuccess as [Hex Haccepted].
  destruct (run_call_unfold m c)
    as (m1 & -> & Hc & Hob & Hlm & _ & _ & Hcb & Hsched).
  rewrite <- (callback_accepted_ext _ _ Hcb) in Haccepted.
  destruct (update_from_cache_valid m1 _ _ (call_timestamp c) _
              Hc Hvalid Hex Haccepted)
    as (mid & lm & Hmid & Hcalc & _ & Hob' & Hlm' & _ & Hsched').
  exists mid, lm. rewrite caught_state.
  rewrite Hob', Hlm', Hsched', Hob, Hlm, Hcb, Hsched. done.
Qed.

(** A call that leaves both sides quoted, on a known exchange, with a
    callback that is not a coroutine function: it fails after the
    snapshot and the history point were written, with the metrics as
    they were and no tick. *)
Lemma run_call_not_scheduled m c f :
  OrderbookCache.has_valid_book (book_after_call m c) = true →
  exchange_literal (call_exchange c) = true →
  OrderBookManager._price_update_callback m
    = Some (OrderBookManager.other_object f) →
  let snapshot :=
    snapshot_of (book_after_call m c) (call_exchange c) (call_market c)
                (call_timestamp c) in
  ∃ mid,
    OrderBookSnapshot.mid_price snapshot = Some mid
    ∧ (run_call m c).2 = false
    ∧ OrderBookManager._orderbooks (run_call m c).1
      = <[call_key c := snapshot]> (OrderBookManager._orderbooks m)
    ∧ OrderBookManager._liquidity_metrics (run_call m c).1
      = OrderBookManager._liquidity_metrics m
    ∧ OrderBookManager._price_history (run_call m c).1
      = OrderBookManager._price_history (history_step m (append_of c mid))
    ∧ OrderBookManager.scheduled (run_call m c).1
      = OrderBookManager.scheduled m.
Proof.
  intros Hvalid Hex Hf snapshot.
  destruct (run_call_unfold m c)
    as (m1 & -> & Hc & Hob & Hlm & Hph & Hsec & Hcb & Hsched).
  rewrite <- Hcb in Hf.
  destruct (update_from_cache_not_scheduled m1 _ _ (call_timestamp c) _ f
              Hc Hvalid Hex Hf)
    as (mid & Hmid & Hraise & Hob' & Hlm' & Hph' & Hsched').
  exists mid. split; [done |]. rewrite caught_state.
  split; [unfold OrderBookManager.caught; by rewrite Hraise |].
  rewrite Hob', Hlm', Hph', Hsched', Hob, Hlm, Hsched.
  split; [done |]. split; [done |]. split; [| done].
  unfold history_step, append_of, OrderBookManager._update_price_history.
  simpl. by rewrite Hph, Hsec.
Qed.

(** ** Tick-price callbacks *)

(** C3 fails as stated.  The same snapshot once more: the mid is the one
    already published, and a second tick is scheduled all the same. *)
Lemma tick_scheduled_for_unchanged_mid : ¬ tick_on_change_claim.
Proof.
  intros Hclaim.
  destruct (Hclaim s1_manager s1_call s1_callback) as (mid & Hmid & _ & Hsame).
  - vm_compute. reflexivity.
  - vm_compute. reflexivity.
  - vm_compute. reflexivity.
  - assert (published_mid (run_call s1_manager s1_call).1 (call_key s1_call)
            = published_mid s1_manager (call_key s1_call)) as Heq.
    { vm_compute. reflexivity. }
    assert (length (OrderBookManager.scheduled (run_call s1_manager s1_call).1)
            ≠ length (OrderBookManager.scheduled s1_manager)) as Hgrown.
    { vm_compute. discriminate. }
    rewrite Heq in Hmid. apply Hsame in Hmid.
    apply Hgrown. by rewrite Hmid.
Qed.

(** C3, amended: every successful call that leaves both sides quoted
    schedules the registered callback exactly once, with the new mid and
    the timestamp of the call, whether or not that mid differs from the
    one published before. *)
Theorem tick_scheduled_once_per_update
    (m : OrderBookManager.t) (c : Call) (cb : OrderBookManager.Callback) :
  OrderBookManager._price_update_callback m = Some cb →
  (run_call m c).2 = true →
  OrderbookCache.has_valid_book (book_after_call m c) = true →
  ∃ mid,
    published_mid (run_call m c).1 (call_key c) = Some mid
    ∧ OrderBookManager.scheduled (run_call m c).1
      = OrderBookManager.scheduled m
        ++ [tick cb (call_exchange c) (call_market c) mid (call_timestamp c)].
Proof.
  intros Hcb Hsuccess Hvalid.
  destruct (run_call_valid m c Hsuccess Hvalid)
    as (mid & lm & Hmid & _ & Hob & _ & Hsched).
  exists mid. unfold published_mid.
  rewrite Hob, lookup_insert_eq, Hsched, Hcb. done.
Qed.

(** The amended C3 on the second publication of scenario S1. *)
Lemma tick_scheduled_once_per_update_witness :
  OrderBookManager._price_update_callback s1_manager = Some s1_callback
  ∧ (run_call s1_manager s1_call).2 = true
  ∧ OrderbookCache.has_valid_book (book_after_call s1_manager s1_call) = true
  ∧ ∃ mid,
      published_mid (run_call s1_manager s1_call).1 (call_key s1_call)
        = Some mid
      ∧ OrderBookManager.scheduled (run_call s1_manager s1_call).1
        = OrderBookManager.scheduled s1_manager
          ++ [tick s1_callback "lighter" "market_0" mid 1].
Proof.
  assert (OrderBookManager._price_update_callback s1_manager = Some s1_callback)
    as Hcb.
  { vm_compute. reflexivity. }
  assert ((run_call s1_manager s1_call).2 = true) as Hsuccess.
  { vm_compute. reflexivity. }
  assert (OrderbookCache.has_valid_book (book_after_call s1_manager s1_call)
          = true) as Hvalid.
  { vm_compute. reflexivity. }
  split; [exact Hcb |]. split; [exact Hsuccess |]. split; [exact Hvalid |].
  exact (tick_scheduled_once_per_update s1_manager s1_call s1_callback
           Hcb Hsuccess Hvalid).
Defined.

(** ** Derived snapshot and metrics *)

(** C4 fails as stated.  After S1, a successful update that empties the
    ask side leaves the snapshot of S1 in place, with its two asks. *)
Lemma stale_snapshot_after_empty_side : ¬ recomputed_on_every_update_claim.
Proof.
  intros Hclaim.
  destruct (Hclaim s1_manager no_asks_call)
    as (snapshot & lm & Hsnap & _ & _ & Hasks & _).
  { vm_compute. reflexivity. }
  assert ((λ s, length (OrderBookSnapshot.asks s))
            <$> (OrderBookManager._orderbooks
                   (run_call s1_manager no_asks_call).1
                 !! OrderBookManager._get_key "lighter" "market_0")
          = Some 2%nat) as Hstored.
  { vm_compute. reflexivity. }
  assert (length (OrderbookCache.get_sorted_levels
                    (cache_of (run_call s1_manager no_asks_call).1
                       "lighter" "market_0") None).2 = 0%nat) as Hmaps.
  { vm_compute. reflexivity. }
  cbn [call_exchange call_market no_asks_call] in Hsnap, Hasks.
  rewrite Hsnap in Hstored. cbn [fmap option_fmap option_map] in Hstored.
  rewrite Hasks, Hmaps in Hstored. discriminate Hstored.
Qed.

(** C4, amended: after a successful call that leaves both sides of the
    book quoted, the stored snapshot is the sorted view of the maps just
    written, stamped with the timestamp of the call, and the stored
    metrics are the full ladder computed from that snapshot; after a
    successful call that leaves a side empty, the stored snapshot and
    metrics are the ones stored before the call. *)
Theorem derived_values_follow_valid_book
    (m : OrderBookManager.t) (c : Call) :
  (run_call m c).2 = true →
  let m' := (run_call m c).1 in
  let snapshot :=
    snapshot_of (book_after_call m c) (call_exchange c) (call_market c)
                (call_timestamp c) in
  if OrderbookCache.has_valid_book (book_after_call m c)
  then ∃ lm,
         OrderBookManager._orderbooks m' !! call_key c = Some snapshot
         ∧ OrderBookManager._liquidity_metrics m' !! call_key c = Some lm
         ∧ outcome (LiquidityCalculator.calculate_all_metrics snapshot None)
           = Ok lm
  else OrderBookManager._orderbooks m' = OrderBookManager._orderbooks m
       ∧ OrderBookManager._liquidity_metrics m'
         = OrderBookManager._liquidity_metrics m.
Proof.
  intros Hsuccess m' snapshot. subst m' snapshot.
  destruct (OrderbookCache.has_valid_book (book_after_call m c)) eqn:Hvalid.
  - destruct (run_call_valid m c Hsuccess Hvalid)
      as (mid & lm & _ & Hcalc & Hob & Hlm & _).
    exists lm. rewrite Hob, Hlm, !lookup_insert_eq. done.
  - destruct (run_call_invalid m c Hvalid) as (_ & Hob & Hlm & _). done.
Qed.

(** The amended C4 on an update that empties the ask side after S1. *)
Lemma derived_values_follow_valid_book_witness :
  (run_call s1_manager no_asks_call).2 = true
  ∧ OrderBookManager._orderbooks (run_call s1_manager no_asks_call).1
    = OrderBookManager._orderbooks s1_manager
  ∧ OrderBookManager._liquidity_metrics (run_call s1_manager no_asks_call).1
    = OrderBookManager._liquidity_metrics s1_manager.
Proof.
  assert ((run_call s1_manager no_asks_call).2 = true) as Hsuccess.
  { vm_compute. reflexivity. }
  split; [exact Hsuccess |].
  pose proof (derived_values_follow_valid_book s1_manager no_asks_call
                Hsuccess) as Hderived.
  cbv zeta in Hderived.
  assert (OrderbookCache.has_valid_book
            (book_after_call s1_manager no_asks_call) = false) as Hinvalid.
  { vm_compute. reflexivity. }
  rewrite Hinvalid in Hderived. exact Hderived.
Defined.

(** ** Sequences of calls *)

Lemma update_from_cache_seconds m ex mk ts :
  OrderBookManager._price_history_seconds
    (OrderBookManager._update_from_cache m ex mk ts).1
  = OrderBookManager._price_history_seconds m.
Proof.
  unfold OrderBookManager._update_from_cache.
  repeat case_match; simplify_eq; simpl; try done.
  all: match goal with
       | H : OrderBookManager.create_task ?m0 ?task = _ |- _ =>
           destruct (create_task_fields m0 task) as (_ & _ & _ & _ & Hsec & _);
           rewrite H in Hsec; simpl in Hsec; by rewrite Hsec
       end.
Qed.

Lemma run_call_seconds m c :
  OrderBookManager._price_history_seconds (run_call m c).1
  = OrderBookManager._price_history_seconds m.
Proof.
  destruct (run_call_unfold m c) as (m1 & -> & _ & _ & _ & _ & Hsec & _).
  by rewrite caught_state, update_from_cache_seconds.
Qed.

(** A call on an exchange outside the literal type fails once both sides
    are quoted, and derives nothing. *)
Lemma run_call_refused m c :
  OrderbookCache.has_valid_book (book_after_call m c) = true →
  exchange_literal (call_exchange c) = false →
  (run_call m c).2 = false
  ∧ OrderBookManager._orderbooks (run_call m c).1
    = OrderBookManager._orderbooks m
  ∧ OrderBookManager._liquidity_metrics (run_call m c).1
    = OrderBookManager._liquidity_metrics m
  ∧ OrderBookManager._price_history (run_call m c).1
    = OrderBookManager._price_history m
  ∧ OrderBookManager.scheduled (run_call m c).1
    = OrderBookManager.scheduled m.
Proof.
  intros Hvalid Hex.
  destruct (run_call_unfold m c)
    as (m1 & -> & Hc & Hob & Hlm & Hph & _ & _ & Hsched).
  rewrite (update_from_cache_refused m1 _ _ (call_timestamp c) _
             Hc Hvalid Hex).
  cbn. by rewrite Hob, Hlm, Hph, Hsched.
Qed.

(** A call appends to the history at most once, and only to the history
    of its own key. *)
Lemma run_call_history m c :
  OrderBookManager._price_history (run_call m c).1
    = OrderBookManager._price_history m
  ∨ ∃ mid,
      OrderBookManager._price_history (run_call m c).1
      = OrderBookManager._price_history (history_step m (append_of c mid)).
Proof.
  destruct (OrderbookCache.has_valid_book (book_after_call m c)) eqn:Hvalid.
  - destruct (exchange_literal (call_exchange c)) eqn:Hex.
    + right. destruct (callback_accepted m) eqn:Haccepted.
      * destruct (run_call_unfold m c)
          as (m1 & -> & Hc & _ & _ & Hph & Hsec & Hcb & _).
        rewrite <- (callback_accepted_ext _ _ Hcb) in Haccepted.
        destruct (update_from_cache_valid m1 _ _ (call_timestamp c) _
                    Hc Hvalid Hex Haccepted)
          as (mid & lm & _ & _ & _ & _ & _ & Hhist & _).
        exists mid. rewrite caught_state, Hhist.
        unfold history_step, append_of,
          OrderBookManager._update_price_history. simpl.
        by rewrite Hph, Hsec.
      * destruct (callback_not_accepted m Haccepted) as [f Hf].
        destruct (run_call_not_scheduled m c f Hvalid Hex Hf)
          as (mid & _ & _ & _ & _ & Hhist & _).
        by exists mid.
    + left. by destruct (run_call_refused m c Hvalid Hex) as (_ & _ & _ & ? & _).
  - left. by destruct (run_call_invalid m c Hvalid) as (_ & _ & _ & ? & _).
Qed.

(** Either nothing is published by a call, or the sorted view of its
    book is. *)
Lemma run_call_orderbooks m c :
  OrderBookManager._orderbooks (run_call m c).1
    = OrderBookManager._orderbooks m
  ∨ OrderBookManager._orderbooks (run_call m c).1
    = <[call_key c :=
          snapshot_of (book_after_call m c) (call_exchange c)
                      (call_market c) (call_timestamp c)]>
        (OrderBookManager._orderbooks m).
Proof.
  destruct (OrderbookCache.has_valid_book (book_after_call m c)) eqn:Hvalid.
  - destruct (exchange_literal (call_exchange c)) eqn:Hex.
    + right. destruct (callback_accepted m) eqn:Haccepted.
      * assert ((run_call m c).2 = true) as Hsuccess.
        { by rewrite (run_call_success m c Hvalid), Hex, Haccepted. }
        by destruct (run_call_valid m c Hsuccess Hvalid)
          as (mid & lm & _ & _ & ? & _).
      * destruct (callback_not_accepted m Haccepted) as [f Hf].
        by destruct (run_call_not_scheduled m c f Hvalid Hex Hf)
          as (mid & _ & _ & ? & _).
    + left. by destruct (run_call_refused m c Hvalid Hex) as (_ & ? & _).
  - left. by destruct (run_call_invalid m c Hvalid) as (_ & ? & _).
Qed.

Lemma manager_after_seconds window calls :
  OrderBookManager._price_history_seconds (manager_after window calls)
  = window.
Proof.
  unfold manager_after.
  induction calls as [| c calls IH] using rev_ind; [done |].
  rewrite foldl_app. simpl. by rewrite run_call_seconds.
Qed.

Lemma history_of_ext m m' key :
  OrderBookManager._price_history m = OrderBookManager._price_history m' →
  history_of m key = history_of m' key.
Proof. unfold history_of. by intros ->. Qed.

(** The history of a key holds at most one entry per call made on that
    key. *)
Lemma price_history_bounded_by_calls window calls key :
  (length (history_of (manager_after window calls) key)
   ≤ length (filter (λ c, call_key c = key) calls))%nat.
Proof.
  induction calls as [| c calls IHlen] using rev_ind; [done |].
  unfold manager_after in *. rewrite foldl_app. simpl.
  set (m := foldl (λ m c, (run_call m c).1)
                  (OrderBookManager.new window) calls) in *.
  rewrite filter_app, length_app.
  destruct (run_call_history m c) as [Hsame | [mid Hstep]].
  - rewrite (history_of_ext _ _ key Hsame). lia.
  - rewrite (history_of_ext _ _ key Hstep).
    destruct (decide (call_key c = key)) as [<- | Hne].
    + change (call_key c) with (append_key (append_of c mid)) at 1.
      rewrite history_step_same. etrans; [apply prune_length |].
      rewrite length_app. simpl.
      rewrite filter_cons_True by done. simpl.
      change (append_key (append_of c mid)) with (call_key c). lia.
    + rewrite history_step_other by done. lia.
Qed.

(** Every snapshot published along a sequence of calls has strictly
    decreasing bid prices and strictly increasing ask prices. *)
Lemma published_snapshots_sorted window calls key snapshot :
  OrderBookManager._orderbooks (manager_after window calls) !! key
    = Some snapshot →
  strictly_decreasing
    (OrderBookLevel.price <$> OrderBookSnapshot.bids snapshot)
  ∧ strictly_increasing
    (OrderBookLevel.price <$> OrderBookSnapshot.asks snapshot).
Proof.
  revert snapshot. unfold manager_after.
  induction calls as [| c calls IH] using rev_ind; intros snapshot.
  - simpl. by rewrite lookup_empty.
  - rewrite foldl_app. simpl.
    destruct (run_call_orderbooks
                (foldl (λ m c, (run_call m c).1)
                       (OrderBookManager.new window) calls) c)
      as [-> | ->]; [apply IH |].
    destruct (decide (key = call_key c)) as [-> | Hne].
    + rewrite lookup_insert_eq. intros [= <-].
      split; [apply sorted_bids_strict | apply sorted_asks_strict].
    + rewrite lookup_insert_ne by done. apply IH.
Qed.

(** * Further properties of the code *)

(** ** orderbook_cache.py: sorted levels and statistics *)

Lemma to_level_elem_of (items : list (Qc * Qc)) p s :
  OrderBookLevel.make p s ∈ OrderbookCache.to_level <$> items ↔ (p, s) ∈ items.
Proof.
  rewrite list_elem_of_fmap. split.
  - intros ([p' s'] & Heq & Hin). unfold OrderbookCache.to_level in Heq.
    simpl in Heq. by injection Heq as -> ->.
  - intros Hin. by exists (p, s).
Qed.

(** X1.  Without a limit, the sorted levels are the stored entries, no
    more and no less: a level is listed on a side exactly when the map of
    that side holds its size at its price, and each side lists as many
    levels as its map has prices. *)
Theorem sorted_levels_are_the_stored_entries (c : OrderbookCache.t) :
  let levels := OrderbookCache.get_sorted_levels c None in
  (∀ p s, OrderBookLevel.make p s ∈ levels.1
          ↔ OrderbookCache._bids c !! p = Some s)
  ∧ (∀ p s, OrderBookLevel.make p s ∈ levels.2
            ↔ OrderbookCache._asks c !! p = Some s)
  ∧ length levels.1 = size (OrderbookCache._bids c)
  ∧ length levels.2 = size (OrderbookCache._asks c).
Proof.
  unfold OrderbookCache.get_sorted_levels. simpl. repeat split.
  - rewrite to_level_elem_of. by apply sorted_descending_elem_of.
  - rewrite to_level_elem_of. intros Hp. by apply sorted_descending_elem_of.
  - rewrite to_level_elem_of. by apply sorted_ascending_elem_of.
  - rewrite to_level_elem_of. intros Hp. by apply sorted_ascending_elem_of.
  - by rewrite length_fmap, sorted_descending_length.
  - by rewrite length_fmap, sorted_ascending_length.
Qed.

(** X2.  A positive limit keeps the best [n] levels of each side; a limit
    of 0 is no limit at all; a negative limit drops the [-n] worst levels
    of each side. *)
Theorem sorted_levels_limit (c : OrderbookCache.t) (n : Z) :
  let all := OrderbookCache.get_sorted_levels c None in
  let cut := OrderbookCache.get_sorted_levels c (Some n) in
  match (n ?= 0)%Z with
  | Gt => cut = (take (Z.to_nat n) all.1, take (Z.to_nat n) all.2)
          ∧ (length cut.1 ≤ Z.to_nat n)%nat
          ∧ (length cut.2 ≤ Z.to_nat n)%nat
  | Eq => cut = all
  | Lt => cut = (take (length all.1 - Z.to_nat (- n)) all.1,
                 take (length all.2 - Z.to_nat (- n)) all.2)
  end.
Proof.
  unfold OrderbookCache.get_sorted_levels, OrderbookCache.apply_limit,
    slice_to. simpl.
  destruct (Z.compare_spec n 0) as [-> | Hlt | Hgt].
  - by rewrite bool_decide_eq_false_2 by (intros H; by apply H).
  - rewrite bool_decide_eq_true_2 by lia.
    rewrite (bool_decide_eq_false_2 (0 ≤ n)%Z) by lia.
    by rewrite !fmap_take, !length_fmap.
  - rewrite bool_decide_eq_true_2 by lia.
    rewrite (bool_decide_eq_true_2 (0 ≤ n)%Z) by lia.
    rewrite !fmap_take, !length_take. repeat split; lia.
Qed.

Lemma first_price_take_1 (items : list (Qc * Qc)) :
  OrderbookCache.first_price (OrderbookCache.to_level <$> take 1 items)
  = fst <$> head items.
Proof. by destruct items. Qed.

Lemma get_stats_best_bid c :
  CacheStats.best_bid (OrderbookCache.get_stats c)
  = fst <$> head (OrderbookCache.sorted_descending (OrderbookCache._bids c)).
Proof.
  unfold OrderbookCache.get_stats, OrderbookCache.get_sorted_levels,
    OrderbookCache.apply_limit, slice_to. simpl.
  apply first_price_take_1.
Qed.

Lemma get_stats_best_ask c :
  CacheStats.best_ask (OrderbookCache.get_stats c)
  = fst <$> head (OrderbookCache.sorted_ascending (OrderbookCache._asks c)).
Proof.
  unfold OrderbookCache.get_stats, OrderbookCache.get_sorted_levels,
    OrderbookCache.apply_limit, slice_to. simpl.
  apply first_price_take_1.
Qed.

Lemma sorted_descending_head d x :
  head (OrderbookCache.sorted_descending d) = Some x →
  d !! x.1 = Some x.2 ∧ ∀ p, is_Some (d !! p) → p ≤ x.1.
Proof.
  intros Hhead.
  pose proof (StronglySorted_merge_sort OrderbookCache.key_ge (map_to_list d))
    as Hsorted.
  fold (OrderbookCache.sorted_descending d) in Hsorted.
  destruct (OrderbookCache.sorted_descending d) as [| y l] eqn:Hl; [done |].
  injection Hhead as ->.
  assert (∀ p s, (p, s) ∈ x :: l ↔ d !! p = Some s) as Hin.
  { intros p s. rewrite <- Hl. apply sorted_descending_elem_of. }
  split.
  - apply Hin. destruct x. left.
  - intros p [s Hp]. apply Hin in Hp.
    apply elem_of_cons in Hp as [<- | Hp]; [done |].
    apply StronglySorted_inv in Hsorted as [_ Hall].
    rewrite Forall_forall in Hall. exact (Hall _ Hp).
Qed.

Lemma sorted_ascending_head d x :
  head (OrderbookCache.sorted_ascending d) = Some x →
  d !! x.1 = Some x.2 ∧ ∀ p, is_Some (d !! p) → x.1 ≤ p.
Proof.
  intros Hhead.
  pose proof (StronglySorted_merge_sort OrderbookCache.key_le (map_to_list d))
    as Hsorted.
  fold (OrderbookCache.sorted_ascending d) in Hsorted.
  destruct (OrderbookCache.sorted_ascending d) as [| y l] eqn:Hl; [done |].
  injection Hhead as ->.
  assert (∀ p s, (p, s) ∈ x :: l ↔ d !! p = Some s) as Hin.
  { intros p s. rewrite <- Hl. apply sorted_ascending_elem_of. }
  split.
  - apply Hin. destruct x. left.
  - intros p [s Hp]. apply Hin in Hp.
    apply elem_of_cons in Hp as [<- | Hp]; [done |].
    apply StronglySorted_inv in Hsorted as [_ Hall].
    rewrite Forall_forall in Hall. exact (Hall _ Hp).
Qed.

Lemma sorted_descending_nil d :
  OrderbookCache.sorted_descending d = [] ↔ d = ∅.
Proof.
  rewrite <- length_zero_iff_nil, sorted_descending_length.
  apply map_size_empty_iff.
Qed.

Lemma sorted_ascending_nil d :
  OrderbookCache.sorted_ascending d = [] ↔ d = ∅.
Proof.
  rewrite <- length_zero_iff_nil, sorted_ascending_length.
  apply map_size_empty_iff.
Qed.

(** X3.  [get_stats] reports the highest stored bid price as [best_bid]
    and the lowest stored ask price as [best_ask]; either is [None]
    exactly when its side is empty; the level counts are the sizes of the
    maps. *)
Theorem get_stats_best_prices (c : OrderbookCache.t) :
  let stats := OrderbookCache.get_stats c in
  (CacheStats.best_bid stats = None ↔ OrderbookCache._bids c = ∅)
  ∧ (CacheStats.best_ask stats = None ↔ OrderbookCache._asks c = ∅)
  ∧ (∀ b, CacheStats.best_bid stats = Some b →
          is_Some (OrderbookCache._bids c !! b)
          ∧ ∀ p, is_Some (OrderbookCache._bids c !! p) → p ≤ b)
  ∧ (∀ a, CacheStats.best_ask stats = Some a →
          is_Some (OrderbookCache._asks c !! a)
          ∧ ∀ p, is_Some (OrderbookCache._asks c !! p) → a ≤ p)
  ∧ CacheStats.bid_levels stats = size (OrderbookCache._bids c)
  ∧ CacheStats.ask_levels stats = size (OrderbookCache._asks c).
Proof.
  intros stats. subst stats.
  rewrite get_stats_best_bid, get_stats_best_ask.
  split; [| split; [| split; [| split; [| by split]]]].
  - rewrite <- sorted_descending_nil.
    by destruct (OrderbookCache.sorted_descending _).
  - rewrite <- sorted_ascending_nil.
    by destruct (OrderbookCache.sorted_ascending _).
  - intros b Hb.
    destruct (head (OrderbookCache.sorted_descending _)) as [x |] eqn:Hx;
      [| done].
    injection Hb as <-. apply sorted_descending_head in Hx as [Hin Hmax].
    split; [by eexists | done].
  - intros a Ha.
    destruct (head (OrderbookCache.sorted_ascending _)) as [x |] eqn:Hx;
      [| done].
    injection Ha as <-. apply sorted_ascending_head in Hx as [Hin Hmin].
    split; [by eexists | done].
Qed.

Lemma first_price_levels (items : list (Qc * Qc)) :
  OrderbookCache.first_price (OrderbookCache.to_level <$> items)
  = fst <$> head items.
Proof. by destruct items. Qed.

Lemma snapshot_mid_price_first_prices ob :
  OrderBookSnapshot.mid_price ob
  = match OrderbookCache.first_price (OrderBookSnapshot.bids ob),
          OrderbookCache.first_price (OrderBookSnapshot.asks ob) with
    | Some b, Some a => Some ((b + a) / dec 2 1)
    | _, _ => None
    end
  ∧ OrderBookSnapshot.spread ob
    = match OrderbookCache.first_price (OrderBookSnapshot.bids ob),
            OrderbookCache.first_price (OrderBookSnapshot.asks ob) with
      | Some b, Some a => Some (a - b)
      | _, _ => None
      end.
Proof.
  unfold OrderBookSnapshot.mid_price, OrderBookSnapshot.spread.
  by destruct (OrderBookSnapshot.bids ob), (OrderBookSnapshot.asks ob).
Qed.

Lemma snapshot_of_mid_and_spread c ex mk ts :
  OrderBookSnapshot.mid_price (snapshot_of c ex mk ts)
  = match CacheStats.best_bid (OrderbookCache.get_stats c),
          CacheStats.best_ask (OrderbookCache.get_stats c) with
    | Some b, Some a => Some ((b + a) / dec 2 1)
    | _, _ => None
    end
  ∧ OrderBookSnapshot.spread (snapshot_of c ex mk ts)
    = match CacheStats.best_bid (OrderbookCache.get_stats c),
            CacheStats.best_ask (OrderbookCache.get_stats c) with
      | Some b, Some a => Some (a - b)
      | _, _ => None
      end.
Proof.
  rewrite get_stats_best_bid, get_stats_best_ask, <- !first_price_levels.
  apply (snapshot_mid_price_first_prices (snapshot_of c ex mk ts)).
Qed.

(** X4.  The mid and spread of [get_stats] are those of the snapshot
    built from the same cache when both best prices are different from
    zero; when a best price is zero (or a side is empty) [get_stats]
    reports neither, although the snapshot of a book with both sides
    quoted still has a mid. *)
Theorem get_stats_mid_and_spread
    (c : OrderbookCache.t) (ex mk : string) (ts : Qc) :
  let stats := OrderbookCache.get_stats c in
  let snapshot := snapshot_of c ex mk ts in
  match CacheStats.best_bid stats, CacheStats.best_ask stats with
  | Some b, Some a =>
      OrderBookSnapshot.mid_price snapshot = Some ((b + a) / dec 2 1)
      ∧ OrderBookSnapshot.spread snapshot = Some (a - b)
      ∧ if bool_decide (b ≠ 0) && bool_decide (a ≠ 0)
        then CacheStats.mid_price stats = Some ((b + a) / dec 2 1)
             ∧ CacheStats.spread stats = Some (a - b)
        else CacheStats.mid_price stats = None
             ∧ CacheStats.spread stats = None
  | _, _ =>
      CacheStats.mid_price stats = None
      ∧ CacheStats.spread stats = None
      ∧ OrderBookSnapshot.mid_price snapshot = None
      ∧ OrderBookSnapshot.spread snapshot = None
  end.
Proof.
  intros stats snapshot. subst stats snapshot.
  destruct (snapshot_of_mid_and_spread c ex mk ts) as [-> ->].
  unfold OrderbookCache.get_stats.
  destruct (OrderbookCache.get_sorted_levels c (Some 1%Z)) as [bids asks].
  cbn [CacheStats.best_bid CacheStats.best_ask CacheStats.mid_price
         CacheStats.spread].
  destruct (OrderbookCache.first_price bids) as [b |],
           (OrderbookCache.first_price asks) as [a |]; try done.
  cbn [truthy]. split; [done |]. split; [done |].
  by destruct (bool_decide (b ≠ 0) && bool_decide (a ≠ 0)).
Qed.

(** ** orderbook_cache.py: operations *)

Lemma book_step_initialized c op :
  OrderbookCache._initialized (book_step c op) = true
  ∧ OrderbookCache._last_update_timestamp (book_step c op) = op_timestamp op
  ∧ OrderbookCache.exchange (book_step c op) = OrderbookCache.exchange c
  ∧ OrderbookCache.market (book_step c op) = OrderbookCache.market c.
Proof.
  destruct op as [bids asks ts | bids asks ts]; simpl; [done |].
  unfold OrderbookCache.update.
  by destruct (OrderbookCache._initialized c) eqn:Hinit.
Qed.

Lemma book_after_names ex mk ops :
  OrderbookCache.exchange (book_after ex mk ops) = ex
  ∧ OrderbookCache.market (book_after ex mk ops) = mk.
Proof.
  unfold book_after.
  induction ops as [| op ops [IHex IHmk]] using rev_ind; [done |].
  rewrite foldl_app. simpl.
  destruct (book_step_initialized
              (foldl book_step (OrderbookCache.new ex mk) ops) op)
    as (_ & _ & -> & ->). done.
Qed.

(** X5.  After any sequence of operations that is not empty, the book is
    initialized, whichever operation came first, it carries the timestamp
    of the last operation, and it still has the exchange and market it
    was created with. *)
Theorem book_initialized_by_any_operation
    (ex mk : string) (ops : list BookOp) (op : BookOp) :
  let book := book_after ex mk (ops ++ [op]) in
  OrderbookCache.is_initialized book = true
  ∧ OrderbookCache._last_update_timestamp book = op_timestamp op
  ∧ OrderbookCache.exchange book = ex
  ∧ OrderbookCache.market book = mk.
Proof.
  intros book. subst book.
  destruct (book_after_names ex mk (ops ++ [op])) as [Hex Hmk].
  unfold book_after in *. rewrite foldl_app in *. simpl in *.
  destruct (book_step_initialized
              (foldl book_step (OrderbookCache.new ex mk) ops) op)
    as (Hinit & Hts & _ & _).
  done.
Qed.

Lemma apply_levels_idempotent side levels :
  OrderbookCache.apply_levels (OrderbookCache.apply_levels side levels) levels
  = OrderbookCache.apply_levels side levels.
Proof.
  apply map_eq. intros p. rewrite !apply_levels_lookup.
  by destruct (last_level p levels).
Qed.

(** X6.  Replaying a diff is harmless: on an initialized book, applying
    the same diff a second time leaves the bid and ask maps as the first
    application left them. *)
Theorem diff_replay_changes_nothing
    (c : OrderbookCache.t) (bids asks : list OrderBookLevel.t) (ts ts' : Qc) :
  OrderbookCache._initialized c = true →
  same_maps
    (OrderbookCache.update (OrderbookCache.update c bids asks ts) bids asks ts')
    (OrderbookCache.update c bids asks ts).
Proof.
  intros Hinit. unfold same_maps, OrderbookCache.update.
  rewrite Hinit. simpl. rewrite ?Hinit. simpl.
  split; apply apply_levels_idempotent.
Qed.

(** X6 on the book of scenario S1 and the diff of scenario S3. *)
Lemma diff_replay_changes_nothing_witness :
  OrderbookCache._initialized s1_cache = true
  ∧ same_maps
      (OrderbookCache.update
         (OrderbookCache.update s1_cache [lv 100 5; lv 98 4; lv 99 0] [] 1)
         [lv 100 5; lv 98 4; lv 99 0] [] (dec 2 1))
      (OrderbookCache.update s1_cache [lv 100 5; lv 98 4; lv 99 0] [] 1).
Proof.
  assert (OrderbookCache._initialized s1_cache = true) as Hinit
    by reflexivity.
  split; [exact Hinit |].
  exact (diff_replay_changes_nothing s1_cache [lv 100 5; lv 98 4; lv 99 0] []
           1 (dec 2 1) Hinit).
Defined.

(** On a book that is not initialized the first application is a
    snapshot, which stores the level of size 0 that the replay then
    removes. *)
Example diff_replay_on_uninitialized_book :
  let c := OrderbookCache.new "lighter" "market_0" in
  let once := OrderbookCache.update c [lv 99 0] [] 1 in
  let twice := OrderbookCache.update once [lv 99 0] [] 1 in
  size (OrderbookCache._bids once) = 1%nat
  ∧ size (OrderbookCache._bids twice) = 0%nat.
Proof. split; vm_compute; reflexivity. Qed.

(** X7.  Invariant B1 is kept along every sequence of operations on an
    initialized book that satisfies it, provided the snapshots among them
    carry positive sizes only; the diffs may carry any sizes. *)
Theorem positive_snapshots_keep_sizes_positive
    (c : OrderbookCache.t) (ops : list BookOp) :
  OrderbookCache._initialized c = true →
  B1 c →
  Forall snapshot_sizes_positive ops →
  B1 (foldl book_step c ops).
Proof.
  intros Hinit HB1 Hops.
  by destruct (B1_kept_with_positive_snapshots c ops Hinit HB1 Hops).
Qed.

Lemma s1_cache_B1 : B1 s1_cache.
Proof.
  apply initialize_B1; repeat constructor.
Qed.

(** X7 on the book of scenario S1, a diff with a removal and a snapshot. *)
Lemma positive_snapshots_keep_sizes_positive_witness :
  OrderbookCache._initialized s1_cache = true
  ∧ B1 s1_cache
  ∧ Forall snapshot_sizes_positive
      [op_update [lv 99 0; lv 98 (-3)] [lv 101 0] 1;
       op_initialize [lv 100 1] [lv 101 2] 1]
  ∧ B1 (foldl book_step s1_cache
          [op_update [lv 99 0; lv 98 (-3)] [lv 101 0] 1;
           op_initialize [lv 100 1] [lv 101 2] 1]).
Proof.
  assert (OrderbookCache._initialized s1_cache = true) as Hinit
    by reflexivity.
  assert (Forall snapshot_sizes_positive
            [op_update [lv 99 0; lv 98 (-3)] [lv 101 0] 1;
             op_initialize [lv 100 1] [lv 101 2] 1]) as Hops.
  { repeat constructor. }
  split; [exact Hinit |]. split; [exact s1_cache_B1 |].
  split; [exact Hops |].
  exact (positive_snapshots_keep_sizes_positive s1_cache _ Hinit
           s1_cache_B1 Hops).
Defined.

(** ** liquidity_calculator.py: the walks *)

Ltac qc_nra := unfold dec in *; qc_hyp; qc_goal; nra.

Lemma this_div x y : (this (x / y) == this x / this y)%Q.
Proof.
  unfold Qcdiv, Qcmult, Qcinv. simpl. rewrite !Qred_correct. reflexivity.
Qed.

Lemma Qc_div_nonneg x y : 0 ≤ x → 0 < y → 0 ≤ x / y.
Proof.
  intros Hx Hy. unfold Qcle, Qclt in *. rewrite this_div.
  rewrite this_Q2Qc in *. apply Qle_shift_div_l; [done |]. lra.
Qed.

Lemma Qc_div_pos x y : 0 < x → 0 < y → 0 < x / y.
Proof.
  intros Hx Hy. unfold Qclt in *. rewrite this_div.
  rewrite this_Q2Qc in *. apply Qlt_shift_div_l; [done |]. lra.
Qed.

Lemma Qc_le_div lo x y : 0 < y → lo * y ≤ x → lo ≤ x / y.
Proof.
  intros Hy Hle. unfold Qcle, Qclt in *. rewrite this_div.
  rewrite this_mult, this_Q2Qc in *. by apply Qle_shift_div_l.
Qed.

Lemma Qc_div_le hi x y : 0 < y → x ≤ hi * y → x / y ≤ hi.
Proof.
  intros Hy Hle. unfold Qcle, Qclt in *. rewrite this_div.
  rewrite this_mult, this_Q2Qc in *. by apply Qle_shift_div_r.
Qed.

(** X8.  The sell-side walk over a list of bids that is not empty, for a
    positive size: the walk ends with a remainder that is not negative
    and equals [size_usd] minus the proceeds, [feasible] holds exactly
    when that remainder is at most 0.01, and then the proceeds reported
    as [total_cost] are within 0.01 of [size_usd]. *)
Theorem sell_feasible_iff_remainder_small
    (bids : list OrderBookLevel.t) (size_usd current_price : Qc)
    (orderbook : OrderBookSnapshot.t) :
  bids ≠ [] → 0 < size_usd →
  ∃ m st,
    outcome (LiquidityCalculator.calculate_sell_cost bids size_usd
               current_price orderbook) = Ok m
    ∧ outcome (LiquidityCalculator.walk bids
                 (LiquidityCalculator.walk_start size_usd)) = Ok st
    ∧ LiquidityCalculator.remaining_usd st
      = size_usd - LiquidityMetric.total_cost m
    ∧ 0 ≤ LiquidityCalculator.remaining_usd st
    ∧ (LiquidityMetric.feasible m = true
       ↔ LiquidityCalculator.remaining_usd st ≤ dec 1 100)
    ∧ (LiquidityMetric.feasible m = true →
       - dec 1 100 ≤ LiquidityMetric.total_cost m - size_usd
       ∧ LiquidityMetric.total_cost m - size_usd ≤ dec 1 100).
Proof.
  intros Hne Hsize. destruct bids as [| level bids]; [done |].
  rewrite calculate_sell_cost_cons.
  destruct (walk_finish_ok size_usd current_price
              (λ avg_price, current_price - avg_price) (level :: bids))
    as (st & m & Hwalk & Hout & _ & [Hsum Hpos] & Htotal & Hfeas).
  exists m, st. simpl in Hsum, Hpos. specialize (Hpos Hsize).
  rewrite Htotal, Hfeas, bool_decide_eq_true.
  split; [done |]. split; [done |].
  assert (LiquidityCalculator.remaining_usd st
          = size_usd - LiquidityCalculator.total st) as Hrem by qc_lra.
  split; [done |]. split; [done |]. split; [done |].
  intros Hle. split; qc_lra.
Qed.

(** X8 on the bids of scenario S1 and a size of 150. *)
Lemma sell_feasible_iff_remainder_small_witness :
  [lv 100 1; lv 99 2] ≠ []
  ∧ 0 < dec 150 1
  ∧ ∃ m st,
      outcome (LiquidityCalculator.calculate_sell_cost [lv 100 1; lv 99 2]
                 (dec 150 1) (dec 201 2) s4_book) = Ok m
      ∧ outcome (LiquidityCalculator.walk [lv 100 1; lv 99 2]
                   (LiquidityCalculator.walk_start (dec 150 1))) = Ok st
      ∧ LiquidityCalculator.remaining_usd st
        = dec 150 1 - LiquidityMetric.total_cost m
      ∧ 0 ≤ LiquidityCalculator.remaining_usd st
      ∧ (LiquidityMetric.feasible m = true
         ↔ LiquidityCalculator.remaining_usd st ≤ dec 1 100)
      ∧ (LiquidityMetric.feasible m = true →
         - dec 1 100 ≤ LiquidityMetric.total_cost m - dec 150 1
         ∧ LiquidityMetric.total_cost m - dec 150 1 ≤ dec 1 100).
Proof.
  assert ([lv 100 1; lv 99 2] ≠ []) as Hne by discriminate.
  assert (0 < dec 150 1) as Hsize by reflexivity.
  split; [exact Hne |]. split; [exact Hsize |].
  exact (sell_feasible_iff_remainder_small [lv 100 1; lv 99 2] (dec 150 1)
           (dec 201 2) s4_book Hne Hsize).
Defined.

Lemma depth_nonneg lo hi levels :
  0 ≤ lo → priced_within lo hi levels → 0 ≤ depth levels.
Proof.
  intros Hlo. induction 1 as [| level rest (Hlo' & _ & Hsize) _ IH]; [done |].
  simpl.
  assert (0 ≤ OrderBookLevel.price level * OrderBookLevel.size level) as H.
  { generalize dependent (OrderBookLevel.price level).
    generalize dependent (OrderBookLevel.size level).
    intros s Hs p Hp. qc_nra. }
  revert H IH.
  generalize (OrderBookLevel.price level * OrderBookLevel.size level),
    (depth rest).
  intros q d Hq Hd. qc_lra.
Qed.

(** A walk that starts with a positive remainder either leaves a positive
    remainder, and has then consumed every level, or ends at zero, and
    the levels then held at least the remainder it started with. *)
Lemma walk_depth lo hi levels st st' :
  0 ≤ lo → priced_within lo hi levels →
  0 < LiquidityCalculator.remaining_usd st →
  outcome (LiquidityCalculator.walk levels st) = Ok st' →
  (0 < LiquidityCalculator.remaining_usd st'
   ∧ LiquidityCalculator.remaining_usd st'
     = LiquidityCalculator.remaining_usd st - depth levels
   ∧ LiquidityCalculator.total st'
     = LiquidityCalculator.total st + depth levels
   ∧ LiquidityCalculator.levels_used st'
     = (LiquidityCalculator.levels_used st + length levels)%nat)
  ∨ (LiquidityCalculator.remaining_usd st' = 0
     ∧ LiquidityCalculator.remaining_usd st ≤ depth levels
     ∧ (LiquidityCalculator.levels_used st'
        ≤ LiquidityCalculator.levels_used st + length levels)%nat
     ∧ (LiquidityCalculator.levels_used st
        < LiquidityCalculator.levels_used st')%nat).
Proof.
  intros Hlo Hlevels. revert st.
  induction Hlevels as [| level rest Hlevel Hrest IH]; intros st Hrem;
    cbn [LiquidityCalculator.walk].
  { intros [= <-]. left. simpl. split; [done |].
    split; [qc_lra |]. split; [qc_lra | lia]. }
  rewrite bool_decide_eq_false_2 by (by apply Qclt_not_le).
  pose proof (depth_nonneg lo hi rest Hlo Hrest) as Hdepth.
  cbn [depth length].
  case_bool_decide as Hliq.
  - assert (OrderBookLevel.price level ≠ 0) as Hnz.
    { intros Hz. rewrite Hz, Qcmult_0_l in Hliq. qc_lra. }
    rewrite py_div_ok by done. traced_simpl. intros [= <-]. right. simpl.
    split; [done |]. split; [| lia].
    revert Hliq Hdepth.
    generalize (OrderBookLevel.price level * OrderBookLevel.size level),
      (depth rest).
    intros q d Hliq Hd. qc_lra.
  - intros Hout. apply IH in Hout; simpl.
    + simpl in Hout.
      revert Hliq Hout.
      generalize (OrderBookLevel.price level * OrderBookLevel.size level),
        (depth rest).
      intros q d Hliq [(Hpos & Hr & Ht & Hu) | (Hz & Hle & Hu & Hu')];
        [left | right].
      * split; [done |]. split; [rewrite Hr; qc_lra |].
        split; [rewrite Ht; qc_lra | lia].
      * split; [done |]. split; [qc_lra | lia].
    + revert Hliq.
      generalize (OrderBookLevel.price level * OrderBookLevel.size level).
      intros q Hliq. qc_lra.
Qed.

(** The metric of a walk over levels that are not empty, in terms of the
    final state of the walk. *)
Lemma calculate_cost_walk buy level levels size_usd current_price orderbook :
  ∃ st m,
    outcome (LiquidityCalculator.walk (level :: levels)
               (LiquidityCalculator.walk_start size_usd)) = Ok st
    ∧ outcome (calculate_cost buy (level :: levels) size_usd current_price
                 orderbook) = Ok m
    ∧ outcome (LiquidityCalculator.finish size_usd current_price
                 (slippage_of buy current_price) st) = Ok m
    ∧ walk_post (LiquidityCalculator.walk_start size_usd) st
    ∧ LiquidityMetric.size_usd m = size_usd
    ∧ LiquidityMetric.total_cost m = LiquidityCalculator.total st
    ∧ LiquidityMetric.levels_used m = LiquidityCalculator.levels_used st
    ∧ LiquidityMetric.feasible m
      = bool_decide (LiquidityCalculator.remaining_usd st ≤ dec 1 100).
Proof.
  destruct (walk_ok current_price (level :: levels)
              (LiquidityCalculator.walk_start size_usd))
    as (st & Hout & _ & Hpost).
  destruct (finish_ok size_usd current_price (slippage_of buy current_price) st)
    as (m & Hfin & _ & Hsize & Htotal & Hused & Hfeas).
  exists st, m. split; [done |]. split; [| done].
  destruct buy; unfold calculate_cost.
  - rewrite calculate_buy_cost_cons, (bind_ok _ _ _ Hout). exact Hfin.
  - rewrite calculate_sell_cost_cons, (bind_ok _ _ _ Hout). exact Hfin.
Qed.

(** X9.  Either walk, over levels that are not empty and have notionals
    that are not negative, for a positive size: the amount reported as
    [total_cost] is between 0 and the size asked for, and the number of
    levels used is at least one and at most the number of levels. *)
Theorem walk_cost_and_levels_bounded
    (buy : bool) (lo hi : Qc) (levels : list OrderBookLevel.t)
    (size_usd current_price : Qc) (orderbook : OrderBookSnapshot.t) :
  levels ≠ [] → 0 ≤ lo → priced_within lo hi levels → 0 < size_usd →
  ∃ m,
    outcome (calculate_cost buy levels size_usd current_price orderbook)
      = Ok m
    ∧ 0 ≤ LiquidityMetric.total_cost m
    ∧ LiquidityMetric.total_cost m ≤ size_usd
    ∧ (1 ≤ LiquidityMetric.levels_used m ≤ length levels)%nat.
Proof.
  intros Hne Hlo Hlevels Hsize. destruct levels as [| level levels]; [done |].
  destruct (calculate_cost_walk buy level levels size_usd current_price
              orderbook)
    as (st & m & Hwalk & Hout & _ & [Hsum Hpos] & _ & Htotal & Hused & _).
  exists m. split; [done |]. rewrite Htotal, Hused.
  simpl in Hsum, Hpos. specialize (Hpos Hsize).
  pose proof (depth_nonneg lo hi _ Hlo Hlevels) as Hdepth.
  destruct (walk_depth lo hi _ (LiquidityCalculator.walk_start size_usd) _
              Hlo Hlevels Hsize Hwalk)
    as [(_ & _ & Ht & Hu) | (Hz & _ & Hu & Hu')]; simpl in *.
  - rewrite Hu. split; [| split; [| lia]].
    + rewrite Ht. revert Hdepth.
      generalize (OrderBookLevel.price level * OrderBookLevel.size level
                  + depth levels).
      intros d Hd. qc_lra.
    + qc_lra.
  - split; [| split; [| lia]]; qc_lra.
Qed.

(** X9 on the asks of scenario S1 and a size of 200. *)
Lemma walk_cost_and_levels_bounded_witness :
  [lv 101 1; lv 102 3] ≠ []
  ∧ 0 ≤ dec 101 1
  ∧ priced_within (dec 101 1) (dec 102 1) [lv 101 1; lv 102 3]
  ∧ 0 < dec 200 1
  ∧ ∃ m,
      outcome (calculate_cost true [lv 101 1; lv 102 3] (dec 200 1)
                 (dec 201 2) s4_book) = Ok m
      ∧ 0 ≤ LiquidityMetric.total_cost m
      ∧ LiquidityMetric.total_cost m ≤ dec 200 1
      ∧ (1 ≤ LiquidityMetric.levels_used m ≤ 2)%nat.
Proof.
  assert ([lv 101 1; lv 102 3] ≠ []) as Hne by discriminate.
  assert (0 ≤ dec 101 1) as Hlo by discriminate.
  assert (priced_within (dec 101 1) (dec 102 1) [lv 101 1; lv 102 3])
    as Hlevels.
  { repeat constructor; discriminate. }
  assert (0 < dec 200 1) as Hsize by reflexivity.
  split; [exact Hne |]. split; [exact Hlo |]. split; [exact Hlevels |].
  split; [exact Hsize |].
  exact (walk_cost_and_levels_bounded true (dec 101 1) (dec 102 1)
           [lv 101 1; lv 102 3] (dec 200 1) (dec 201 2) s4_book
           Hne Hlo Hlevels Hsize).
Defined.

(** X10.  Either walk, over levels that are not empty and have notionals
    that are not negative, for a positive size: the fill is feasible
    exactly when the notional on the side, price times size summed over
    its levels, falls short of the size by at most 0.01; and a fill that
    is not feasible has consumed every level, at a cost equal to the
    notional on the side. *)
Theorem feasible_iff_depth_covers_size
    (buy : bool) (lo hi : Qc) (levels : list OrderBookLevel.t)
    (size_usd current_price : Qc) (orderbook : OrderBookSnapshot.t) :
  levels ≠ [] → 0 ≤ lo → priced_within lo hi levels → 0 < size_usd →
  ∃ m,
    outcome (calculate_cost buy levels size_usd current_price orderbook)
      = Ok m
    ∧ (LiquidityMetric.feasible m = true
       ↔ size_usd - depth levels ≤ dec 1 100)
    ∧ (LiquidityMetric.feasible m = false →
       LiquidityMetric.total_cost m = depth levels
       ∧ LiquidityMetric.levels_used m = length levels).
Proof.
  intros Hne Hlo Hlevels Hsize. destruct levels as [| level levels]; [done |].
  destruct (calculate_cost_walk buy level levels size_usd current_price
              orderbook)
    as (st & m & Hwalk & Hout & _ & _ & _ & Htotal & Hused & Hfeas).
  exists m. split; [done |]. rewrite Htotal, Hused, Hfeas.
  rewrite bool_decide_eq_true, bool_decide_eq_false.
  destruct (walk_depth lo hi _ (LiquidityCalculator.walk_start size_usd) _
              Hlo Hlevels Hsize Hwalk)
    as [(_ & Hr & Ht & Hu) | (Hz & Hle & _)];
    cbn [LiquidityCalculator.walk_start LiquidityCalculator.remaining_usd
           LiquidityCalculator.total LiquidityCalculator.levels_used] in *.
  - rewrite Hr, Ht, Hu. split; [done |]. intros _. split; [| done].
    generalize (depth (level :: levels)). intros d. qc_lra.
  - rewrite Hz. split.
    + split; intros _; [| by vm_compute].
      revert Hle. generalize (depth (level :: levels)). intros d Hd. qc_lra.
    + intros Habs. destruct Habs. by vm_compute.
Qed.

(** X10 on scenario S6: one ask of notional 101 for a size of 500. *)
Lemma feasible_iff_depth_covers_size_witness :
  [lv 101 1] ≠ []
  ∧ 0 ≤ dec 101 1
  ∧ priced_within (dec 101 1) (dec 101 1) [lv 101 1]
  ∧ 0 < dec 500 1
  ∧ ∃ m,
      outcome (calculate_cost true [lv 101 1] (dec 500 1) (dec 201 2)
                 s4_book) = Ok m
      ∧ (LiquidityMetric.feasible m = true
         ↔ dec 500 1 - depth [lv 101 1] ≤ dec 1 100)
      ∧ (LiquidityMetric.feasible m = false →
         LiquidityMetric.total_cost m = depth [lv 101 1]
         ∧ LiquidityMetric.levels_used m = 1%nat).
Proof.
  assert ([lv 101 1] ≠ []) as Hne by discriminate.
  assert (0 ≤ dec 101 1) as Hlo by discriminate.
  assert (priced_within (dec 101 1) (dec 101 1) [lv 101 1]) as Hlevels.
  { repeat constructor; discriminate. }
  assert (0 < dec 500 1) as Hsize by reflexivity.
  split; [exact Hne |]. split; [exact Hlo |]. split; [exact Hlevels |].
  split; [exact Hsize |].
  exact (feasible_iff_depth_covers_size true (dec 101 1) (dec 101 1)
           [lv 101 1] (dec 500 1) (dec 201 2) s4_book
           Hne Hlo Hlevels Hsize).
Defined.

(** The average price and the slippage that [finish] reports. *)
Lemma finish_values size_usd current_price f st m :
  outcome (LiquidityCalculator.finish size_usd current_price f st) = Ok m →
  if bool_decide (0 < LiquidityCalculator.total_tokens st)
  then LiquidityMetric.avg_price m
       = LiquidityCalculator.total st / LiquidityCalculator.total_tokens st
       ∧ LiquidityMetric.slippage_bps m
         = if bool_decide (0 < current_price)
           then f (LiquidityMetric.avg_price m) / current_price * dec 10000 1
           else 0
  else LiquidityMetric.avg_price m = 0 ∧ LiquidityMetric.slippage_bps m = 0.
Proof.
  unfold LiquidityCalculator.finish, py_div.
  destruct (decide (0 < LiquidityCalculator.total_tokens st)) as [Htok | Htok].
  - assert (LiquidityCalculator.total_tokens st ≠ 0) as Hnz.
    { intros Hz. rewrite Hz in Htok. qc_lra. }
    rewrite !(bool_decide_eq_true_2 _ Htok), (bool_decide_eq_false_2 _ Hnz).
    traced_simpl.
    destruct (decide (0 < current_price)) as [Hcp | Hcp].
    + assert (current_price ≠ 0) as Hcz.
      { intros Hz. rewrite Hz in Hcp. qc_lra. }
      rewrite !(bool_decide_eq_true_2 _ Hcp), (bool_decide_eq_false_2 _ Hcz).
      traced_simpl. by intros [= <-].
    + rewrite !(bool_decide_eq_false_2 _ Hcp). traced_simpl.
      by intros [= <-].
  - rewrite !(bool_decide_eq_false_2 _ Htok). traced_simpl.
    by intros [= <-].
Qed.

(** A walk keeps the tokens priced within the bounds of the levels, never
    gives tokens back, and has taken some when it starts with a positive
    remainder on a first level of positive size. *)
Lemma walk_priced lo hi levels st st' :
  0 < lo → priced_within lo hi levels →
  tokens_priced_within lo hi st →
  outcome (LiquidityCalculator.walk levels st) = Ok st' →
  tokens_priced_within lo hi st'
  ∧ LiquidityCalculator.total_tokens st ≤ LiquidityCalculator.total_tokens st'
  ∧ (0 < LiquidityCalculator.remaining_usd st →
     (∃ l rest, levels = l :: rest ∧ 0 < OrderBookLevel.size l) →
     0 < LiquidityCalculator.total_tokens st').
Proof.
  intros Hlo Hlevels. revert st.
  induction Hlevels as [| level rest (Hlo' & Hhi' & Hsize) Hrest IH];
    intros st Hinv; cbn [LiquidityCalculator.walk].
  { intros [= <-]. split; [done |]. split; [done |].
    intros _ (l & rest & Hnil & _). done. }
  case_bool_decide as Hrem.
  { intros [= <-]. split; [done |]. split; [done |].
    intros Hpos. by apply Qclt_not_le in Hpos. }
  apply Qcnot_le_lt in Hrem.
  destruct Hinv as (Htok & Hlow & Hhigh).
  assert (0 < OrderBookLevel.price level) as Hprice
    by (by apply Qclt_le_trans with lo).
  case_bool_decide as Hliq.
  - assert (OrderBookLevel.price level ≠ 0) as Hnz.
    { intros Hz. rewrite Hz in Hprice. qc_lra. }
    rewrite py_div_ok by done. traced_simpl. intros [= <-].
    pose proof (Qcmult_div_r (LiquidityCalculator.remaining_usd st) _ Hnz)
      as Hmul.
    pose proof (Qc_div_pos _ _ Hrem Hprice) as Ht.
    unfold tokens_priced_within. simpl.
    revert Hmul Ht.
    generalize (LiquidityCalculator.remaining_usd st
                / OrderBookLevel.price level).
    clear Hliq IH Hrest Hnz.
    generalize dependent (OrderBookLevel.price level).
    generalize dependent (LiquidityCalculator.remaining_usd st).
    generalize dependent (LiquidityCalculator.total_tokens st).
    generalize dependent (LiquidityCalculator.total st).
    intros total tokens Htok Hlow Hhigh rem Hrem p Hlo' Hhi' Hprice t Hmul Ht.
    repeat split; try qc_nra. intros _ _. qc_lra.
  - intros Hout. apply IH in Hout.
    + simpl in Hout. destruct Hout as (Hinv' & Hmono & _).
      split; [done |]. split.
      * revert Hmono Hsize.
        generalize (LiquidityCalculator.total_tokens st'),
          (LiquidityCalculator.total_tokens st), (OrderBookLevel.size level).
        intros t' t s Hmono Hs. qc_lra.
      * intros _ (l & rest' & [= <- <-] & Hl).
        revert Hmono Hl Htok.
        generalize (LiquidityCalculator.total_tokens st'),
          (LiquidityCalculator.total_tokens st), (OrderBookLevel.size level).
        intros t' t s Hmono Hs Ht. qc_lra.
    + unfold tokens_priced_within. simpl.
      clear Hliq IH Hrest Hrem.
      generalize dependent (OrderBookLevel.price level).
      generalize dependent (OrderBookLevel.size level).
      generalize dependent (LiquidityCalculator.total_tokens st).
      generalize dependent (LiquidityCalculator.total st).
      intros total tokens Htok Hlow Hhigh s Hs p Hlo' Hhi' Hprice.
      repeat split; qc_nra.
Qed.

(** X11.  Either walk, for a positive size, over levels priced between
    [lo > 0] and [hi], with sizes that are not negative and a first level
    of positive size: the average price reported lies between [lo] and
    [hi]; the slippage of a buy is not negative when the reference price
    is at most [lo], and that of a sell when it is at least [hi]. *)
Theorem average_price_within_level_prices
    (buy : bool) (lo hi : Qc) (level : OrderBookLevel.t)
    (rest : list OrderBookLevel.t) (size_usd current_price : Qc)
    (orderbook : OrderBookSnapshot.t) :
  0 < lo → priced_within lo hi (level :: rest) →
  0 < OrderBookLevel.size level → 0 < size_usd →
  ∃ m,
    outcome (calculate_cost buy (level :: rest) size_usd current_price
               orderbook) = Ok m
    ∧ lo ≤ LiquidityMetric.avg_price m
    ∧ LiquidityMetric.avg_price m ≤ hi
    ∧ ((if buy then current_price ≤ lo else hi ≤ current_price) →
       0 ≤ LiquidityMetric.slippage_bps m).
Proof.
  intros Hlo Hlevels Hfirst Hsize.
  destruct (calculate_cost_walk buy level rest size_usd current_price
              orderbook)
    as (st & m & Hwalk & Hout & Hfin & _).
  assert (tokens_priced_within lo hi (LiquidityCalculator.walk_start size_usd))
    as Hstart.
  { unfold tokens_priced_within. simpl. rewrite !Qcmult_0_r. done. }
  destruct (walk_priced lo hi _ _ _ Hlo Hlevels Hstart Hwalk)
    as ((_ & Hlow & Hhigh) & _ & Htokens).
  assert (0 < LiquidityCalculator.total_tokens st) as Htok.
  { apply Htokens; [done | by exists level, rest]. }
  apply finish_values in Hfin.
  rewrite (bool_decide_eq_true_2 _ Htok) in Hfin. destruct Hfin as [Havg Hslip].
  assert (lo ≤ LiquidityMetric.avg_price m) as Hge.
  { rewrite Havg. by apply Qc_le_div. }
  assert (LiquidityMetric.avg_price m ≤ hi) as Hle.
  { rewrite Havg. by apply Qc_div_le. }
  exists m. split; [done |]. split; [done |]. split; [done |].
  intros Href. rewrite Hslip. case_bool_decide as Hcp; [| done].
  assert (0 ≤ slippage_of buy current_price (LiquidityMetric.avg_price m))
    as Hdiff.
  { unfold slippage_of. destruct buy; qc_lra. }
  pose proof (Qc_div_nonneg _ _ Hdiff Hcp) as Hq. revert Hq.
  generalize (slippage_of buy current_price (LiquidityMetric.avg_price m)
              / current_price).
  intros q Hq. qc_lra.
Qed.

(** X11 on scenario S5: the asks of S1, a size of 200 and a mid of 100.5. *)
Lemma average_price_within_level_prices_witness :
  0 < dec 101 1
  ∧ priced_within (dec 101 1) (dec 102 1) [lv 101 1; lv 102 3]
  ∧ 0 < OrderBookLevel.size (lv 101 1)
  ∧ 0 < dec 200 1
  ∧ ∃ m,
      outcome (calculate_cost true [lv 101 1; lv 102 3] (dec 200 1)
                 (dec 201 2) s4_book) = Ok m
      ∧ dec 101 1 ≤ LiquidityMetric.avg_price m
      ∧ LiquidityMetric.avg_price m ≤ dec 102 1
      ∧ (dec 201 2 ≤ dec 101 1 → 0 ≤ LiquidityMetric.slippage_bps m).
Proof.
  assert (0 < dec 101 1) as Hlo by reflexivity.
  assert (priced_within (dec 101 1) (dec 102 1) [lv 101 1; lv 102 3])
    as Hlevels.
  { repeat constructor; discriminate. }
  assert (0 < OrderBookLevel.size (lv 101 1)) as Hfirst by reflexivity.
  assert (0 < dec 200 1) as Hsize by reflexivity.
  split; [exact Hlo |]. split; [exact Hlevels |]. split; [exact Hfirst |].
  split; [exact Hsize |].
  exact (average_price_within_level_prices true (dec 101 1) (dec 102 1)
           (lv 101 1) [lv 102 3] (dec 200 1) (dec 201 2) s4_book
           Hlo Hlevels Hfirst Hsize).
Defined.

(** ** liquidity_calculator.py: the ladder *)

(** With keys that are pairwise different, the ladder loop stores for
    each size the two metrics computed for it, and leaves every other key
    as it found it. *)
Lemma ladder_entries ob current_price sizes metrics metrics' :
  NoDup (LiquidityCalculator.size_key <$> sizes) →
  outcome (LiquidityCalculator.ladder ob current_price sizes metrics)
    = Ok metrics' →
  (∀ size, size ∈ sizes →
     ∃ b s,
       outcome (LiquidityCalculator.calculate_buy_cost
                  (OrderBookSnapshot.asks ob) size current_price ob) = Ok b
       ∧ outcome (LiquidityCalculator.calculate_sell_cost
                    (OrderBookSnapshot.bids ob) size current_price ob) = Ok s
       ∧ metrics' !! LiquidityCalculator.size_key size
         = Some {| LiquidityMetrics.buy := b; LiquidityMetrics.sell := s |})
  ∧ (∀ k, k ∉ LiquidityCalculator.size_key <$> sizes →
          metrics' !! k = metrics !! k).
Proof.
  revert metrics. induction sizes as [| size rest IH]; intros metrics Hnd.
  - simpl. intros [= <-]. split; [| done].
    intros size Hin. by apply elem_of_nil in Hin.
  - rewrite fmap_cons in Hnd. apply NoDup_cons in Hnd as [Hfresh Hnd].
    cbn [LiquidityCalculator.ladder].
    destruct (calculate_buy_cost_ok (OrderBookSnapshot.asks ob) size
                current_price ob) as [[b Hb] _].
    destruct (calculate_sell_cost_ok (OrderBookSnapshot.bids ob) size
                current_price ob) as [[s Hs] _].
    rewrite (bind_ok _ _ _ Hb). cbn [outcome snd].
    rewrite (bind_ok _ _ _ Hs). cbn [outcome snd].
    intros Hout. destruct (IH _ Hnd Hout) as [Hall Hother]. split.
    + intros size' Hin. apply elem_of_cons in Hin as [-> | Hin].
      * exists b, s. split; [done |]. split; [done |].
        rewrite Hother by done. by rewrite lookup_insert_eq.
      * by apply Hall.
    + intros k Hk. rewrite fmap_cons in Hk.
      apply not_elem_of_cons in Hk as [Hne Hk].
      rewrite Hother by done. by rewrite lookup_insert_ne.
Qed.

Lemma ladder_keys_distinct :
  NoDup (LiquidityCalculator.size_key <$> LIQUIDITY_SIZES).
Proof. apply (bool_decide_unpack _). by vm_compute. Qed.

(** X12.  For a snapshot with a mid price and an exchange of the literal
    type, and a ladder whose sizes have pairwise different integer parts
    (the default ladder when none is given), [calculate_all_metrics]
    returns metrics that carry the exchange, market and timestamp of the
    snapshot and hold, under the key of each size, exactly the buy metric
    over the asks and the sell metric over the bids for that size at the
    mid, and no other keys. *)
Theorem all_metrics_hold_both_walks_per_size
    (ob : OrderBookSnapshot.t) (sizes : option (list Qc)) (mid : Qc) :
  OrderBookSnapshot.mid_price ob = Some mid →
  exchange_literal (OrderBookSnapshot.exchange ob) = true →
  NoDup (LiquidityCalculator.size_key <$> default LIQUIDITY_SIZES sizes) →
  ∃ lm,
    outcome (LiquidityCalculator.calculate_all_metrics ob sizes) = Ok lm
    ∧ LiquidityMetrics.exchange lm = OrderBookSnapshot.exchange ob
    ∧ LiquidityMetrics.market lm = OrderBookSnapshot.market ob
    ∧ LiquidityMetrics.timestamp lm = OrderBookSnapshot.timestamp ob
    ∧ (∀ size, size ∈ default LIQUIDITY_SIZES sizes →
         ∃ b s,
           outcome (LiquidityCalculator.calculate_buy_cost
                      (OrderBookSnapshot.asks ob) size mid ob) = Ok b
           ∧ outcome (LiquidityCalculator.calculate_sell_cost
                        (OrderBookSnapshot.bids ob) size mid ob) = Ok s
           ∧ LiquidityMetrics.metrics lm !! LiquidityCalculator.size_key size
             = Some {| LiquidityMetrics.buy := b;
                       LiquidityMetrics.sell := s |})
    ∧ (∀ k, k ∉ LiquidityCalculator.size_key <$> default LIQUIDITY_SIZES sizes
            → LiquidityMetrics.metrics lm !! k = None).
Proof.
  intros Hmid Hex Hnd. unfold LiquidityCalculator.calculate_all_metrics.
  rewrite Hmid.
  destruct (ladder_ok ob mid (default LIQUIDITY_SIZES sizes) ∅)
    as (metrics & Hout & _).
  rewrite (bind_ok _ _ _ Hout). unfold LiquidityMetrics.make. rewrite Hex.
  eexists. split; [reflexivity |]. simpl.
  destruct (ladder_entries _ _ _ _ _ Hnd Hout) as [Hall Hother].
  repeat split; [done |]. intros k Hk. by rewrite Hother.
Qed.

(** X12 on the snapshot of scenario S1 and the default ladder. *)
Lemma all_metrics_hold_both_walks_per_size_witness :
  OrderBookSnapshot.mid_price s4_book = Some (dec 201 2)
  ∧ exchange_literal (OrderBookSnapshot.exchange s4_book) = true
  ∧ NoDup (LiquidityCalculator.size_key <$> default LIQUIDITY_SIZES None)
  ∧ ∃ lm,
      outcome (LiquidityCalculator.calculate_all_metrics s4_book None) = Ok lm
      ∧ is_Some (LiquidityMetrics.metrics lm !! "1000")
      ∧ LiquidityMetrics.metrics lm !! "1500" = None.
Proof.
  assert (OrderBookSnapshot.mid_price s4_book = Some (dec 201 2)) as Hmid.
  { apply (f_equal Some), Qc_is_canon. reflexivity. }
  assert (exchange_literal (OrderBookSnapshot.exchange s4_book) = true)
    as Hex by reflexivity.
  split; [exact Hmid |]. split; [exact Hex |].
  split; [exact ladder_keys_distinct |].
  destruct (all_metrics_hold_both_walks_per_size s4_book None (dec 201 2)
              Hmid Hex ladder_keys_distinct)
    as (lm & Hout & _ & _ & _ & Hall & Hother).
  exists lm. split; [exact Hout |]. split.
  - destruct (Hall (dec 1000 1)) as (b & s & _ & _ & Hentry).
    { apply (bool_decide_unpack _). by vm_compute. }
    change (LiquidityCalculator.size_key (dec 1000 1)) with "1000" in Hentry.
    by eexists.
  - apply Hother. apply (bool_decide_unpack _). by vm_compute.
Defined.

(** ** orderbook_manager.py: what a call touches *)

Lemma run_call_caches_other m c key :
  key ≠ call_key c →
  OrderBookManager._caches (run_call m c).1 !! key
  = OrderBookManager._caches m !! key.
Proof.
  intros Hne.
  destruct c as [ex mk bids asks ts now | ex mk bids asks ts is_snapshot now];
    cbn [run_call call_key call_exchange call_market] in *.
  - unfold OrderBookManager.initialize_orderbook,
      OrderBookManager._get_or_create_cache.
    cbn [OrderBookManager._get_lock OrderBookManager._caches].
    destruct (OrderBookManager._caches m !! OrderBookManager._get_key ex mk);
      rewrite caught_state, update_from_cache_caches; cbn;
      rewrite !lookup_insert_ne; done.
  - by apply update_orderbook_other.
Qed.

(** Either no metrics are stored by a call, or those of its key are. *)
Lemma run_call_metrics m c :
  OrderBookManager._liquidity_metrics (run_call m c).1
    = OrderBookManager._liquidity_metrics m
  ∨ ∃ lm,
      OrderBookManager._liquidity_metrics (run_call m c).1
      = <[call_key c := lm]> (OrderBookManager._liquidity_metrics m).
Proof.
  destruct (OrderbookCache.has_valid_book (book_after_call m c)) eqn:Hvalid.
  - destruct (exchange_literal (call_exchange c)) eqn:Hex.
    + destruct (callback_accepted m) eqn:Haccepted.
      * right. assert ((run_call m c).2 = true) as Hsuccess.
        { by rewrite (run_call_success m c Hvalid), Hex, Haccepted. }
        destruct (run_call_valid m c Hsuccess Hvalid)
          as (mid & lm & _ & _ & _ & ? & _). by exists lm.
      * left. destruct (callback_not_accepted m Haccepted) as [f Hf].
        by destruct (run_call_not_scheduled m c f Hvalid Hex Hf)
          as (mid & _ & _ & _ & ? & _).
    + left. by destruct (run_call_refused m c Hvalid Hex) as (_ & _ & ? & _).
  - left. by destruct (run_call_invalid m c Hvalid) as (_ & _ & ? & _).
Qed.

(** X13.  A call works on the book of its own key only: the cache, the
    published snapshot, the metrics and the price history of every other
    key are after the call what they were before it. *)
Theorem call_leaves_other_keys_alone
    (m : OrderBookManager.t) (c : Call) (key : string * string) :
  key ≠ call_key c →
  let m' := (run_call m c).1 in
  OrderBookManager._caches m' !! key = OrderBookManager._caches m !! key
  ∧ OrderBookManager._orderbooks m' !! key
    = OrderBookManager._orderbooks m !! key
  ∧ OrderBookManager._liquidity_metrics m' !! key
    = OrderBookManager._liquidity_metrics m !! key
  ∧ history_of m' key = history_of m key.
Proof.
  intros Hne m'. subst m'. split; [by apply run_call_caches_other |].
  split; [| split].
  - destruct (run_call_orderbooks m c) as [-> | ->]; [done |].
    by rewrite lookup_insert_ne.
  - destruct (run_call_metrics m c) as [-> | [lm ->]]; [done |].
    by rewrite lookup_insert_ne.
  - destruct (run_call_history m c) as [Hsame | [mid Hstep]].
    + by apply history_of_ext.
    + rewrite (history_of_ext _ _ key Hstep).
      by apply history_step_other.
Qed.

(** X13 on scenario S1 published for Lighter, seen from a Hyperliquid
    key. *)
Lemma call_leaves_other_keys_alone_witness :
  ("hyperliquid", "BTC") ≠ call_key no_asks_call
  ∧ OrderBookManager._caches (run_call s1_manager no_asks_call).1
    !! ("hyperliquid", "BTC")
    = OrderBookManager._caches s1_manager !! ("hyperliquid", "BTC")
  ∧ history_of (run_call s1_manager no_asks_call).1 ("hyperliquid", "BTC")
    = history_of s1_manager ("hyperliquid", "BTC").
Proof.
  assert (("hyperliquid", "BTC") ≠ call_key no_asks_call) as Hne
    by discriminate.
  split; [exact Hne |].
  pose proof (call_leaves_other_keys_alone s1_manager no_asks_call
                ("hyperliquid", "BTC") Hne) as (Hcache & _ & _ & Hhist).
  split; [exact Hcache | exact Hhist].
Defined.

(** ** orderbook_manager.py: what is published *)

Lemma update_from_cache_callback m ex mk ts :
  OrderBookManager._price_update_callback
    (OrderBookManager._update_from_cache m ex mk ts).1
  = OrderBookManager._price_update_callback m.
Proof.
  unfold OrderBookManager._update_from_cache.
  repeat case_match; simplify_eq; simpl; try done.
  all: match goal with
       | H : OrderBookManager.create_task ?m0 ?task = _ |- _ =>
           destruct (create_task_fields m0 task) as (_ & _ & _ & _ & _ & Hcb);
           rewrite H in Hcb; simpl in Hcb; by rewrite Hcb
       end.
Qed.

Lemma run_call_callback m c :
  OrderBookManager._price_update_callback (run_call m c).1
  = OrderBookManager._price_update_callback m.
Proof.
  destruct (run_call_unfold m c)
    as (m1 & -> & _ & _ & _ & _ & _ & Hcb & _).
  by rewrite caught_state, update_from_cache_callback.
Qed.

(** With no callback or a coroutine function, a call either publishes
    nothing, or it publishes for its key the snapshot of its book
    together with the metrics computed from it. *)
Lemma run_call_publication m c :
  callback_accepted m = true →
  (OrderBookManager._orderbooks (run_call m c).1
     = OrderBookManager._orderbooks m
   ∧ OrderBookManager._liquidity_metrics (run_call m c).1
     = OrderBookManager._liquidity_metrics m)
  ∨ ∃ lm,
      OrderBookManager._orderbooks (run_call m c).1
      = <[call_key c :=
            snapshot_of (book_after_call m c) (call_exchange c)
                        (call_market c) (call_timestamp c)]>
          (OrderBookManager._orderbooks m)
      ∧ OrderBookManager._liquidity_metrics (run_call m c).1
        = <[call_key c := lm]> (OrderBookManager._liquidity_metrics m)
      ∧ outcome (LiquidityCalculator.calculate_all_metrics
                   (snapshot_of (book_after_call m c) (call_exchange c)
                                (call_market c) (call_timestamp c)) None)
        = Ok lm
      ∧ OrderbookCache.has_valid_book (book_after_call m c) = true
      ∧ exchange_literal (call_exchange c) = true.
Proof.
  intros Haccepted.
  destruct (OrderbookCache.has_valid_book (book_after_call m c)) eqn:Hvalid.
  - destruct (exchange_literal (call_exchange c)) eqn:Hex.
    + right. assert ((run_call m c).2 = true) as Hsuccess.
      { by rewrite (run_call_success m c Hvalid), Hex, Haccepted. }
      destruct (run_call_valid m c Hsuccess Hvalid)
        as (mid & lm & _ & Hcalc & Hob & Hlm & _). by exists lm.
    + left. by destruct (run_call_refused m c Hvalid Hex) as (_ & ? & ? & _).
  - left. by destruct (run_call_invalid m c Hvalid) as (_ & ? & ? & _).
Qed.

Lemma all_metrics_timestamp ob sizes lm :
  outcome (LiquidityCalculator.calculate_all_metrics ob sizes) = Ok lm →
  LiquidityMetrics.timestamp lm = OrderBookSnapshot.timestamp ob.
Proof.
  unfold LiquidityCalculator.calculate_all_metrics, LiquidityMetrics.make.
  destruct (OrderBookSnapshot.mid_price ob) as [mid |].
  - destruct (ladder_ok ob mid (default LIQUIDITY_SIZES sizes) ∅)
      as (metrics & Hout & _).
    rewrite (bind_ok _ _ _ Hout).
    destruct (exchange_literal _); [| done]. by intros [= <-].
  - destruct (exchange_literal _); [| done]. by intros [= <-].
Qed.

Lemma act_callback_accepted m a :
  callback_accepted m = true → registers_coroutine a →
  callback_accepted (act m a) = true.
Proof.
  intros Hm Ha. destruct a as [c | [[f | f] |] |]; simpl; try done.
  by rewrite (callback_accepted_ext _ _ (run_call_callback m c)).
Qed.

Lemma act_consistent_pairs m a :
  callback_accepted m = true →
  consistent_pairs m → consistent_pairs (act m a).
Proof.
  intros Haccepted Hm. destruct a as [c | cb |]; simpl; [| done |].
  - destruct (run_call_publication m c Haccepted)
      as [[Hob Hlm] | (lm & Hob & Hlm & Hcalc & _)];
      intros key; rewrite Hob, Hlm; [apply Hm |].
    destruct (decide (key = call_key c)) as [-> | Hne].
    + rewrite !lookup_insert_eq. split; [done |].
      by apply all_metrics_timestamp in Hcalc.
    + rewrite !lookup_insert_ne by done. apply Hm.
  - intros key. simpl. by rewrite !lookup_empty.
Qed.

(** X14.  After any sequence of calls, registrations of callbacks that
    are async functions (or of none) and clears, the manager holds for
    every key either both a snapshot and metrics or neither, and the
    metrics held are the full default ladder computed from the snapshot
    held, with its timestamp: a reader of both gets a pair that belongs
    together. *)
Theorem published_pairs_are_consistent (window : Z) (actions : list Action) :
  Forall registers_coroutine actions →
  consistent_pairs (manager_run window actions).
Proof.
  unfold manager_run. intros Hactions.
  enough (callback_accepted (foldl act (OrderBookManager.new window) actions)
          = true
          ∧ consistent_pairs (foldl act (OrderBookManager.new window) actions))
    as [_ H]; [exact H |].
  induction actions as [| a actions IH] using rev_ind.
  - split; [done |]. intros key. simpl. by rewrite !lookup_empty.
  - apply Forall_app in Hactions as [Hactions Ha].
    apply Forall_inv in Ha.
    destruct (IH Hactions) as [Haccepted Hpairs].
    rewrite foldl_app. simpl. split.
    + by apply act_callback_accepted.
    + by apply act_consistent_pairs.
Qed.

(** X14 on scenario S1 published with a callback, followed by an update
    that empties the ask side. *)
Lemma published_pairs_are_consistent_witness :
  Forall registers_coroutine
    [act_set_callback (Some s1_callback); act_call s1_call;
     act_call no_asks_call]
  ∧ consistent_pairs
      (manager_run PRICE_HISTORY_SECONDS
         [act_set_callback (Some s1_callback); act_call s1_call;
          act_call no_asks_call]).
Proof.
  assert (Forall registers_coroutine
            [act_set_callback (Some s1_callback); act_call s1_call;
             act_call no_asks_call]) as Hactions.
  { repeat constructor. }
  split; [exact Hactions |].
  exact (published_pairs_are_consistent PRICE_HISTORY_SECONDS _ Hactions).
Defined.



Lemma snapshot_of_well_formed c ex mk ts :
  OrderbookCache.has_valid_book c = true →
  exchange_literal ex = true →
  well_formed_snapshot (ex, mk) (snapshot_of c ex mk ts).
Proof.
  intros Hvalid Hex.
  destruct (valid_book_sides c ex mk ts Hvalid) as [Hb Ha].
  destruct (valid_book_mid c ex mk ts Hvalid) as [mid Hmid].
  split; [done |]. split; [done |]. split; [done |]. split; [done |].
  split; [by eexists |].
  destruct (OrderBookSnapshot.spread (snapshot_of c ex mk ts)) eqn:Hs;
    [by eexists |].
  apply spread_None in Hs as [? | ?]; done.
Qed.

(** A snapshot is published only for a book with both sides quoted and
    an exchange of the literal type. *)
Lemma run_call_snapshot m c :
  OrderBookManager._orderbooks (run_call m c).1
    = OrderBookManager._orderbooks m
  ∨ (OrderBookManager._orderbooks (run_call m c).1
     = <[call_key c :=
           snapshot_of (book_after_call m c) (call_exchange c)
                       (call_market c) (call_timestamp c)]>
         (OrderBookManager._orderbooks m)
     ∧ OrderbookCache.has_valid_book (book_after_call m c) = true
     ∧ exchange_literal (call_exchange c) = true).
Proof.
  destruct (OrderbookCache.has_valid_book (book_after_call m c)) eqn:Hvalid.
  - destruct (exchange_literal (call_exchange c)) eqn:Hex.
    + destruct (run_call_orderbooks m c) as [Hsame | Hnew];
        [by left | by right].
    + left. by destruct (run_call_refused m c Hvalid Hex) as (_ & ? & _).
  - left. by destruct (run_call_invalid m c Hvalid) as (_ & ? & _).
Qed.

(** X15.  After any sequence of calls, callback registrations and
    clears, every snapshot the manager holds is filed under its own
    exchange and market, has an exchange of the literal type, and has
    bids and asks, so that its mid and spread are not null: a book with
    an empty side is never published. *)
Theorem published_snapshots_are_two_sided
    (window : Z) (actions : list Action) (key : string * string)
    (snapshot : OrderBookSnapshot.t) :
  OrderBookManager._orderbooks (manager_run window actions) !! key
    = Some snapshot →
  well_formed_snapshot key snapshot.
Proof.
  revert snapshot. unfold manager_run.
  induction actions as [| a actions IH] using rev_ind; intros snapshot.
  - simpl. by rewrite lookup_empty.
  - rewrite foldl_app. simpl.
    destruct a as [c | cb |]; simpl; [| apply IH | by rewrite lookup_empty].
    destruct (run_call_snapshot (foldl act (OrderBookManager.new window)
                                       actions) c)
      as [-> | (-> & Hvalid & Hex)]; [apply IH |].
    destruct (decide (key = call_key c)) as [-> | Hne].
    + rewrite lookup_insert_eq. intros [= <-].
      by apply snapshot_of_well_formed.
    + rewrite lookup_insert_ne by done. apply IH.
Qed.

(** X15 on the manager that has published scenario S1. *)
Lemma published_snapshots_are_two_sided_witness :
  ∃ snapshot,
    OrderBookManager._orderbooks
      (manager_run PRICE_HISTORY_SECONDS
         [act_set_callback (Some s1_callback); act_call s1_call])
    !! ("lighter", "market_0") = Some snapshot
    ∧ well_formed_snapshot ("lighter", "market_0") snapshot.
Proof.
  destruct (OrderBookManager._orderbooks
              (manager_run PRICE_HISTORY_SECONDS
                 [act_set_callback (Some s1_callback); act_call s1_call])
            !! ("lighter", "market_0")) as [snapshot |] eqn:Hlook.
  - exists snapshot. split; [reflexivity |].
    exact (published_snapshots_are_two_sided PRICE_HISTORY_SECONDS
             [act_set_callback (Some s1_callback); act_call s1_call]
             ("lighter", "market_0") snapshot Hlook).
  - exfalso. revert Hlook. vm_compute. discriminate.
Defined.

(** ** orderbook_manager.py: refused calls, ticks and history *)

(** X16.  A snapshot call for an exchange outside the literal type
    returns failure exactly when the snapshot quotes both sides, and
    publishes nothing either way: no snapshot, no metrics, no history
    point, no tick.  The book of that key is written all the same, as a
    full replacement by the snapshot. *)
Theorem refused_snapshot_is_still_written
    (m : OrderBookManager.t) (ex mk : string)
    (bids asks : list OrderBookLevel.t) (ts : option Qc) (now : Qc) :
  exchange_literal ex = false →
  let r := OrderBookManager.initialize_orderbook m ex mk bids asks ts now in
  r.2 = negb (OrderbookCache.has_valid_book (cache_of r.1 ex mk))
  ∧ OrderBookManager._orderbooks r.1 = OrderBookManager._orderbooks m
  ∧ OrderBookManager._liquidity_metrics r.1
    = OrderBookManager._liquidity_metrics m
  ∧ OrderBookManager._price_history r.1 = OrderBookManager._price_history m
  ∧ OrderBookManager.scheduled r.1 = OrderBookManager.scheduled m
  ∧ book_initialized r.1 ex mk = true
  ∧ replaced_by bids (bids_of r.1 ex mk)
  ∧ replaced_by asks (asks_of r.1 ex mk).
Proof.
  intros Hex r. subst r.
  set (c := call_initialize_orderbook ex mk bids asks ts now).
  change (OrderBookManager.initialize_orderbook m ex mk bids asks ts now)
    with (run_call m c).
  change (cache_of (run_call m c).1 ex mk) with (book_after_call m c).
  assert (book_initialized (run_call m c).1 ex mk = true
          ∧ replaced_by bids (bids_of (run_call m c).1 ex mk)
          ∧ replaced_by asks (asks_of (run_call m c).1 ex mk)) as Hbook.
  { unfold book_initialized, bids_of, asks_of, cache_of. subst c.
    cbn [run_call]. rewrite initialize_orderbook_cache. simpl.
    split; [done |]. split; apply store_levels_replaced. }
  destruct (OrderbookCache.has_valid_book (book_after_call m c)) eqn:Hvalid.
  - destruct (run_call_refused m c Hvalid Hex) as (-> & -> & -> & -> & ->).
    by repeat split; try apply Hbook.
  - destruct (run_call_invalid m c Hvalid) as (-> & -> & -> & -> & ->).
    by repeat split; try apply Hbook.
Qed.

(** X16 on scenario S1 sent for an exchange that is not known. *)
Lemma refused_snapshot_is_still_written_witness :
  exchange_literal "binance" = false
  ∧ (OrderBookManager.initialize_orderbook
       (OrderBookManager.new PRICE_HISTORY_SECONDS) "binance" "BTC"
       [lv 100 1; lv 99 2] [lv 101 1; lv 102 3] None 1).2 = false
  ∧ replaced_by [lv 100 1; lv 99 2]
      (bids_of
         (OrderBookManager.initialize_orderbook
            (OrderBookManager.new PRICE_HISTORY_SECONDS) "binance" "BTC"
            [lv 100 1; lv 99 2] [lv 101 1; lv 102 3] None 1).1
         "binance" "BTC").
Proof.
  assert (exchange_literal "binance" = false) as Hex by reflexivity.
  split; [exact Hex |].
  pose proof (refused_snapshot_is_still_written
                (OrderBookManager.new PRICE_HISTORY_SECONDS) "binance" "BTC"
                [lv 100 1; lv 99 2] [lv 101 1; lv 102 3] None 1 Hex)
    as (Hresult & _ & _ & _ & _ & _ & Hbids & _).
  split; [| exact Hbids].
  rewrite Hresult. vm_compute. reflexivity.
Defined.

(** A call schedules at most one tick, stamped with its own key and
    timestamp. *)
Lemma run_call_scheduled m c :
  OrderBookManager.scheduled (run_call m c).1 = OrderBookManager.scheduled m
  ∨ ∃ t,
      OrderBookManager.scheduled (run_call m c).1
      = OrderBookManager.scheduled m ++ [t]
      ∧ task_stamp t = (call_exchange c, call_market c, call_timestamp c)
      ∧ OrderBookManager._price_update_callback m
        = Some (OrderBookManager.callback t)
      ∧ published_mid (run_call m c).1 (call_key c)
        = Some (OrderBookManager.task_price t).
Proof.
  destruct (OrderbookCache.has_valid_book (book_after_call m c)) eqn:Hvalid.
  - destruct (exchange_literal (call_exchange c)) eqn:Hex;
      [destruct (callback_accepted m) eqn:Haccepted |].
    + assert ((run_call m c).2 = true) as Hsuccess.
      { by rewrite (run_call_success m c Hvalid), Hex, Haccepted. }
      destruct (run_call_valid m c Hsuccess Hvalid)
        as (mid & lm & Hmid & _ & Hob & _ & Hsched).
      rewrite Hsched.
      destruct (OrderBookManager._price_update_callback m) as [cb |];
        [right | left; by rewrite app_nil_r].
      eexists. split; [reflexivity |]. split; [done |]. split; [done |].
      unfold published_mid. by rewrite Hob, lookup_insert_eq.
    + left. destruct (callback_not_accepted m Haccepted) as [f Hf].
      by destruct (run_call_not_scheduled m c f Hvalid Hex Hf)
        as (mid & _ & _ & _ & _ & _ & ?).
    + left. by destruct (run_call_refused m c Hvalid Hex) as (_ & _ & _ & _ & ?).
  - left. by destruct (run_call_invalid m c Hvalid) as (_ & _ & _ & _ & ?).
Qed.

(** X17.  After any sequence of calls, callback registrations and
    clears, the ticks scheduled so far are in the order of the calls that
    caused them, at most one per call, each stamped with the exchange,
    market and timestamp of its call: the stamps of the ticks are a
    sublist of the stamps of the calls. *)
Theorem ticks_follow_the_calls (window : Z) (actions : list Action) :
  sublist
    (task_stamp <$> OrderBookManager.scheduled (manager_run window actions))
    (omap call_stamp actions).
Proof.
  unfold manager_run.
  induction actions as [| a actions IH] using rev_ind; [done |].
  rewrite foldl_app, omap_app. simpl.
  destruct a as [c | cb |]; simpl.
  - destruct (run_call_scheduled (foldl act (OrderBookManager.new window)
                                        actions) c)
      as [-> | (t & -> & Hstamp & _)].
    + by apply sublist_inserts_r.
    + rewrite fmap_app. simpl. rewrite Hstamp. by apply sublist_app.
  - by rewrite app_nil_r.
  - by rewrite app_nil_r.
Qed.

(** X18.  A successful call that leaves both sides of its book quoted,
    on a manager whose history window is not negative, leaves the mid it
    publishes as the newest entry of the price history of its key,
    stamped with the timestamp of the call. *)
Theorem newest_history_entry_is_published_mid
    (m : OrderBookManager.t) (c : Call) :
  (0 ≤ OrderBookManager._price_history_seconds m)%Z →
  (run_call m c).2 = true →
  OrderbookCache.has_valid_book (book_after_call m c) = true →
  ∃ mid,
    published_mid (run_call m c).1 (call_key c) = Some mid
    ∧ last (history_of (run_call m c).1 (call_key c))
      = Some {| PricePoint.timestamp := call_timestamp c;
                PricePoint.price := mid |}.
Proof.
  intros Hwindow Hsuccess Hvalid.
  rewrite (run_call_success m c Hvalid) in Hsuccess.
  apply andb_true_iff in Hsuccess as [Hex Haccepted].
  destruct (run_call_unfold m c)
    as (m1 & Hrun & Hc & _ & _ & Hph & Hsec & Hcb & _).
  rewrite <- (callback_accepted_ext _ _ Hcb) in Haccepted.
  destruct (update_from_cache_valid m1 _ _ (call_timestamp c) _
              Hc Hvalid Hex Haccepted)
    as (mid & lm & Hmid & _ & _ & Hob & _ & Hhist & _).
  exists mid. rewrite Hrun, caught_state. split.
  - unfold published_mid. by rewrite Hob, lookup_insert_eq.
  - rewrite (history_of_ext _ (history_step m (append_of c mid))).
    + exact (history_step_keeps_newest m (append_of c mid) Hwindow).
    + rewrite Hhist.
      unfold history_step, append_of,
        OrderBookManager._update_price_history. simpl.
      by rewrite Hph, Hsec.
Qed.

(** X18 on the second publication of scenario S1. *)
Lemma newest_history_entry_is_published_mid_witness :
  (0 ≤ OrderBookManager._price_history_seconds s1_manager)%Z
  ∧ (run_call s1_manager s1_call).2 = true
  ∧ OrderbookCache.has_valid_book (book_after_call s1_manager s1_call) = true
  ∧ ∃ mid,
      published_mid (run_call s1_manager s1_call).1 (call_key s1_call)
        = Some mid
      ∧ last (history_of (run_call s1_manager s1_call).1 (call_key s1_call))
        = Some {| PricePoint.timestamp := call_timestamp s1_call;
                  PricePoint.price := mid |}.
Proof.
  assert (0 ≤ OrderBookManager._price_history_seconds s1_manager)%Z
    as Hwindow.
  { vm_compute. discriminate. }
  assert ((run_call s1_manager s1_call).2 = true) as Hsuccess.
  { vm_compute. reflexivity. }
  assert (OrderbookCache.has_valid_book (book_after_call s1_manager s1_call)
          = true) as Hvalid.
  { vm_compute. reflexivity. }
  split; [exact Hwindow |]. split; [exact Hsuccess |].
  split; [exact Hvalid |].
  exact (newest_history_entry_is_published_mid s1_manager s1_call
           Hwindow Hsuccess Hvalid).
Defined.

(** ** orderbook_manager.py: queries, statistics and clearing *)

Lemma elem_of_last {A} (l : list A) x : last l = Some x → x ∈ l.
Proof.
  intros Hlast. destruct l as [| y l _] using rev_ind; [done |].
  rewrite last_snoc in Hlast. injection Hlast as ->.
  apply elem_of_app. right. left.
Qed.

(** X19.  [get_price_history] returns nothing when the key has no price
    point.  Otherwise, for an exchange of the literal type, it returns the
    stored points, in their order, that are no older than the newest
    point minus the duration asked for, all of them when no duration is
    given; the newest point is among them whenever the duration is not
    negative; and the window it reports is the duration asked for, or the
    manager's own window when the duration is missing or zero.  For any
    other exchange it raises a validation error. *)
Theorem price_history_query
    (m : OrderBookManager.t) (ex mk : string) (d : option Z) :
  let stored := history_of m (ex, mk) in
  let answer := OrderBookManager.get_price_history m ex mk d in
  match last stored with
  | None => answer = Ok None
  | Some latest =>
      if exchange_literal ex
      then ∃ h,
             answer = Ok (Some h)
             ∧ PriceHistory.exchange h = ex
             ∧ PriceHistory.market h = mk
             ∧ sublist (PriceHistory.data_points h) stored
             ∧ (∀ p, p ∈ PriceHistory.data_points h
                     ↔ p ∈ stored ∧ in_query_window d latest p)
             ∧ (match d with
                | Some d => (0 ≤ d)%Z
                | None => True
                end → latest ∈ PriceHistory.data_points h)
             ∧ PriceHistory.timeframe_seconds h
               = match d with
                 | Some d =>
                     if bool_decide (d ≠ 0%Z) then d
                     else OrderBookManager._price_history_seconds m
                 | None => OrderBookManager._price_history_seconds m
                 end
      else answer = Raise ValidationError
  end.
Proof.
  intros stored answer. subst stored answer.
  unfold OrderBookManager.get_price_history, history_of.
  cbn [OrderBookManager._get_lock OrderBookManager._price_history].
  change (OrderBookManager._get_key ex mk) with (ex, mk).
  destruct (OrderBookManager._price_history m !! (ex, mk)) as [history |];
    cbn [from_option id]; [| done].
  destruct (last history) as [latest |] eqn:Hlast; [| done].
  unfold PriceHistory.make. destruct (exchange_literal ex); [| done].
  eexists. split; [reflexivity |]. cbn.
  split; [done |]. split; [done |].
  destruct d as [d |]; cbn.
  - split; [apply sublist_filter |].
    split; [intros p; by rewrite list_elem_of_filter, (comm and) |].
    split; [| done]. intros Hd. apply list_elem_of_filter.
    split; [| by apply elem_of_last].
    pose proof (Qc_of_Z_nonneg d Hd) as Hnn. revert Hnn.
    generalize (Qc_of_Z d). intros w Hw. qc_lra.
  - split; [done |]. split; [| split; [| done]].
    + intros p. split; [by split | by intros [? _]].
    + intros _. by apply elem_of_last.
Qed.

Lemma cache_of_update_orderbook m ex mk bids asks ts is_snapshot now :
  cache_of
    (OrderBookManager.update_orderbook m ex mk bids asks ts is_snapshot now).1
    ex mk
  = if is_snapshot || negb (OrderbookCache.is_initialized (cache_of m ex mk))
    then OrderbookCache.initialize (cache_of m ex mk) bids asks
           (default now ts)
    else OrderbookCache.update (cache_of m ex mk) bids asks (default now ts).
Proof. unfold cache_of at 1. by rewrite update_orderbook_cache. Qed.

(** X20.  [clear] forgets what was published: after it every key has no
    snapshot, no metrics and no price history.  It keeps the books and the
    callback: a diff sent next for a book that was initialized is applied
    to the maps that book had before the clear. *)
Theorem clear_forgets_publications_keeps_books
    (m : OrderBookManager.t) (ex mk : string)
    (bids asks : list OrderBookLevel.t) (ts : option Qc) (now : Qc)
    (d : option Z) :
  let cleared := OrderBookManager.clear m in
  let m' :=
    (OrderBookManager.update_orderbook cleared ex mk bids asks ts false now).1
  in
  OrderBookManager.get_orderbook cleared ex mk = None
  ∧ OrderBookManager.get_liquidity_metrics cleared ex mk = None
  ∧ OrderBookManager.get_price_history cleared ex mk d = Ok None
  ∧ OrderBookManager._price_update_callback cleared
    = OrderBookManager._price_update_callback m
  ∧ cache_of cleared ex mk = cache_of m ex mk
  ∧ if book_initialized m ex mk
    then diff_applied (bids_of m ex mk) bids (bids_of m' ex mk)
         ∧ diff_applied (asks_of m ex mk) asks (asks_of m' ex mk)
    else replaced_by bids (bids_of m' ex mk)
         ∧ replaced_by asks (asks_of m' ex mk).
Proof.
  intros cleared m'.
  assert (cache_of cleared ex mk = cache_of m ex mk) as Hcache by done.
  split; [apply lookup_empty |]. split; [apply lookup_empty |].
  split.
  { unfold OrderBookManager.get_price_history. subst cleared. cbn.
    by rewrite lookup_empty. }
  split; [done |]. split; [done |].
  subst m'. unfold bids_of, asks_of, book_initialized.
  rewrite cache_of_update_orderbook, Hcache. cbn [orb].
  unfold OrderbookCache.is_initialized.
  destruct (OrderbookCache._initialized (cache_of m ex mk)) eqn:Hinit;
    cbn [negb].
  - unfold OrderbookCache.update. rewrite Hinit. cbn.
    split; apply apply_levels_diff.
  - cbn. split; apply store_levels_replaced.
Qed.

Lemma total_points_insert (hs : gmap (string * string) (list PricePoint.t))
    key h :
  (map_fold (λ _ (h : list PricePoint.t) acc, length h + acc) 0 (<[key := h]> hs)
   + length (default [] (hs !! key))
   = map_fold (λ _ (h : list PricePoint.t) acc, length h + acc) 0 hs
     + length h)%nat.
Proof.
  destruct (hs !! key) as [old |] eqn:Hold; cbn [default].
  - rewrite <- (insert_delete_eq hs).
    rewrite (map_fold_delete_L _ _ key old hs); [| intros; lia | done].
    rewrite map_fold_insert_L; [unfold id; lia | intros; lia |].
    apply lookup_delete_eq.
  - rewrite map_fold_insert_L; [simpl; lia | intros; lia | done].
Qed.

Lemma act_stats m a :
  (OrderBookManager.tracked_markets (OrderBookManager.get_stats (act m a))
   ≤ OrderBookManager.tracked_markets (OrderBookManager.get_stats m)
     + (if is_call a then 1 else 0))%nat
  ∧ (OrderBookManager.total_price_points
       (OrderBookManager.get_stats (act m a))
     ≤ OrderBookManager.total_price_points (OrderBookManager.get_stats m)
       + (if is_call a then 1 else 0))%nat.
Proof.
  unfold OrderBookManager.get_stats. cbn [OrderBookManager.tracked_markets
    OrderBookManager.total_price_points].
  destruct a as [c | cb |]; cbn [act is_call].
  - split.
    + destruct (run_call_orderbooks m c) as [-> | ->]; [lia |].
      rewrite map_size_insert. destruct (_ !! _); simpl; lia.
    + destruct (run_call_history m c) as [-> | [mid ->]]; [lia |].
      unfold history_step, OrderBookManager._update_price_history.
      cbn [OrderBookManager._price_history
             OrderBookManager.set_price_history].
      pose proof (total_points_insert (OrderBookManager._price_history m)
                    (OrderBookManager._get_key (append_exchange (append_of c mid))
                       (append_market (append_of c mid)))
                    (OrderBookManager.prune
                       (append_timestamp (append_of c mid)
                        - Qc_of_Z (OrderBookManager._price_history_seconds m))
                       (default [] (OrderBookManager._price_history m
                                    !! OrderBookManager._get_key
                                         (append_exchange (append_of c mid))
                                         (append_market (append_of c mid)))
                        ++ [ {| PricePoint.timestamp :=
                                  append_timestamp (append_of c mid);
                                PricePoint.price :=
                                  append_price (append_of c mid) |} ])))
        as Htotal.
      pose proof (prune_length
                    (append_timestamp (append_of c mid)
                     - Qc_of_Z (OrderBookManager._price_history_seconds m))
                    (default [] (OrderBookManager._price_history m
                                 !! OrderBookManager._get_key
                                      (append_exchange (append_of c mid))
                                      (append_market (append_of c mid)))
                     ++ [ {| PricePoint.timestamp :=
                               append_timestamp (append_of c mid);
                             PricePoint.price :=
                               append_price (append_of c mid) |} ]))
        as Hpruned.
      rewrite length_app in Hpruned. cbn [length] in Hpruned.
      lia.
  - split; simpl; lia.
  - split; simpl; rewrite ?map_size_empty, ?map_fold_empty; lia.
Qed.

(** X21.  After any sequence of calls, callback registrations and
    clears, [get_stats] reports at most as many tracked markets, and at
    most as many stored price points over all keys, as there were calls;
    the window it reports is the one the manager was created with. *)
Theorem stats_bounded_by_calls (window : Z) (actions : list Action) :
  let stats := OrderBookManager.get_stats (manager_run window actions) in
  (OrderBookManager.tracked_markets stats ≤ length (filter is_call actions))%nat
  ∧ (OrderBookManager.total_price_points stats
     ≤ length (filter is_call actions))%nat
  ∧ OrderBookManager.price_history_seconds stats = window.
Proof.
  unfold manager_run.
  induction actions as [| a actions (IHm & IHp & IHw)] using rev_ind.
  - simpl. by rewrite map_size_empty, map_fold_empty.
  - rewrite foldl_app, filter_app, length_app. simpl.
    destruct (act_stats (foldl act (OrderBookManager.new window) actions) a)
      as [Hm Hp].
    assert (length (filter is_call [a]) = if is_call a then 1 else 0)%nat
      as ->.
    { by destruct a. }
    unfold OrderBookManager.get_stats in *.
    cbn [OrderBookManager.tracked_markets OrderBookManager.total_price_points
           OrderBookManager.price_history_seconds] in *.
    split; [lia |]. split; [lia |].
    destruct a as [c | cb |]; simpl; [| done | done].
    by rewrite run_call_seconds.
Qed.
